(** * Smart-contract analysis helpers: a shallow embedding and its properties

    The development embeds the text-analysis functions of
    [src/agent/contract_helpers.py] and [src/agent/contract_utils.py]:
    [format_solidity_code], [get_contract_metrics], [suggest_improvements],
    [handle_compilation_errors], [validate_user_input],
    [analyze_gas_usage], [generate_contract_documentation] and
    [explain_generated_code]; the tools of [src/agent/agent.py]:
    [get_available_templates], [select_contract_template],
    [generate_contract_code], [add_custom_functions],
    [implement_access_control], [add_security_features] and
    [validate_contract_structure]; and [_parse_origins] of [src/server.py].
    The functions that compile, deploy or write files are not modelled.

    Modelling conventions.
    - A Python [str] is a [string]; every character is a code point below
      256 (the Latin-1 range), and the character classes ([str.isspace],
      the regular-expression classes [\s], [\w], [\d], [str.lower]) are the
      ones Python uses on that range.
    - Python integers are [Z] (or [nat] for lengths and counts).  [int]
      on a string is CPython's, with the limit of 4300 digits it has by
      default: on a longer string it raises [ValueError].
    - A name a module uses without importing it is unbound there: its
      lookup raises [NameError] ([re] in [contract_utils.py]).
    - Floating-point fields ([comment_ratio], [overall],
      [deployment_cost_eth]) are left out of the result records.
    - The uniform result envelope is [result]: [Success data] for
      [{"status": "success", "data": ...}] and [Error msg] for
      [{"status": "error", "error_message": msg}].
    - JSON arguments are taken after [json.loads]: the functions accept the
      already parsed value too ([... if isinstance(x, str) else x]). *)

From Stdlib Require Import String Ascii List ZArith NArith Lia Bool Arith.
From Stdlib Require Import DecimalString.
From Stdlib Require Import QArith Qminmax.
From Stdlib Require Import Sorted.
Import ListNotations.

Close Scope Q_scope.

Open Scope string_scope.
Open Scope bool_scope.

(** ** The result envelope *)

Inductive result (A : Type) : Type :=
| Success (data : A)
| Error (error_message : string).
Arguments Success {A} data.
Arguments Error {A} error_message.

Definition is_success {A} (r : result A) : bool :=
  match r with Success _ => true | Error _ => false end.

(** ** Python string primitives *)

Module PyStr.

Definition code (c : ascii) : nat := nat_of_ascii c.

Definition between (lo hi : nat) (c : ascii) : bool :=
  (lo <=? code c)%nat && (code c <=? hi)%nat.

(** [str.isspace] on code points below 256; the class [\s] is the same. *)
Definition is_space (c : ascii) : bool :=
  between 9 13 c || between 28 32 c
  || (code c =? 133)%nat || (code c =? 160)%nat.

(** [\d]: the decimal digits; below 256 these are [0-9]. *)
Definition is_digit (c : ascii) : bool := between 48 57 c.

(** [\w]: alphanumeric (alphabetic, decimal, digit or numeric) or [_]. *)
Definition is_word (c : ascii) : bool :=
  between 48 57 c || between 65 90 c || between 97 122 c
  || (code c =? 95)%nat
  || (code c =? 170)%nat || (code c =? 178)%nat || (code c =? 179)%nat
  || (code c =? 181)%nat || (code c =? 185)%nat || (code c =? 186)%nat
  || between 188 190 c || between 192 214 c || between 216 246 c
  || between 248 255 c.

(** [str.lower] on one character. *)
Definition lower_char (c : ascii) : ascii :=
  if between 65 90 c || between 192 214 c || between 216 222 c
  then ascii_of_nat (code c + 32) else c.

Fixpoint lower (s : string) : string :=
  match s with
  | EmptyString => EmptyString
  | String c s' => String (lower_char c) (lower s')
  end.

Definition is_empty (s : string) : bool :=
  match s with EmptyString => true | _ => false end.

(** [s.startswith(p)] *)
Fixpoint startswith (p s : string) : bool :=
  match p with
  | EmptyString => true
  | String a p' =>
      match s with
      | EmptyString => false
      | String b s' => Ascii.eqb a b && startswith p' s'
      end
  end.

(** [sub in s] *)
Fixpoint contains (sub s : string) : bool :=
  startswith sub s ||
  match s with
  | EmptyString => false
  | String _ s' => contains sub s'
  end.

(** [s.count(sub)]: occurrences found left to right, without overlap.
    [skip] is the number of characters of the last occurrence still to
    pass. *)
Fixpoint count_from (sub s : string) (skip : nat) : nat :=
  match s with
  | EmptyString => 0
  | String _ s' =>
      match skip with
      | S k => count_from sub s' k
      | O => if startswith sub s
             then S (count_from sub s' (String.length sub - 1))
             else count_from sub s' 0
      end
  end.

Definition count (sub s : string) : nat :=
  if is_empty sub then S (String.length s) else count_from sub s 0.

Definition cons_head (c : ascii) (l : list string) : list string :=
  match l with
  | [] => [String c EmptyString]
  | h :: t => String c h :: t
  end.

(** [s.split(sep)] for a non-empty separator. *)
Fixpoint split_from (sep s : string) (skip : nat) : list string :=
  match s with
  | EmptyString => [EmptyString]
  | String c s' =>
      match skip with
      | S k => split_from sep s' k
      | O => if startswith sep s
             then EmptyString :: split_from sep s' (String.length sep - 1)
             else cons_head c (split_from sep s' 0)
      end
  end.

Definition split (sep s : string) : list string := split_from sep s 0.

Definition newline : string := String (ascii_of_nat 10) EmptyString.

(** [s.split('\n')] *)
Definition lines (s : string) : list string := split newline s.

(** [s.split()]: the maximal runs of non-space characters. *)
Fixpoint split_ws (s : string) : list string :=
  match s with
  | EmptyString => []
  | String c s' =>
      if is_space c then split_ws s'
      else match s' with
           | EmptyString => [String c EmptyString]
           | String d _ =>
               if is_space d then String c EmptyString :: split_ws s'
               else cons_head c (split_ws s')
           end
  end.

Fixpoint lstrip (s : string) : string :=
  match s with
  | EmptyString => EmptyString
  | String c s' => if is_space c then lstrip s' else s
  end.

Fixpoint rstrip (s : string) : string :=
  match s with
  | EmptyString => EmptyString
  | String c s' =>
      let r := rstrip s' in
      if is_space c && is_empty r then EmptyString else String c r
  end.

(** [s.strip()] *)
Definition strip (s : string) : string := rstrip (lstrip s).

(** [sep.join(l)] *)
Fixpoint join (sep : string) (l : list string) : string :=
  match l with
  | [] => EmptyString
  | [x] => x
  | x :: rest => x ++ sep ++ join sep rest
  end.

(** [l[i]] for a list of strings, the empty string standing for an index
    the callers never reach. *)
Definition item (l : list string) (i : nat) : string := nth i l EmptyString.

(** The longest prefix of [s] in the class [p], and what follows it. *)
Fixpoint span (p : ascii -> bool) (s : string) : string * string :=
  match s with
  | EmptyString => (EmptyString, EmptyString)
  | String c s' =>
      if p c then let (a, b) := span p s' in (String c a, b)
      else (EmptyString, s)
  end.

Fixpoint drop (n : nat) (s : string) : string :=
  match n with
  | O => s
  | S k => match s with
           | EmptyString => EmptyString
           | String _ s' => drop k s'
           end
  end.

(** [any(k in s for k in keywords)] *)
Definition any_in (keywords : list string) (s : string) : bool :=
  existsb (fun k => contains k s) keywords.

(** [any(s.startswith(k) for k in prefixes)] *)
Definition any_prefix (prefixes : list string) (s : string) : bool :=
  existsb (fun k => startswith k s) prefixes.

(** [str(n)] for a natural number. *)
Definition decimal (n : nat) : string :=
  NilZero.string_of_uint (Nat.to_uint n).

(** The value of a string of decimal digits, read from the left. *)
Definition digit_value (c : ascii) : N := N.of_nat (code c - 48).

Fixpoint int_from (acc : N) (ds : string) : N :=
  match ds with
  | EmptyString => acc
  | String c ds' => int_from (10 * acc + digit_value c)%N ds'
  end.

(** The longest string of digits [int] converts:
    [sys.get_int_max_str_digits()], left at its default. *)
Definition max_str_digits : nat := 4300.

Inductive value_error :=
| ValueError (message : string).

(** [int(ds)] for a non-empty string of decimal digits.  A string of more
    than [max_str_digits] digits, leading zeros counted, is refused. *)
Definition int (ds : string) : value_error + N :=
  if (max_str_digits <? String.length ds)%nat
  then inl (ValueError
              ("Exceeds the limit (4300 digits) for integer string conversion: value has "
               ++ decimal (String.length ds)
               ++ " digits; use sys.set_int_max_str_digits() to increase the limit"))
  else inr (int_from 0%N ds).

End PyStr.

Import PyStr.

(** ** The regular expressions of the sources

    Each pattern the sources hand to [re.search] is written out as a
    matcher anchored at the start of its argument; [search] tries the
    start positions from left to right, as [re.search] does.  In every
    pattern a greedy repetition is followed by a character outside its
    class, so the only successful way to match is to take each run whole:
    backtracking never finds a second match at the same start. *)

Module Re.

Fixpoint search {A : Type} (match_here : string -> option A) (s : string)
  : option A :=
  match match_here s with
  | Some x => Some x
  | None =>
      match s with
      | EmptyString => None
      | String _ s' => search match_here s'
      end
  end.

(** [kw\s+(\w+)] for a literal [kw]; the value is group 1. *)
Definition keyword_name_here (kw s : string) : option string :=
  if startswith kw s then
    let (ws, r) := span is_space (drop (String.length kw) s) in
    let (w, _) := span is_word r in
    if is_empty ws || is_empty w then None else Some w
  else None.

(** [\s*\w+\s+(\w+)]; the value is the last group. *)
Definition declaration_here (s : string) : option string :=
  let (_, r0) := span is_space s in
  let (w1, r1) := span is_word r0 in
  let (ws, r2) := span is_space r1 in
  let (w2, _) := span is_word r2 in
  if is_empty w1 || is_empty ws || is_empty w2 then None else Some w2.

(** [(public|private|internal)] at the start: what follows the keyword. *)
Definition visibility_here (s : string) : option string :=
  if startswith "public" s then Some (drop 6 s)
  else if startswith "private" s then Some (drop 7 s)
  else if startswith "internal" s then Some (drop 8 s)
  else None.

(** [(public|private|internal)?\s*\w+\s+(\w+)]; the value is group 2.
    The optional group is tried with the keyword first and without it
    when the rest fails. *)
Definition state_variable_here (s : string) : option string :=
  match visibility_here s with
  | Some r =>
      match declaration_here r with
      | Some v => Some v
      | None => declaration_here s
      end
  | None => declaration_here s
  end.

(** [:(\d+):]; the value is group 1. *)
Definition line_marker_here (s : string) : option string :=
  match s with
  | String c r =>
      if Ascii.eqb c ":"%char then
        let (ds, r1) := span is_digit r in
        if is_empty ds then None
        else if startswith ":" r1 then Some ds else None
      else None
  | EmptyString => None
  end.

(** The pattern of the documentation extractor: [function\s+(\w+)\s*],
    an opening parenthesis, a second group of any characters but the
    closing parenthesis, taken greedily, and the closing parenthesis.
    The value is groups 1 and 2. *)
Definition function_signature_here (s : string) : option (string * string) :=
  if startswith "function" s then
    let (ws, r) := span is_space (drop 8 s) in
    let (w, r1) := span is_word r in
    let (_, r2) := span is_space r1 in
    if is_empty ws || is_empty w then None
    else if startswith "(" r2 then
      let (ps, r3) := span (fun c => negb (Ascii.eqb c ")"%char)) (drop 1 r2) in
      if startswith ")" r3 then Some (w, ps) else None
    else None
  else None.

(** The same pattern with [event] for [function]. *)
Definition event_signature_here (s : string) : option (string * string) :=
  if startswith "event" s then
    let (ws, r) := span is_space (drop 5 s) in
    let (w, r1) := span is_word r in
    let (_, r2) := span is_space r1 in
    if is_empty ws || is_empty w then None
    else if startswith "(" r2 then
      let (ps, r3) := span (fun c => negb (Ascii.eqb c ")"%char)) (drop 1 r2) in
      if startswith ")" r3 then Some (w, ps) else None
    else None
  else None.

End Re.

(** ** Metrics: [get_contract_metrics] (contract_helpers.py) *)

Module Metrics.

Record contract_elements := {
  functions : list string;
  modifiers : list string;
  events : list string;
  state_variables : list string;
  imports : list string
}.

Definition no_elements : contract_elements :=
  {| functions := []; modifiers := []; events := [];
     state_variables := []; imports := [] |}.

(** One turn of the loop [for line in lines] that fills the five lists. *)
Definition classify_line (acc : contract_elements) (line : string)
  : contract_elements :=
  let stripped := strip line in
  if startswith "import" stripped then
    {| functions := functions acc; modifiers := modifiers acc;
       events := events acc; state_variables := state_variables acc;
       imports := imports acc ++ [stripped] |}
  else if startswith "function " stripped
          && (negb (contains "private" stripped)
              && negb (contains "internal" stripped)) then
    match Re.search (Re.keyword_name_here "function") stripped with
    | Some name =>
        {| functions := functions acc ++ [name]; modifiers := modifiers acc;
           events := events acc; state_variables := state_variables acc;
           imports := imports acc |}
    | None => acc
    end
  else if startswith "modifier " stripped then
    match Re.search (Re.keyword_name_here "modifier") stripped with
    | Some name =>
        {| functions := functions acc; modifiers := modifiers acc ++ [name];
           events := events acc; state_variables := state_variables acc;
           imports := imports acc |}
    | None => acc
    end
  else if startswith "event " stripped then
    match Re.search (Re.keyword_name_here "event") stripped with
    | Some name =>
        {| functions := functions acc; modifiers := modifiers acc;
           events := events acc ++ [name];
           state_variables := state_variables acc;
           imports := imports acc |}
    | None => acc
    end
  else if any_prefix
            ["uint"; "int"; "address"; "string"; "bool"; "bytes"; "mapping"]
            stripped then
    if negb (any_in ["function"; "modifier"; "event"; "constructor"] stripped)
    then
      match Re.search Re.state_variable_here stripped with
      | Some name =>
          {| functions := functions acc; modifiers := modifiers acc;
             events := events acc;
             state_variables := state_variables acc ++ [name];
             imports := imports acc |}
      | None => acc
      end
    else acc
  else acc.

Definition contract_elements_of (ls : list string) : contract_elements :=
  fold_left classify_line ls no_elements.

Definition complexity_keywords : list string :=
  ["if"; "else"; "for"; "while"; "do"; "switch"; "case"; "&&"; "||"; "?"].

(** The nested loops adding [line.count(keyword)] to the base value 1. *)
Definition cyclomatic_complexity_of (ls : list string) : Z :=
  fold_left
    (fun acc line =>
       fold_left
         (fun acc' keyword => (acc' + Z.of_nat (count keyword line))%Z)
         complexity_keywords acc)
    ls 1%Z.

Record security_features := {
  reentrancy_guard : bool;
  access_control : bool;
  pausable : bool;
  safe_math : bool;
  emergency_stop : bool;
  rate_limiting : bool
}.

Definition security_features_of (contract_code : string) : security_features :=
  {| reentrancy_guard := contains "ReentrancyGuard" contract_code;
     access_control :=
       any_in ["onlyOwner"; "AccessControl"; "Ownable"] contract_code;
     pausable := contains "Pausable" contract_code;
     safe_math := contains "SafeMath" contract_code
                  || contains "pragma solidity ^0.8" contract_code;
     emergency_stop := contains "emergencyStop" contract_code;
     rate_limiting := contains "dailyLimit" contract_code
                      || contains "rateLimit" contract_code |}.

(** [security_features.values()] *)
Definition security_values (f : security_features) : list bool :=
  [reentrancy_guard f; access_control f; pausable f; safe_math f;
   emergency_stop f; rate_limiting f].

(** [sum] of a list of booleans, [True] counting 1. *)
Definition sum_bools (l : list bool) : Z :=
  fold_left (fun acc (b : bool) => acc + (if b then 1 else 0))%Z l 0%Z.

Record gas_optimizations := {
  immutable_variables : bool;
  constant_variables : bool;
  packed_structs : bool;
  external_functions : bool;
  view_functions : bool;
  pure_functions : bool
}.

Definition gas_optimizations_of (contract_code : string) : gas_optimizations :=
  {| immutable_variables := contains "immutable" contract_code;
     constant_variables := contains "constant" contract_code;
     packed_structs := contains "struct" contract_code
                       && contains "packed" contract_code;
     external_functions := contains "external" contract_code;
     view_functions := contains "view" contract_code;
     pure_functions := contains "pure" contract_code |}.

Record metrics := {
  total_lines : nat;
  code_lines : nat;
  comment_lines : nat;
  empty_lines : Z;
  elements : contract_elements;
  cyclomatic_complexity : Z;
  complexity_score : Z;
  complexity_rating : string;
  features : security_features;
  optimizations : gas_optimizations;
  maintainability_score : Z;
  security_score : Z
}.

Definition get_contract_metrics (contract_code : string) : result metrics :=
  let ls := lines contract_code in
  let total := List.length ls in
  let code_count :=
    List.length
      (filter (fun line => negb (is_empty (strip line))
                           && negb (startswith "//" (strip line))) ls) in
  let comment_count :=
    List.length (filter (fun line => startswith "//" (strip line)) ls) in
  let elems := contract_elements_of ls in
  let cyclomatic := cyclomatic_complexity_of ls in
  let feats := security_features_of contract_code in
  let complexity :=
    Z.min 100 (Z.of_nat (List.length (functions elems)) * 5
               + cyclomatic * 2
               + Z.of_nat (List.length (state_variables elems)) * 3) in
  let maintainability :=
    Z.max 0 (100 - complexity + Z.of_nat comment_count * 2) in
  let security := (sum_bools (security_values feats) * 15)%Z in
  Success
    {| total_lines := total;
       code_lines := code_count;
       comment_lines := comment_count;
       empty_lines := Z.of_nat total - Z.of_nat code_count
                      - Z.of_nat comment_count;
       elements := elems;
       cyclomatic_complexity := cyclomatic;
       complexity_score := complexity;
       complexity_rating :=
         if (complexity <? 30)%Z then "low"
         else if (complexity <? 60)%Z then "medium" else "high";
       features := feats;
       optimizations := gas_optimizations_of contract_code;
       maintainability_score := maintainability;
       security_score := security |}.

End Metrics.

(** ** Suggestions: [suggest_improvements] (contract_helpers.py) *)

Module Suggest.

(** A finding is a dictionary; a key a finding does not carry is [None]. *)
Record finding := {
  f_type : string;
  f_category : string;
  f_suggestion : string;
  f_line : option nat;
  f_impact : option string;
  f_estimated_savings : option string;
  f_severity : option string;
  f_priority : option string;
  f_benefit : option string
}.

Definition gas_finding (category suggestion impact savings : string)
           (line : option nat) : finding :=
  {| f_type := "gas_optimization"; f_category := category;
     f_suggestion := suggestion; f_line := line;
     f_impact := Some impact; f_estimated_savings := Some savings;
     f_severity := None; f_priority := None; f_benefit := None |}.

Definition security_finding (category suggestion severity : string) : finding :=
  {| f_type := "security"; f_category := category;
     f_suggestion := suggestion; f_line := None;
     f_impact := None; f_estimated_savings := None;
     f_severity := Some severity; f_priority := None; f_benefit := None |}.

Definition quality_finding (category suggestion priority : string) : finding :=
  {| f_type := "code_quality"; f_category := category;
     f_suggestion := suggestion; f_line := None;
     f_impact := None; f_estimated_savings := None;
     f_severity := None; f_priority := Some priority; f_benefit := None |}.

Definition architecture_finding (category suggestion benefit : string)
  : finding :=
  {| f_type := "architecture"; f_category := category;
     f_suggestion := suggestion; f_line := None;
     f_impact := None; f_estimated_savings := None;
     f_severity := None; f_priority := None; f_benefit := Some benefit |}.

Definition when (b : bool) (f : finding) : list finding :=
  if b then [f] else [].

(** The loop [for i, line in enumerate(lines)] over the [for (] lines;
    [i] is the index of the first line of [ls]. *)
Fixpoint loop_findings (i : nat) (ls : list string) : list finding :=
  match ls with
  | [] => []
  | line :: rest =>
      (if contains "for (" line then
         when (contains "i++" line)
              (gas_finding "loops"
                 "Use ++i instead of i++ in loops to save gas"
                 "low" "5 gas per iteration" (Some (i + 1)))
         ++ when (contains ".length" line)
              (gas_finding "loops"
                 "Cache array length before loop to avoid repeated SLOAD operations"
                 "medium" "100+ gas per iteration" (Some (i + 1)))
       else [])
      ++ loop_findings (S i) rest
  end.

Definition gas_optimizations_of (contract_code : string) : list finding :=
  when (contains "uint256" contract_code
        && negb (contains "uint8" contract_code))
       (gas_finding "data_types"
          "Consider using smaller uint types (uint8, uint16, uint32) for variables that don't need the full range of uint256"
          "medium" "2000-5000 gas per variable" None)
  ++ when (3 <? count "mapping(" contract_code)%nat
       (gas_finding "storage"
          "Multiple mappings detected. Consider using structs to pack related data together"
          "high" "20000+ gas per transaction" None)
  ++ when (contains "string" contract_code
           && negb (contains "bytes32" contract_code))
       (gas_finding "data_types"
          "For fixed-length strings, consider using bytes32 instead of string to save gas"
          "medium" "1000-3000 gas per operation" None)
  ++ loop_findings 0 (lines contract_code).

Definition security_improvements_of (contract_code : string) : list finding :=
  let ls := lines contract_code in
  let function_lines :=
    filter (fun line => contains "function " line && contains "public" line)
           ls in
  let event_lines := filter (fun line => contains "event " line) ls in
  when (negb (contains "require(" contract_code)
        && negb (contains "assert(" contract_code))
       (security_finding "input_validation"
          "Add require() statements for input validation to prevent invalid states"
          "high")
  ++ (if negb (contains "onlyOwner" contract_code)
         && negb (contains "AccessControl" contract_code)
      then
        when (any_in ["mint"; "burn"; "pause"; "withdraw"] contract_code)
             (security_finding "access_control"
                "Add access control to sensitive functions like mint, burn, pause, withdraw"
                "critical")
      else [])
  ++ when (negb (contains "ReentrancyGuard" contract_code)
           && contains ".call(" contract_code)
       (security_finding "reentrancy"
          "Add ReentrancyGuard to functions that make external calls"
          "high")
  ++ when (List.length event_lines <? List.length function_lines)%nat
       (security_finding "transparency"
          "Add events to important state-changing functions for better transparency and monitoring"
          "medium").

(** The state of the loop that collects long functions:
    [long_functions], [current_function] ([None] at first) and
    [function_length]. *)
Definition truthy (s : option string) : bool :=
  match s with
  | Some x => negb (is_empty x)
  | None => false
  end.

Definition long_step (st : list string * option string * nat) (line : string)
  : list string * option string * nat :=
  let '(long_functions, current_function, function_length) := st in
  if contains "function " line then
    (if truthy current_function && (50 <? function_length)%nat
     then (long_functions ++ [match current_function with
                              | Some f => f
                              | None => EmptyString
                              end])%list
     else long_functions,
     Some (strip line), 0%nat)
  else if truthy current_function then
    (long_functions, current_function, S function_length)
  else st.

Definition long_functions_of (ls : list string) : list string :=
  fst (fst (fold_left long_step ls ([], None, 0%nat))).

Definition code_quality_of (contract_code : string) : list finding :=
  let long_functions := long_functions_of (lines contract_code) in
  when (0 <? count "// TODO" contract_code)%nat
       (quality_finding "completeness"
          "Remove TODO comments and implement missing functionality"
          "high")
  ++ when (negb (Nat.eqb (List.length long_functions) 0))
       (quality_finding "function_length"
          ("Consider breaking down long functions: "
             ++ join ", " (firstn 3 long_functions))
          "medium")
  ++ when (count "///" contract_code <? count "function " contract_code)%nat
       (quality_finding "documentation"
          "Add NatSpec documentation (///) to functions for better code documentation"
          "medium").

Definition advanced_patterns_of (contract_code : string) : list finding :=
  when (negb (contains "factory" (lower contract_code))
        && (1 <? count "contract " contract_code)%nat)
       (architecture_finding "design_pattern"
          "Consider using Factory pattern for deploying multiple similar contracts"
          "Reduced deployment costs and better code organization")
  ++ when (negb (contains "proxy" (lower contract_code))
           && (10000 <? Z.of_nat (String.length contract_code))%Z)
       (architecture_finding "upgradeability"
          "Consider implementing proxy pattern for contract upgradeability"
          "Allow future upgrades while preserving state and address").

(** [suggestion.get("severity", suggestion.get("priority",
    suggestion.get("impact", "medium")))] *)
Definition label (f : finding) : string :=
  match f_severity f with
  | Some l => l
  | None =>
      match f_priority f with
      | Some l => l
      | None =>
          match f_impact f with
          | Some l => l
          | None => "medium"
          end
      end
  end.

(** [priority_scores.get(severity, 50)] *)
Definition priority_score (l : string) : Z :=
  if String.eqb l "critical" then 100
  else if String.eqb l "high" then 80
  else if String.eqb l "medium" then 60
  else if String.eqb l "low" then 40
  else 50.

Definition total_score (all : list finding) : Z :=
  fold_left (fun acc f => (acc + priority_score (label f))%Z) all 0%Z.

Definition improvement_score_of (all : list finding) : Z :=
  Z.max 0 (100 - total_score all / Z.max (Z.of_nat (List.length all)) 1).

(** [s.get("severity") == l or s.get("priority") == l] *)
Definition has_level (l : string) (f : finding) : bool :=
  match f_severity f with Some x => String.eqb x l | None => false end
  || match f_priority f with Some x => String.eqb x l | None => false end.

Record priority_breakdown := {
  critical : nat; high : nat; medium : nat; low : nat
}.

Record summary := {
  total_suggestions : nat;
  gas_optimizations_count : nat;
  security_issues : nat;
  code_quality_issues : nat;
  improvement_score : Z;
  breakdown : priority_breakdown
}.

Record suggestions := {
  gas_optimizations : list finding;
  security_improvements : list finding;
  code_quality : list finding;
  advanced_patterns : list finding;
  report : summary
}.

(** [all_suggestions] *)
Definition all_suggestions_of (contract_code : string) : list finding :=
  gas_optimizations_of contract_code
  ++ security_improvements_of contract_code
  ++ code_quality_of contract_code
  ++ advanced_patterns_of contract_code.

Definition suggest_improvements (contract_code : string) : result suggestions :=
  let gas := gas_optimizations_of contract_code in
  let sec := security_improvements_of contract_code in
  let quality := code_quality_of contract_code in
  let adv := advanced_patterns_of contract_code in
  let all := (gas ++ sec ++ quality ++ adv)%list in
  let tally l := List.length (filter (has_level l) all) in
  Success
    {| gas_optimizations := gas;
       security_improvements := sec;
       code_quality := quality;
       advanced_patterns := adv;
       report :=
         {| total_suggestions := List.length all;
            gas_optimizations_count := List.length gas;
            security_issues := List.length sec;
            code_quality_issues := List.length quality;
            improvement_score := improvement_score_of all;
            breakdown :=
              {| critical := tally "critical"; high := tally "high";
                 medium := tally "medium"; low := tally "low" |} |} |}.

End Suggest.

(** ** Gas estimates: [analyze_gas_usage] (contract_utils.py) *)

Module Gas.

(** An ABI entry is a JSON object.  The estimator reads three of its
    keys, ['type'], ['name'] and ['stateMutability']; each is a string
    when present and [None] when the entry lacks the key. *)
Record abi_item := {
  item_type : option string;
  item_name : option string;
  item_stateMutability : option string
}.

(** What the body of the [try] can raise: [item[key]] on a missing key. *)
Inductive exception :=
| KeyError (key : string).

(** [str(e)] *)
Definition str (e : exception) : string :=
  match e with KeyError key => "'" ++ key ++ "'" end.

(** [item[key]] *)
Definition getitem (field : option string) (key : string)
  : exception + string :=
  match field with
  | Some v => inr v
  | None => inl (KeyError key)
  end.

(** [item.get(key, default)] *)
Definition get (field : option string) (default : string) : string :=
  match field with
  | Some v => v
  | None => default
  end.

Record estimate := {
  estimated_gas : Z;
  state_mutability : string;
  gas_category : string
}.

(** [function_estimates[func_name] = value] on a dictionary kept in
    insertion order. *)
Fixpoint dict_set (d : list (string * estimate)) (k : string) (v : estimate)
  : list (string * estimate) :=
  match d with
  | [] => [(k, v)]
  | (k', v') :: rest =>
      if String.eqb k' k then (k, v) :: rest
      else (k', v') :: dict_set rest k v
  end.

Fixpoint dict_get (d : list (string * estimate)) (k : string)
  : option estimate :=
  match d with
  | [] => None
  | (k', v') :: rest => if String.eqb k' k then Some v' else dict_get rest k
  end.

(** The base estimate chosen from the mutability and the name. *)
Definition base_gas_of (state_mutability func_name : string) : Z :=
  if String.eqb state_mutability "view" || String.eqb state_mutability "pure"
  then 500
  else if contains "mint" (lower func_name) then 50000
  else if contains "transfer" (lower func_name) then 21000
  else if contains "approve" (lower func_name) then 45000
  else 25000.

(** The loop [for line in contract_code.split('\n')] that collects
    [func_lines]; leaving the recursion is the [break]. *)
Fixpoint collect_func_lines (func_name : string) (ls : list string)
         (in_function : bool) (func_lines : list string) (brace_count : Z)
  : list string :=
  match ls with
  | [] => func_lines
  | line :: rest =>
      let in_function :=
        if contains ("function " ++ func_name) line then true
        else in_function in
      if in_function then
        let func_lines := (func_lines ++ [line])%list in
        let brace_count :=
          (brace_count + (Z.of_nat (count "{" line)
                          - Z.of_nat (count "}" line)))%Z in
        if (brace_count =? 0)%Z && contains "{" (join "" func_lines)
        then func_lines
        else collect_func_lines func_name rest in_function func_lines
                                brace_count
      else collect_func_lines func_name rest in_function func_lines
                              brace_count
  end.

(** [func_body] *)
Definition func_body_of (contract_code func_name : string) : string :=
  join newline
       (collect_func_lines func_name (lines contract_code) false [] 0%Z).

(** The four increments for the operations found in the body. *)
Definition add_body_gas (base_gas : Z) (func_body : string) : Z :=
  let base_gas :=
    if contains "emit " func_body
    then (base_gas + 1000 * Z.of_nat (count "emit " func_body))%Z
    else base_gas in
  let base_gas :=
    if contains ".call(" func_body
    then (base_gas + 10000 * Z.of_nat (count ".call(" func_body))%Z
    else base_gas in
  let base_gas :=
    if contains "require(" func_body
    then (base_gas + 500 * Z.of_nat (count "require(" func_body))%Z
    else base_gas in
  let base_gas :=
    if contains "mapping(" func_body
    then (base_gas + 5000 * Z.of_nat (count "mapping(" func_body))%Z
    else base_gas in
  base_gas.

Definition gas_category_of (base_gas : Z) : string :=
  if (base_gas <? 30000)%Z then "low"
  else if (base_gas <? 60000)%Z then "medium" else "high".

(** The estimate of one function entry of the ABI. *)
Definition estimate_of (contract_code func_name mutability : string)
  : estimate :=
  let base_gas := base_gas_of mutability func_name in
  let base_gas :=
    if negb (is_empty contract_code)
    then add_body_gas base_gas (func_body_of contract_code func_name)
    else base_gas in
  {| estimated_gas := base_gas;
     state_mutability := mutability;
     gas_category := gas_category_of base_gas |}.

(** The loop [for item in abi]; an exception leaves it at once. *)
Fixpoint estimate_functions (contract_code : string) (abi : list abi_item)
         (function_estimates : list (string * estimate))
  : exception + list (string * estimate) :=
  match abi with
  | [] => inr function_estimates
  | item :: rest =>
      match getitem (item_type item) "type" with
      | inl e => inl e
      | inr type =>
          if String.eqb type "function" then
            match getitem (item_name item) "name" with
            | inl e => inl e
            | inr func_name =>
                let mutability :=
                  get (item_stateMutability item) "nonpayable" in
                estimate_functions contract_code rest
                  (dict_set function_estimates func_name
                     (estimate_of contract_code func_name mutability))
            end
          else estimate_functions contract_code rest function_estimates
      end
  end.

Record gas_report := {
  deployment_gas_estimate : Z;
  function_gas_estimates : list (string * estimate);
  total_functions : nat;
  average_function_gas : Z;
  optimizations : list string;
  gas_efficiency_score : Z
}.

Definition sum_gas (d : list (string * estimate)) : Z :=
  fold_left (fun acc kv => (acc + estimated_gas (snd kv))%Z) d 0%Z.

Definition optimizations_of (deployment_gas : Z)
           (function_estimates : list (string * estimate))
           (contract_code : string) : list string :=
  let high_gas_functions :=
    map fst (filter (fun kv => (60000 <? estimated_gas (snd kv))%Z)
                    function_estimates) in
  ((if (1000000 <? deployment_gas)%Z
    then ["Contract is large. Consider splitting into multiple contracts or using libraries."]
    else [])
   ++ (match high_gas_functions with
       | [] => []
       | _ => [("High gas functions detected: "
                  ++ join ", " high_gas_functions
                  ++ ". Consider optimization.")%string]
       end)
   ++ (if negb (is_empty contract_code) then
         (if (3 <? count "for (" contract_code)%nat
          then ["Multiple loops detected. Consider batch processing or pagination."]
          else [])
         ++ (if (5 <? count "mapping(" contract_code)%nat
             then ["Many mappings detected. Consider struct packing for gas efficiency."]
             else [])
       else []))%list.

Definition analyze_gas_usage (bytecode : string) (abi : list abi_item)
           (contract_code : string) : result gas_report :=
  let deployment_gas := (Z.of_nat (String.length bytecode) / 2 * 200)%Z in
  match estimate_functions contract_code abi [] with
  | inl e => Error ("Gas analysis failed: " ++ str e)
  | inr function_estimates =>
      let notes :=
        optimizations_of deployment_gas function_estimates contract_code in
      Success
        {| deployment_gas_estimate := deployment_gas;
           function_gas_estimates := function_estimates;
           total_functions := List.length function_estimates;
           average_function_gas :=
             match function_estimates with
             | [] => 0%Z
             | _ => (sum_gas function_estimates
                     / Z.of_nat (List.length function_estimates))%Z
             end;
           optimizations := notes;
           gas_efficiency_score :=
             Z.max 0 (100 - Z.of_nat (List.length notes) * 15) |}
  end.

End Gas.

(** ** Diagnostics: [handle_compilation_errors] (contract_helpers.py) *)

Module Diagnostics.

Record error_info := {
  original_error : string;
  error_type : string;
  line_number : option N;
  suggestion : string
}.

Definition default_suggestion : string :=
  "Check the error message for details".

(** The second half of the body of the loop [for error in errors]: the
    kind and the suggestion of [error], in an entry that holds the line
    number already read. *)
Definition categorize (error : string) (line_match : option N) : error_info :=
  if contains "ParserError" error then
    {| original_error := error; error_type := "syntax_error";
       line_number := line_match;
       suggestion :=
         if contains "Expected" error
         then "Check syntax - missing semicolon, bracket, or parenthesis"
         else if contains "Unexpected" error
         then "Remove unexpected character or check syntax"
         else default_suggestion |}
  else if contains "TypeError" error then
    {| original_error := error; error_type := "type_error";
       line_number := line_match;
       suggestion :=
         if contains "not found" error
         then "Check if variable/function is declared and spelled correctly"
         else if contains "not compatible" error
         then "Check data types - ensure compatible types for assignment/comparison"
         else if contains "not callable" error
         then "Check if you're trying to call a variable as a function"
         else default_suggestion |}
  else if contains "DeclarationError" error then
    {| original_error := error; error_type := "declaration_error";
       line_number := line_match;
       suggestion :=
         if contains "already declared" error
         then "Variable or function name already exists - use a different name"
         else if contains "not declared" error
         then "Declare the variable or import the contract/library"
         else default_suggestion |}
  else if contains "CompilerError" error then
    {| original_error := error; error_type := "compiler_error";
       line_number := line_match;
       suggestion := "Internal compiler error - try different solidity version" |}
  else if contains "Warning" error then
    {| original_error := error; error_type := "warning";
       line_number := line_match;
       suggestion :=
         if contains "unused" error
         then "Remove unused variables/imports or prefix with underscore"
         else if contains "deprecated" error
         then "Update to use newer syntax or functions"
         else default_suggestion |}
  else
    {| original_error := error; error_type := "unknown";
       line_number := line_match;
       suggestion := default_suggestion |}.

Definition str (e : value_error) : string :=
  match e with ValueError message => message end.

(** The body of the loop: the entry appended to [parsed_errors], or the
    exception [int] raises on the digits of the marker. *)
Definition parse_error (error : string) : value_error + error_info :=
  match Re.search Re.line_marker_here error with
  | Some ds =>
      match int ds with
      | inl e => inl e
      | inr n => inr (categorize error (Some n))
      end
  | None => inr (categorize error None)
  end.

(** The loop [for error in errors]; it ends at the first exception. *)
Fixpoint parse_errors (errors : list string) (parsed_errors : list error_info)
  : value_error + list error_info :=
  match errors with
  | [] => inr parsed_errors
  | error :: rest =>
      match parse_error error with
      | inl e => inl e
      | inr info => parse_errors rest (parsed_errors ++ [info])
      end
  end.

Record severity_count := {
  critical : nat; high : nat; medium : nat; low : nat
}.

Record diagnostics := {
  parsed_errors : list error_info;
  total_errors : nat;
  error_types : list string;
  severities : severity_count;
  general_suggestions : list string;
  fixable_errors : nat
}.

(** [x in l] for a list of strings. *)
Definition mem (x : string) (l : list string) : bool :=
  existsb (String.eqb x) l.

Definition count_types (types : list string) (parsed : list error_info) : nat :=
  List.length (filter (fun e => mem (error_type e) types) parsed).

(** What the function builds once the loop has ended.  [error_types] is
    [list(set(...))] in the source: the kinds present, each once, in an
    order Python does not fix; here in the order of their last
    occurrence. *)
Definition report (parsed : list error_info) : diagnostics :=
  let types := map error_type parsed in
    {| parsed_errors := parsed;
       total_errors := List.length parsed;
       error_types := nodup string_dec types;
       severities :=
         {| critical := count_types ["syntax_error"; "compiler_error"] parsed;
            high := count_types ["type_error"; "declaration_error"] parsed;
            medium := count_types ["warning"] parsed;
            low := 0 |};
       general_suggestions :=
         ((if mem "syntax_error" types
           then ["Review code syntax carefully - check for missing semicolons, brackets, and parentheses"]
           else [])
          ++ (if mem "type_error" types
              then ["Verify all variable types and function signatures match their usage"]
              else [])
          ++ (if mem "declaration_error" types
              then ["Ensure all variables and functions are properly declared before use"]
              else []))%list;
       fixable_errors :=
         List.length
           (filter (fun e => negb (String.eqb (error_type e) "compiler_error"))
                   parsed) |}.

Definition handle_compilation_errors (errors : list string)
  : result diagnostics :=
  match parse_errors errors [] with
  | inl e => Error ("Error parsing failed: " ++ str e)
  | inr parsed => Success (report parsed)
  end.

End Diagnostics.

(** ** Requests: [validate_user_input] (contract_helpers.py) *)

Module Validator.

Definition contract_indicators : list (string * list string) :=
  [("erc20", ["token"; "erc20"; "fungible"; "currency"; "coin"]);
   ("erc721", ["nft"; "erc721"; "non-fungible"; "collectible"; "unique"]);
   ("erc1155", ["erc1155"; "multi-token"; "batch"; "gaming"]);
   ("dao", ["dao"; "governance"; "voting"; "proposal"; "community"]);
   ("dex", ["dex"; "exchange"; "swap"; "liquidity"; "trading"]);
   ("staking", ["staking"; "stake"; "reward"; "yield"; "farming"]);
   ("marketplace", ["marketplace"; "auction"; "buy"; "sell"; "listing"]);
   ("multisig",
    ["multisig"; "multi-signature"; "multiple owners"; "threshold"])].

Definition requirement_keywords : list (string * list string) :=
  [("name", ["name"; "called"; "title"]);
   ("symbol", ["symbol"; "ticker"; "abbreviation"]);
   ("supply", ["supply"; "amount"; "quantity"; "total"]);
   ("features", ["feature"; "function"; "capability"; "ability"]);
   ("access", ["owner"; "admin"; "permission"; "access"; "control"]);
   ("security", ["secure"; "safe"; "protection"; "guard"])].

Definition complex_keywords : list string :=
  ["complex"; "advanced"; "custom"; "sophisticated"; "enterprise"].

Definition feature_keywords : list string :=
  ["upgrade"; "proxy"; "oracle"; "multi"; "batch"; "governance"].

(** The keys of a keyword table whose keywords occur in the text, in the
    order of the table. *)
Definition matching (table : list (string * list string))
           (description : string) : list string :=
  map fst (filter (fun entry => any_in (snd entry) description) table).

Definition mem (x : string) (l : list string) : bool :=
  existsb (String.eqb x) l.

Record validation := {
  is_feasible : bool;
  clarity_score : Z;
  missing_info : list string;
  suggestions : list string;
  estimated_complexity : string;
  recommended_contract_type : option string;
  clarifying_questions : list string;
  detected_contract_types : list string;
  found_requirements : list string;
  word_count : nat;
  needs_clarification : bool
}.

Definition validate_user_input (user_description : string)
  : result validation :=
  let description := lower (strip user_description) in
  let clarity := 0%Z in
  let detected_types := matching contract_indicators description in
  let recommended := hd_error detected_types in
  let clarity :=
    match detected_types with [] => clarity | _ => (clarity + 30)%Z end in
  let missing :=
    match detected_types with [] => ["contract_type"] | _ => [] end in
  let suggestions1 :=
    match detected_types with
    | [] => ["Please specify what type of smart contract you want (e.g., token, NFT, DAO, DEX)"]
    | _ => []
    end in
  let found := matching requirement_keywords description in
  let clarity := (clarity + 10 * Z.of_nat (List.length found))%Z in
  let words := List.length (split_ws description) in
  let suggestions2 :=
    if (words <? 5)%nat
    then (suggestions1
            ++ ["Please provide more details about your requirements"])%list
    else suggestions1 in
  let clarity :=
    if (words <? 5)%nat then (clarity - 20)%Z
    else if (100 <? words)%nat then (clarity + 20)%Z
    else (clarity + 10)%Z in
  let complexity := 1%Z in
  let complexity :=
    if any_in complex_keywords description
    then (complexity + 2)%Z else complexity in
  let complexity :=
    if any_in feature_keywords description
    then (complexity + 1)%Z else complexity in
  let complexity :=
    if (4 <? List.length found)%nat then (complexity + 1)%Z else complexity in
  let estimated :=
    if (complexity <=? 2)%Z then "simple"
    else if (complexity <=? 4)%Z then "moderate" else "complex" in
  let is_erc20 :=
    match recommended with
    | Some t => String.eqb t "erc20"
    | None => false
    end in
  let questions :=
    ((if mem "contract_type" missing
      then ["What type of smart contract do you want to create? (e.g., ERC-20 token, NFT, DAO)"]
      else [])
     ++ (if negb (mem "name" found)
            && match recommended with
               | Some t => negb (is_empty t)
               | None => false
               end
         then ["What would you like to name your contract/token?"]
         else [])
     ++ (if is_erc20 && negb (mem "symbol" found)
         then ["What symbol should your token have? (e.g., BTC, ETH)"]
         else [])
     ++ (if is_erc20 && negb (mem "supply" found)
         then ["What should be the total supply of your token?"]
         else [])
     ++ (if negb (mem "access" found)
         then ["Do you need access control? (e.g., only owner can mint, admin roles)"]
         else [])
     ++ (if negb (mem "security" found)
            && negb (String.eqb estimated "simple")
         then ["What security features do you need? (e.g., pausable, reentrancy protection)"]
         else []))%list in
  let infeasible :=
    (3 <? List.length missing)%nat || (clarity <? 20)%Z in
  Success
    {| is_feasible := negb infeasible;
       clarity_score := clarity;
       missing_info := missing;
       suggestions :=
         if infeasible
         then (suggestions2
                 ++ ["Please provide more specific details about your requirements"])%list
         else suggestions2;
       estimated_complexity := estimated;
       recommended_contract_type := recommended;
       clarifying_questions := questions;
       detected_contract_types := detected_types;
       found_requirements := found;
       word_count := words;
       needs_clarification := (0 <? List.length questions)%nat |}.

End Validator.

(** ** Documentation: [generate_contract_documentation] (contract_utils.py)

    The function fills the inventory [contract_info] and returns it under
    ["contract_structure"]; the Markdown and NatSpec texts it prints from
    that inventory are left out of the result record. *)

Module Docs.

Record function_entry := {
  name : string;
  parameters : string;
  visibility : string;
  state_mutability : string;
  line : nat
}.

Record event_entry := {
  event_name : string;
  event_parameters : string;
  event_line : nat
}.

Record modifier_entry := {
  modifier_name : string;
  modifier_line : nat
}.

Record contract_info := {
  contract_name : string;
  functions : list function_entry;
  events : list event_entry;
  modifiers : list modifier_entry;
  state_variables : list string
}.

(** What the loop can raise. *)
Inductive exception :=
| NameError (name : string).

Definition str (e : exception) : string :=
  match e with NameError name => "name '" ++ name ++ "' is not defined" end.

(** [re.search(pattern, line)] as this module evaluates it.  The module
    [contract_utils.py] never imports [re]: the name is unbound, and its
    lookup raises before the pattern is tried. *)
Definition re_search {A : Type} (match_here : string -> option A)
           (s : string) : exception + option A :=
  inl (NameError "re").

(** One turn of [for i, line in enumerate(lines)]. *)
Definition parse_line (info : contract_info) (i : nat) (line : string)
  : exception + contract_info :=
  let line_stripped := strip line in
  if startswith "function " line_stripped
     && negb (contains "internal" line) && negb (contains "private" line)
  then
    match re_search Re.function_signature_here line with
    | inl e => inl e
    | inr (Some (func_name, params)) =>
        inr
        {| contract_name := contract_name info;
           functions :=
             functions info ++
             [{| name := func_name;
                 parameters := params;
                 visibility :=
                   if contains "public" line then "public"
                   else if contains "external" line then "external"
                   else "internal";
                 state_mutability :=
                   if contains "view" line then "view"
                   else if contains "pure" line then "pure"
                   else if contains "payable" line then "payable"
                   else "";
                 line := i + 1 |}];
           events := events info;
           modifiers := modifiers info;
           state_variables := state_variables info |}
    | inr None => inr info
    end
  else if startswith "event " line_stripped then
    match re_search Re.event_signature_here line with
    | inl e => inl e
    | inr (Some (ev_name, params)) =>
        inr
        {| contract_name := contract_name info;
           functions := functions info;
           events :=
             events info ++
             [{| event_name := ev_name; event_parameters := params;
                 event_line := i + 1 |}];
           modifiers := modifiers info;
           state_variables := state_variables info |}
    | inr None => inr info
    end
  else if startswith "modifier " line_stripped then
    match re_search (Re.keyword_name_here "modifier") line with
    | inl e => inl e
    | inr (Some mod_name) =>
        inr
        {| contract_name := contract_name info;
           functions := functions info;
           events := events info;
           modifiers :=
             modifiers info ++
             [{| modifier_name := mod_name; modifier_line := i + 1 |}];
           state_variables := state_variables info |}
    | inr None => inr info
    end
  else inr info.

(** The loop; it ends at the first exception. *)
Fixpoint parse_lines (info : contract_info) (i : nat) (ls : list string)
  : exception + contract_info :=
  match ls with
  | [] => inr info
  | l :: rest =>
      match parse_line info i l with
      | inl e => inl e
      | inr info' => parse_lines info' (S i) rest
      end
  end.

Record documentation := {
  contract_structure : contract_info;
  documentation_sections : list string
}.

Definition generate_contract_documentation
           (contract_code contract_name : string) : result documentation :=
  match parse_lines {| contract_name := contract_name; functions := [];
                       events := []; modifiers := [];
                       state_variables := [] |}
                    0 (lines contract_code) with
  | inl e => Error ("Documentation generation failed: " ++ str e)
  | inr contract_info =>
      Success
        {| contract_structure := contract_info;
           documentation_sections :=
             ["Overview"; "Contract Details"; "Functions"; "Events";
              "Security Considerations"; "Gas Optimization"; "Testing";
              "Deployment"] |}
  end.

End Docs.

(** ** Decomposition: [explain_generated_code] (contract_utils.py) *)

Module Explain.

(** An entry of [explanations]; [line_end], [visibility] and
    [state_mutability] are keys that some entries lack. *)
Record section_entry := {
  section : string;
  line_start : nat;
  line_end : option nat;
  code : string;
  explanation : string;
  importance : string;
  visibility : option string;
  state_mutability : option string
}.

Definition entry (title : string) (first : nat) (last : option nat)
           (text explained important : string) : section_entry :=
  {| section := title; line_start := first; line_end := last;
     code := text; explanation := explained; importance := important;
     visibility := None; state_mutability := None |}.

(** What the loop can raise: [explanations[-1]] on an empty list. *)
Inductive exception :=
| IndexError.

Definition str (e : exception) : string :=
  match e with IndexError => "list index out of range" end.

(** [explanations[-1]["line_end"] = i] *)
Fixpoint set_last_line_end (explanations : list section_entry) (i : nat)
  : exception + list section_entry :=
  match explanations with
  | [] => inl IndexError
  | [e] =>
      inr [{| section := section e; line_start := line_start e;
              line_end := Some i; code := code e;
              explanation := explanation e; importance := importance e;
              visibility := visibility e;
              state_mutability := state_mutability e |}]
  | e :: rest =>
      match set_last_line_end rest i with
      | inl x => inl x
      | inr rest' => inr (e :: rest')
      end
  end.

(** [explanations[-1]["code"] += text] *)
Fixpoint append_last_code (explanations : list section_entry) (text : string)
  : exception + list section_entry :=
  match explanations with
  | [] => inl IndexError
  | [e] =>
      inr [{| section := section e; line_start := line_start e;
              line_end := line_end e; code := code e ++ text;
              explanation := explanation e; importance := importance e;
              visibility := visibility e;
              state_mutability := state_mutability e |}]
  | e :: rest =>
      match append_last_code rest text with
      | inl x => inl x
      | inr rest' => inr (e :: rest')
      end
  end.

(** [if current_section: explanations[-1]["line_end"] = i] *)
Definition close_open (current_section : option string)
           (explanations : list section_entry) (i : nat)
  : exception + list section_entry :=
  match current_section with
  | Some s => if is_empty s then inr explanations
              else set_last_line_end explanations i
  | None => inr explanations
  end.

(** The loop [for j in range(i, len(lines))] that looks for the line
    closing a block; [rest] is [lines[j:]] and [seen] is [lines[i:j]]. *)
Fixpoint find_block_end (rest : list string) (j : nat) (seen : list string)
         (brace_count : Z) : option nat :=
  match rest with
  | [] => None
  | l :: rest' =>
      let brace_count :=
        (brace_count + (Z.of_nat (count "{" l) - Z.of_nat (count "}" l)))%Z in
      let seen := (seen ++ [l])%list in
      if (brace_count =? 0)%Z && contains "{" (join "" seen) then Some j
      else find_block_end rest' (S j) seen brace_count
  end.

(** The index of the closing line, [i] when the loop finds none. *)
Definition block_end (all_lines : list string) (i : nat) : nat :=
  match find_block_end (skipn i all_lines) i [] 0%Z with
  | Some j => j
  | None => i
  end.

(** ['\n'.join(lines[i:last+1])] *)
Definition block_code (all_lines : list string) (i last : nat) : string :=
  join newline (firstn (last + 1 - i) (skipn i all_lines)).

(** [line_stripped.split()[1].split('(')[0]] *)
Definition declared_name (line_stripped : string) : string :=
  item (split "(" (item (split_ws line_stripped) 1)) 0.

Definition same (current_section : option string) (kind : string) : bool :=
  match current_section with
  | Some s => String.eqb s kind
  | None => false
  end.

(** The branches that gather consecutive lines of one kind ([imports],
    [constants], [state_variables], [events]) into one entry. *)
Definition grouped (kind title explained important : string)
           (current_section : option string)
           (explanations : list section_entry) (i : nat)
           (line_stripped : string)
  : exception + (list section_entry * option string) :=
  if negb (same current_section kind) then
    match close_open current_section explanations i with
    | inl x => inl x
    | inr closed =>
        inr ((closed
                ++ [entry title (i + 1) None line_stripped explained
                          important])%list,
             Some kind)
    end
  else
    match append_last_code explanations (newline ++ line_stripped) with
    | inl x => inl x
    | inr appended => inr (appended, current_section)
    end.

(** One turn of [for i, line in enumerate(lines)]: the new
    [explanations] and [current_section]. *)
Definition step (all_lines : list string)
           (explanations : list section_entry)
           (current_section : option string) (i : nat) (line : string)
  : exception + (list section_entry * option string) :=
  let line_stripped := strip line in
  if startswith "pragma solidity" line_stripped then
    inr ((explanations
            ++ [entry "Pragma Declaration" (i + 1) (Some (i + 1))
                      line_stripped
                      "Specifies the Solidity compiler version to use. The '^' symbol means any version compatible with this version."
                      "critical"])%list,
         current_section)
  else if startswith "import " line_stripped then
    grouped "imports" "Import Statements"
            "Imports OpenZeppelin contracts for standard implementations and security features."
            "high" current_section explanations i line_stripped
  else if startswith "contract " line_stripped then
    match close_open current_section explanations i with
    | inl x => inl x
    | inr closed =>
        let contract_name := declared_name line_stripped in
        let inheritance :=
          if contains " is " line_stripped
          then item (split " {" (item (split " is " line_stripped) 1)) 0
          else "" in
        inr ((closed
                ++ [entry "Contract Declaration" (i + 1) None line_stripped
                          ("Declares the main contract '" ++ contract_name
                             ++ "'. "
                             ++ (if negb (is_empty inheritance)
                                 then "Inherits from: " ++ inheritance
                                 else "No inheritance."))%string
                          "critical"])%list,
             Some "contract_declaration")
    end
  else if startswith "uint" line_stripped
          || startswith "mapping" line_stripped
          || startswith "address" line_stripped
          || startswith "string" line_stripped
          || startswith "bool" line_stripped then
    if contains "constant" line_stripped
       || contains "immutable" line_stripped
    then
      grouped "constants" "Constants & Immutable Variables"
              "Defines constants and immutable variables. These save gas as they're stored in the contract bytecode."
              "medium" current_section explanations i line_stripped
    else
      grouped "state_variables" "State Variables"
              "Defines the contract's storage variables. These persist between function calls and cost gas to modify."
              "high" current_section explanations i line_stripped
  else if startswith "event " line_stripped then
    grouped "events" "Events"
            ("Defines event '" ++ declared_name line_stripped
               ++ "'. Events allow external applications to listen for contract activity.")
            "medium" current_section explanations i line_stripped
  else if startswith "modifier " line_stripped then
    match close_open current_section explanations i with
    | inl x => inl x
    | inr closed =>
        let modifier_name := declared_name line_stripped in
        let modifier_end := block_end all_lines i in
        inr ((closed
                ++ [entry ("Modifier: " ++ modifier_name) (i + 1)
                          (Some (modifier_end + 1))
                          (block_code all_lines i modifier_end)
                          ("Modifier '" ++ modifier_name
                             ++ "' adds reusable checks to functions. The '_' symbol indicates where the function code executes.")
                          "high"])%list,
             None)
    end
  else if startswith "constructor" line_stripped then
    match close_open current_section explanations i with
    | inl x => inl x
    | inr closed =>
        let constructor_end := block_end all_lines i in
        inr ((closed
                ++ [entry "Constructor" (i + 1) (Some (constructor_end + 1))
                          (block_code all_lines i constructor_end)
                          "The constructor runs once when the contract is deployed. It initializes the contract's state."
                          "critical"])%list,
             None)
    end
  else if startswith "function " line_stripped then
    match close_open current_section explanations i with
    | inl x => inl x
    | inr closed =>
        let func_name := declared_name line_stripped in
        let function_end := block_end all_lines i in
        let vis :=
          if contains "public" line_stripped then "public"
          else if contains "external" line_stripped then "external"
          else if contains "private" line_stripped then "private"
          else "internal" in
        let mut :=
          if contains "view" line_stripped then "view"
          else if contains "pure" line_stripped then "pure"
          else if contains "payable" line_stripped then "payable"
          else "nonpayable" in
        let explanation_text :=
          ("Function '" ++ func_name ++ "' with " ++ vis
             ++ " visibility and " ++ mut ++ " state mutability."
             ++ (if String.eqb mut "view"
                 then " This function only reads data and doesn't modify state."
                 else if String.eqb mut "pure"
                 then " This function doesn't read or modify state."
                 else if String.eqb mut "payable"
                 then " This function can receive Ether."
                 else " This function can modify contract state."))%string in
        inr ((closed
                ++ [{| section := "Function: " ++ func_name;
                       line_start := i + 1;
                       line_end := Some (function_end + 1);
                       code := block_code all_lines i function_end;
                       explanation := explanation_text;
                       importance := "high";
                       visibility := Some vis;
                       state_mutability := Some mut |}])%list,
             None)
    end
  else inr (explanations, current_section).

(** The loop itself; [rest] is [lines[i:]]. *)
Fixpoint scan (all_lines rest : list string)
         (explanations : list section_entry)
         (current_section : option string) (i : nat)
  : exception + (list section_entry * option string) :=
  match rest with
  | [] => inr (explanations, current_section)
  | l :: rest' =>
      match step all_lines explanations current_section i l with
      | inl x => inl x
      | inr (explanations', current') =>
          scan all_lines rest' explanations' current' (S i)
      end
  end.

Record summary := {
  total_sections : nat;
  functions : nat;
  modifiers : nat;
  events : nat;
  state_variables : nat;
  complexity : string
}.

Record explained := {
  explanations : list section_entry;
  report : summary;
  total_lines : nat;
  complexity_score : Z
}.

Definition count_if (p : section_entry -> bool) (l : list section_entry)
  : nat := List.length (filter p l).

Definition explain_generated_code (contract_code : string)
  : result explained :=
  let ls := lines contract_code in
  let failed x := Error ("Code explanation failed: " ++ str x) in
  match scan ls ls [] None 0 with
  | inl x => failed x
  | inr (scanned, current_section) =>
      let closed :=
        match current_section, scanned with
        | Some s, _ :: _ =>
            if is_empty s then inr scanned
            else set_last_line_end scanned (List.length ls)
        | _, _ => inr scanned
        end in
      match closed with
      | inl x => failed x
      | inr all =>
          Success
            {| explanations := all;
               report :=
                 {| total_sections := List.length all;
                    functions :=
                      count_if (fun e => startswith "Function:" (section e))
                               all;
                    modifiers :=
                      count_if (fun e => startswith "Modifier:" (section e))
                               all;
                    events :=
                      count_if (fun e => String.eqb (section e) "Events") all;
                    state_variables :=
                      if existsb (fun e => String.eqb (section e)
                                                      "State Variables") all
                      then 1 else 0;
                    complexity :=
                      if (List.length all <? 5)%nat then "low"
                      else if (List.length all <? 10)%nat then "medium"
                      else "high" |};
               total_lines := List.length ls;
               complexity_score :=
                 Z.min 100 (Z.of_nat (List.length all) * 8) |}
      end
  end.

End Explain.

(** ** More string and list primitives *)

Module PyMore.

(** [s.replace(old, new)] for a non-empty [old]: the occurrences found
    left to right, without overlap, each replaced by [new]. *)
Fixpoint replace_from (old new s : string) (skip : nat) : string :=
  match s with
  | EmptyString => EmptyString
  | String c s' =>
      match skip with
      | S k => replace_from old new s' k
      | O => if startswith old s
             then new ++ replace_from old new s' (String.length old - 1)
             else String c (replace_from old new s' 0)
      end
  end.

Definition replace (old new s : string) : string := replace_from old new s 0.

(** [l.insert(i, x)]: past the end the element is appended. *)
Definition insert {A : Type} (i : nat) (x : A) (l : list A) : list A :=
  (firstn i l ++ x :: skipn i l)%list.

(** [l[i:i] = xs] *)
Definition splice {A : Type} (i : nat) (xs l : list A) : list A :=
  (firstn i l ++ xs ++ skipn i l)%list.

(** The double quote. *)
Definition dq : string := String (ascii_of_nat 34) EmptyString.

End PyMore.

Import PyMore.

(** ** The server: [_parse_origins] (server.py) *)

Module Server.

(** [value] is [None] when the environment variable is not set. *)
Definition _parse_origins (value : option string) : list string :=
  match value with
  | None => ["*"]
  | Some v =>
      if is_empty v then ["*"]
      else map strip
               (filter (fun o => negb (is_empty (strip o))) (split "," v))
  end.

End Server.

(** ** The agent's own tools (agent.py) *)

Module Agent.

Record template_info := {
  template_type : string;
  template_name : string;
  description : string;
  complexity : string
}.

Record available := {
  templates : list template_info;
  total_count : nat
}.

Definition get_available_templates : result available :=
  let templates :=
    [{| template_type := "erc20"; template_name := "ERC-20 Token";
        description := "Standard fungible token"; complexity := "basic" |};
     {| template_type := "erc721"; template_name := "ERC-721 NFT";
        description := "Non-fungible token for unique assets";
        complexity := "intermediate" |};
     {| template_type := "dao"; template_name := "DAO Governance";
        description := "Decentralized organization with voting";
        complexity := "advanced" |};
     {| template_type := "dex"; template_name := "DEX Exchange";
        description := "Token swapping with liquidity pools";
        complexity := "expert" |};
     {| template_type := "staking"; template_name := "Staking Contract";
        description := "Token staking with rewards";
        complexity := "intermediate" |};
     {| template_type := "multisig"; template_name := "Multi-Signature Wallet";
        description := "Multi-owner wallet"; complexity := "intermediate" |}] in
  Success {| templates := templates; total_count := List.length templates |}.

(** [erc20_template] *)
Definition erc20_template : string :=
  join newline
    ["// SPDX-License-Identifier: MIT";
     "pragma solidity ^0.8.19;";
     "";
     ("import " ++ dq ++ "@openzeppelin/contracts/token/ERC20/ERC20.sol" ++ dq ++ ";");
     ("import " ++ dq ++ "@openzeppelin/contracts/token/ERC20/extensions/ERC20Burnable.sol" ++ dq ++ ";");
     ("import " ++ dq ++ "@openzeppelin/contracts/access/Ownable.sol" ++ dq ++ ";");
     ("import " ++ dq ++ "@openzeppelin/contracts/security/ReentrancyGuard.sol" ++ dq ++ ";");
     "";
     "contract CustomERC20Token is ERC20, ERC20Burnable, Ownable, ReentrancyGuard {";
     "    uint256 public constant MAX_SUPPLY = 1000000 * 10**18;";
     "    ";
     "    constructor(string memory name, string memory symbol, uint256 initialSupply) ";
     "        ERC20(name, symbol) {";
     ("        require(initialSupply <= MAX_SUPPLY, " ++ dq ++ "Exceeds max supply" ++ dq ++ ");");
     "        _mint(msg.sender, initialSupply);";
     "    }";
     "    ";
     "    function mint(address to, uint256 amount) public onlyOwner {";
     ("        require(totalSupply() + amount <= MAX_SUPPLY, " ++ dq ++ "Would exceed max supply" ++ dq ++ ");");
     "        _mint(to, amount);";
     "    }";
     "}"].

(** [erc721_template] *)
Definition erc721_template : string :=
  join newline
    ["// SPDX-License-Identifier: MIT";
     "pragma solidity ^0.8.19;";
     "";
     ("import " ++ dq ++ "@openzeppelin/contracts/token/ERC721/ERC721.sol" ++ dq ++ ";");
     ("import " ++ dq ++ "@openzeppelin/contracts/token/ERC721/extensions/ERC721URIStorage.sol" ++ dq ++ ";");
     ("import " ++ dq ++ "@openzeppelin/contracts/access/Ownable.sol" ++ dq ++ ";");
     ("import " ++ dq ++ "@openzeppelin/contracts/security/ReentrancyGuard.sol" ++ dq ++ ";");
     ("import " ++ dq ++ "@openzeppelin/contracts/utils/Counters.sol" ++ dq ++ ";");
     "";
     "contract CustomNFT is ERC721, ERC721URIStorage, Ownable, ReentrancyGuard {";
     "    using Counters for Counters.Counter;";
     "    Counters.Counter private _tokenIdCounter;";
     "    ";
     "    uint256 public constant MAX_SUPPLY = 10000;";
     "    uint256 public mintPrice = 0.01 ether;";
     "    ";
     "    constructor(string memory name, string memory symbol) ERC721(name, symbol) {";
     "        _tokenIdCounter.increment();";
     "    }";
     "    ";
     "    function safeMint(address to, string memory uri) public onlyOwner {";
     ("        require(_tokenIdCounter.current() <= MAX_SUPPLY, " ++ dq ++ "Max supply reached" ++ dq ++ ");");
     "        uint256 tokenId = _tokenIdCounter.current();";
     "        _tokenIdCounter.increment();";
     "        _safeMint(to, tokenId);";
     "        _setTokenURI(tokenId, uri);";
     "    }";
     "    ";
     "    function _burn(uint256 tokenId) internal override(ERC721, ERC721URIStorage) {";
     "        super._burn(tokenId);";
     "    }";
     "    ";
     "    function tokenURI(uint256 tokenId) public view override(ERC721, ERC721URIStorage) ";
     "        returns (string memory) {";
     "        return super.tokenURI(tokenId);";
     "    }";
     "}"].

(** [multisig_template] *)
Definition multisig_template : string :=
  join newline
    ["// SPDX-License-Identifier: MIT";
     "pragma solidity ^0.8.19;";
     "";
     ("import " ++ dq ++ "@openzeppelin/contracts/security/ReentrancyGuard.sol" ++ dq ++ ";");
     "";
     "contract MultiSigWallet is ReentrancyGuard {";
     "    event SubmitTransaction(address indexed owner, uint indexed txIndex, address indexed to, uint value);";
     "    event ConfirmTransaction(address indexed owner, uint indexed txIndex);";
     "    event ExecuteTransaction(address indexed owner, uint indexed txIndex);";
     "    ";
     "    address[] public owners;";
     "    mapping(address => bool) public isOwner;";
     "    uint public numConfirmationsRequired;";
     "    ";
     "    struct Transaction {";
     "        address to;";
     "        uint value;";
     "        bytes data;";
     "        bool executed;";
     "        uint numConfirmations;";
     "    }";
     "    ";
     "    Transaction[] public transactions;";
     "    mapping(uint => mapping(address => bool)) public isConfirmed;";
     "    ";
     "    modifier onlyOwner() {";
     ("        require(isOwner[msg.sender], " ++ dq ++ "Not owner" ++ dq ++ ");");
     "        _;";
     "    }";
     "    ";
     "    constructor(address[] memory _owners, uint _numConfirmationsRequired) {";
     ("        require(_owners.length > 0, " ++ dq ++ "Owners required" ++ dq ++ ");");
     "        require(_numConfirmationsRequired > 0 && _numConfirmationsRequired <= _owners.length, ";
     ("                " ++ dq ++ "Invalid confirmations" ++ dq ++ ");");
     "        ";
     "        for (uint i = 0; i < _owners.length; i++) {";
     "            address owner = _owners[i];";
     ("            require(owner != address(0), " ++ dq ++ "Invalid owner" ++ dq ++ ");");
     ("            require(!isOwner[owner], " ++ dq ++ "Owner not unique" ++ dq ++ ");");
     "            ";
     "            isOwner[owner] = true;";
     "            owners.push(owner);";
     "        }";
     "        ";
     "        numConfirmationsRequired = _numConfirmationsRequired;";
     "    }";
     "    ";
     "    function submitTransaction(address _to, uint _value, bytes memory _data) public onlyOwner {";
     "        uint txIndex = transactions.length;";
     "        transactions.push(Transaction({";
     "            to: _to,";
     "            value: _value,";
     "            data: _data,";
     "            executed: false,";
     "            numConfirmations: 0";
     "        }));";
     "        ";
     "        emit SubmitTransaction(msg.sender, txIndex, _to, _value);";
     "    }";
     "}"].

(** [templates] *)
Definition template_table : list (string * string) :=
  [("erc20", erc20_template);
   ("erc721", erc721_template);
   ("multisig", multisig_template)].

(** [templates[key]], [None] when [key not in templates]. *)
Fixpoint lookup (table : list (string * string)) (key : string)
  : option string :=
  match table with
  | [] => None
  | (k, v) :: rest => if String.eqb k key then Some v else lookup rest key
  end.

Record selection := {
  contract_type : string;
  template_code : string;
  required_dependencies : list string
}.

Definition select_contract_template (contract_type : string)
  : result selection :=
  match lookup template_table (lower contract_type) with
  | None => Error ("Unsupported type: " ++ contract_type)
  | Some code =>
      Success {| contract_type := contract_type;
                 template_code := code;
                 required_dependencies := ["@openzeppelin/contracts"] |}
  end.

(** The dictionary [parameters]: under each key the function reads, the
    value as [str] prints it, or [None] when the key is absent. *)
Record parameters := {
  name : option string;
  max_supply : option string;
  mint_price : option string
}.

Definition get (field : option string) (default : string) : string :=
  match field with
  | Some v => v
  | None => default
  end.

(** [replacements], in the order of the dictionary. *)
Definition replacements (p : parameters) : list (string * string) :=
  [("CustomERC20Token", get (name p) "CustomToken");
   ("CustomNFT", get (name p) "CustomNFT");
   ("MultiSigWallet", get (name p) "MultiSigWallet");
   ("1000000", get (max_supply p) "1000000");
   ("10000", get (max_supply p) "10000");
   ("0.01 ether", get (mint_price p) "0.01 ether")].

Record generated := {
  generated_code : string;
  applied_parameters : parameters
}.

Definition generate_contract_code (template : string) (p : parameters)
  : result generated :=
  Success
    {| generated_code :=
         fold_left (fun contract_code r => replace (fst r) (snd r) contract_code)
                   (replacements p) template;
       applied_parameters := p |}.

(** An entry of [functions]: a JSON object with the keys ['type'],
    ['name'] and ['visibility'], each a string when present. *)
Record custom_function := {
  func_type : option string;
  func_name : option string;
  func_visibility : option string
}.

(** What the loop can raise: [func['name']] on a missing key. *)
Inductive exception :=
| KeyError (key : string).

Definition str (e : exception) : string :=
  match e with KeyError key => "'" ++ key ++ "'" end.

(** The loop [for func in functions] that extends [new_functions]. *)
Fixpoint extend_functions (functions : list custom_function)
         (new_functions : list string) : exception + list string :=
  match functions with
  | [] => inr new_functions
  | func :: rest =>
      if String.eqb (get (func_type func) "function") "function" then
        match func_name func with
        | None => inl (KeyError "name")
        | Some name =>
            let visibility := get (func_visibility func) "public" in
            extend_functions rest
              (new_functions
                 ++ [("    function " ++ name ++ "() " ++ visibility ++ " {")%string;
                     "        // TODO: Implement function logic";
                     "    }";
                     ""])%list
        end
      else extend_functions rest new_functions
  end.

Record extended := {
  updated_code : string;
  added_functions : nat
}.

Definition add_custom_functions (contract_code : string)
           (functions : list custom_function) : result extended :=
  let ls := lines contract_code in
  let insert_pos := List.length ls - 1 in
  match extend_functions functions [] with
  | inl e => Error ("Function addition failed: " ++ str e)
  | inr new_functions =>
      Success {| updated_code := join newline (splice insert_pos new_functions ls);
                 added_functions := List.length functions |}
  end.

(** [access_rules]: a JSON object read at its key ['type']. *)
Record access_rules := {
  rules_type : option string
}.

Record controlled := {
  controlled_code : string;
  access_control_type : string
}.

Definition ownable_import : string :=
  "import " ++ dq ++ "@openzeppelin/contracts/access/Ownable.sol" ++ dq ++ ";".

Definition implement_access_control (contract_code : string)
           (rules : access_rules) : result controlled :=
  let contract_code :=
    if negb (contains "Ownable" contract_code)
       && match rules_type rules with
          | Some t => String.eqb t "ownable"
          | None => false
          end
    then join newline (insert 3 ownable_import (lines contract_code))
    else contract_code in
  Success {| controlled_code := contract_code;
             access_control_type := get (rules_type rules) "ownable" |}.

Record secured := {
  secured_code : string;
  security_level : string;
  added_features : list string
}.

Definition add_security_features (contract_code security_level : string)
  : result secured :=
  Success
    {| secured_code := contract_code;
       security_level := security_level;
       added_features :=
         if (String.eqb security_level "medium"
             || String.eqb security_level "high")
            && negb (contains "ReentrancyGuard" contract_code)
         then ["reentrancy_guard"] else [] |}.

Record issue := {
  issue_type : string;
  issue_line : nat;
  severity : string;
  issue_description : string
}.

(** The loop [for i, line in enumerate(lines)]; [i] is the index of the
    first line of [ls]. *)
Fixpoint find_issues (contract_code : string) (i : nat) (ls : list string)
  : list issue :=
  match ls with
  | [] => []
  | line :: rest =>
      (if contains ".call{" line
          && negb (contains "reentrancyguard" (lower contract_code))
       then [{| issue_type := "reentrancy"; issue_line := i + 1;
                severity := "high";
                issue_description := "Potential reentrancy vulnerability" |}]
       else [])
      ++ find_issues contract_code (S i) rest
  end.

Record validated := {
  vulnerabilities : list issue;
  security_score : Z
}.

Definition validate_contract_structure (contract_code : string)
  : result validated :=
  let issues := find_issues contract_code 0 (lines contract_code) in
  Success {| vulnerabilities := issues;
             security_score :=
               Z.max 0 (100 - Z.of_nat (List.length issues) * 25) |}.

End Agent.

(** ** Formatting: [format_solidity_code] (contract_helpers.py) *)

Module Format.

(** [s.endswith(p)] *)
Fixpoint endswith (p s : string) : bool :=
  String.eqb p s
  || match s with
     | EmptyString => false
     | String _ s' => endswith p s'
     end.

(** [s * n] *)
Fixpoint times (s : string) (n : nat) : string :=
  match n with
  | O => EmptyString
  | S k => s ++ times s k
  end.

(** [re.sub(pattern, repl, s)] for a pattern that matches no empty
    string.  [match_here] is the pattern anchored at the start of its
    argument: it gives the length of the match and the text [repl]
    expands to.  The matches are found left to right without overlap;
    [skip] is the number of characters of the last match still to pass. *)
Fixpoint sub_from (match_here : string -> option (nat * string))
         (s : string) (skip : nat) : string :=
  match s with
  | EmptyString => EmptyString
  | String c s' =>
      match skip with
      | S k => sub_from match_here s' k
      | O =>
          match match_here s with
          | Some (n, repl) => repl ++ sub_from match_here s' (n - 1)
          | None => String c (sub_from match_here s' 0)
          end
      end
  end.

Definition sub (match_here : string -> option (nat * string)) (s : string)
  : string :=
  sub_from match_here s 0.

(** A word character, white space, the operator [op], white space and a
    word character, replaced by the two characters with [op] between
    single spaces. *)
Definition operator_here (op : ascii) (s : string) : option (nat * string) :=
  match s with
  | String a r =>
      if is_word a then
        let (ws1, r1) := span is_space r in
        match r1 with
        | String o r2 =>
            if Ascii.eqb o op then
              let (ws2, r3) := span is_space r2 in
              match r3 with
              | String b _ =>
                  if is_word b
                  then Some (String.length ws1 + String.length ws2 + 3,
                             String a (String " " (String op
                               (String " " (String b EmptyString)))))
                  else None
              | EmptyString => None
              end
            else None
        | EmptyString => None
        end
      else None
  | EmptyString => None
  end.

(** A comma and a word character, replaced by the comma, a space and
    the character. *)
Definition comma_here (s : string) : option (nat * string) :=
  match s with
  | String c (String b _) =>
      if Ascii.eqb c ","%char && is_word b
      then Some (2, String "," (String " " (String b EmptyString)))
      else None
  | _ => None
  end.

(** [function], white space, a name, optional white space and an opening
    parenthesis, replaced by [function], one space, the name and the
    parenthesis. *)
Definition function_here (s : string) : option (nat * string) :=
  if startswith "function" s then
    let (ws, r) := span is_space (drop 8 s) in
    let (w, r1) := span is_word r in
    let (ws1, r2) := span is_space r1 in
    if is_empty ws || is_empty w then None
    else if startswith "(" r2
         then Some (8 + String.length ws + String.length w
                    + String.length ws1 + 1,
                    "function " ++ w ++ "(")
         else None
  else None.

(** The seven substitutions, in the order of the source. *)
Definition spaced (formatted_line : string) : string :=
  let formatted_line := sub (operator_here "=") formatted_line in
  let formatted_line := sub (operator_here "+") formatted_line in
  let formatted_line := sub (operator_here "-") formatted_line in
  let formatted_line := sub (operator_here "*") formatted_line in
  let formatted_line := sub (operator_here "/") formatted_line in
  let formatted_line := sub comma_here formatted_line in
  sub function_here formatted_line.

(** The variables of the first loop. *)
Record state := {
  formatted_lines : list string;
  indent_level : nat;
  in_comment_block : bool
}.

Definition initial : state :=
  {| formatted_lines := []; indent_level := 0; in_comment_block := false |}.

(** One turn of the loop [for line in lines]. *)
Definition step (st : state) (line : string) : state :=
  let stripped := strip line in
  if is_empty stripped then
    {| formatted_lines := formatted_lines st ++ [EmptyString];
       indent_level := indent_level st;
       in_comment_block := in_comment_block st |}
  else
    let in_comment_block :=
      if contains "/*" stripped && negb (contains "*/" stripped) then true
      else if contains "*/" stripped then false
      else in_comment_block st in
    if startswith "//" stripped || startswith "*" stripped || in_comment_block
    then
      {| formatted_lines :=
           formatted_lines st ++ [times "    " (indent_level st) ++ stripped];
         indent_level := indent_level st;
         in_comment_block := in_comment_block |}
    else if startswith "//" stripped && contains "SPDX" stripped then
      {| formatted_lines := formatted_lines st ++ [stripped];
         indent_level := indent_level st;
         in_comment_block := in_comment_block |}
    else if startswith "pragma" stripped then
      {| formatted_lines := formatted_lines st ++ [stripped];
         indent_level := indent_level st;
         in_comment_block := in_comment_block |}
    else if startswith "import" stripped then
      {| formatted_lines := formatted_lines st ++ [stripped];
         indent_level := indent_level st;
         in_comment_block := in_comment_block |}
    else
      let indent_level :=
        if startswith "}" stripped then Nat.max 0 (indent_level st - 1)
        else indent_level st in
      let formatted_line := spaced (times "    " indent_level ++ stripped) in
      {| formatted_lines := formatted_lines st ++ [formatted_line];
         indent_level :=
           if endswith "{" stripped then indent_level + 1 else indent_level;
         in_comment_block := in_comment_block |}.

(** The second loop: of a run of blank lines only the first is kept. *)
Fixpoint clean (prev_empty : bool) (ls : list string) : list string :=
  match ls with
  | [] => []
  | line :: rest =>
      if is_empty (strip line) then
        (if prev_empty then [] else [line]) ++ clean true rest
      else line :: clean false rest
  end.

(** The third loop, over the lines that remain: [rest] holds
    [cleaned_lines[i + 1:]]. *)
Fixpoint separate (cleaned_lines : list string) : list string :=
  match cleaned_lines with
  | [] => []
  | line :: rest =>
      ([line]
       ++ (if startswith "import" (strip line)
           then match rest with
                | [] => []
                | next :: _ =>
                    let next_line := strip next in
                    if negb (is_empty next_line)
                       && negb (startswith "import" next_line)
                    then [EmptyString] else []
                end
           else [])
       ++ (if contains "contract " line && contains "{" line
           then [EmptyString] else [])
       ++ separate rest)%list
  end.

Record formatted := {
  formatted_code : string;
  original_lines : nat;
  formatted_lines_count : nat;
  formatting_applied : list string
}.

Definition final_lines (contract_code : string) : list string :=
  separate
    (clean false
       (formatted_lines (fold_left step (lines contract_code) initial))).

(** The field [formatted_lines] of the result is [formatted_lines_count]
    here, the name being taken by the list of the first loop. *)
Definition format_solidity_code (contract_code : string) : result formatted :=
  let final_lines := final_lines contract_code in
  Success
    {| formatted_code := join newline final_lines;
       original_lines := List.length (lines contract_code);
       formatted_lines_count := List.length final_lines;
       formatting_applied :=
         ["Consistent indentation";
          "Proper spacing around operators";
          "Clean comment formatting";
          "Section separation";
          "Removed extra empty lines"] |}.

End Format.

(** ** Inputs and vocabulary of the properties *)

(** The two-line source of the decomposition scenario. *)
Definition scenario_source : string :=
  "pragma solidity ^0.8.19;" ++ newline
  ++ "contract Foo { function bar() public {} }".

(** The kind of a section, read off the title [explain_generated_code]
    gives it. *)
Inductive section_kind :=
| pragma | import | contract_declaration | state_variable | constant
| event | modifier | constructor | function.

Definition kind_of (e : Explain.section_entry) : option section_kind :=
  let title := Explain.section e in
  if String.eqb title "Pragma Declaration" then Some pragma
  else if String.eqb title "Import Statements" then Some import
  else if String.eqb title "Contract Declaration" then Some contract_declaration
  else if String.eqb title "State Variables" then Some state_variable
  else if String.eqb title "Constants & Immutable Variables" then Some constant
  else if String.eqb title "Events" then Some event
  else if startswith "Modifier: " title then Some modifier
  else if String.eqb title "Constructor" then Some constructor
  else if startswith "Function: " title then Some function
  else None.

(** A source of two comment lines. *)
Definition two_comments : string := "//" ++ newline ++ "//".

(** ABI entries used as inputs. *)
Definition function_entry (name mutability : string) : Gas.abi_item :=
  {| Gas.item_type := Some "function";
     Gas.item_name := Some name;
     Gas.item_stateMutability := Some mutability |}.

(** An entry without the ['type'] key. *)
Definition entry_without_type : Gas.abi_item :=
  {| Gas.item_type := None;
     Gas.item_name := Some "broken";
     Gas.item_stateMutability := None |}.

Definition mixed_abi : list Gas.abi_item :=
  [function_entry "transfer" "nonpayable"; entry_without_type].

Definition view_and_mint_abi : list Gas.abi_item :=
  [function_entry "balanceOf" "view"; function_entry "mint" "nonpayable"].

(** An entry the estimator can read: it has a type, and a name when it is
    a function. *)
Definition well_formed (item : Gas.abi_item) : bool :=
  match Gas.item_type item with
  | None => false
  | Some t =>
      if String.eqb t "function"
      then match Gas.item_name item with Some _ => true | None => false end
      else true
  end.

(** [item] is a function entry named [n] with mutability [m] (the default
    when it has none). *)
Definition is_function (item : Gas.abi_item) (n m : string) : Prop :=
  Gas.item_type item = Some "function"
  /\ Gas.item_name item = Some n
  /\ Gas.get (Gas.item_stateMutability item) "nonpayable" = m.

(** The priority-ordered rule list of the gas model, in the words of the
    specification: the keywords are looked for in the name it is given. *)
Definition stated_base_cost (mutability name : string) : Z :=
  if String.eqb mutability "view" || String.eqb mutability "pure" then 500
  else if contains "mint" name then 50000
  else if contains "transfer" name then 21000
  else if contains "approve" name then 45000
  else 25000.

(** Two sources that differ by one [require(] check in the body of
    [foo]. *)
Definition one_check_source : string :=
  "contract A {" ++ newline
  ++ "  function foo(uint x) public {" ++ newline
  ++ "    require(x > 0);" ++ newline
  ++ "    emit Done(x);" ++ newline
  ++ "  }" ++ newline
  ++ "}".

Definition two_checks_source : string :=
  "contract A {" ++ newline
  ++ "  function foo(uint x) public {" ++ newline
  ++ "    require(x > 0);" ++ newline
  ++ "    require(x < 9);" ++ newline
  ++ "    emit Done(x);" ++ newline
  ++ "  }" ++ newline
  ++ "}".

(** The bodies located for [f] in two sources differ by one [require(]
    and by nothing else the estimator weighs. *)
Definition one_more_require (contract_code contract_code' f : string) : Prop :=
  is_empty contract_code = false
  /\ is_empty contract_code' = false
  /\ count "require(" (Gas.func_body_of contract_code' f)
     = S (count "require(" (Gas.func_body_of contract_code f))
  /\ count "emit " (Gas.func_body_of contract_code' f)
     = count "emit " (Gas.func_body_of contract_code f)
  /\ count ".call(" (Gas.func_body_of contract_code' f)
     = count ".call(" (Gas.func_body_of contract_code f)
  /\ count "mapping(" (Gas.func_body_of contract_code' f)
     = count "mapping(" (Gas.func_body_of contract_code f).

(** The estimates for [f] under two sources, entry by entry. *)
Definition shifted (f : string) (d d' : list (string * Gas.estimate)) : Prop :=
  forall e,
    Gas.dict_get d f = Some e ->
    exists e',
      Gas.dict_get d' f = Some e'
      /\ Gas.estimated_gas e' = (Gas.estimated_gas e + 500)%Z.

(** Every character of [s] is in the class [p]. *)
Fixpoint all (p : ascii -> bool) (s : string) : bool :=
  match s with
  | EmptyString => true
  | String c s' => p c && all p s'
  end.

(** The text [s] begins with a line marker: a colon, one or more decimal
    digits, a colon. *)
Definition marker_at (s : string) : Prop :=
  exists ds rest,
    ds <> "" /\ all is_digit ds = true /\ s = ":" ++ ds ++ ":" ++ rest.

(** No line marker begins inside [pre] in the text [pre ++ tail]. *)
Definition no_marker_within (pre tail : string) : Prop :=
  forall a b, pre = a ++ b -> b <> "" -> ~ marker_at (b ++ tail).

(** A check of [no_marker_within] by evaluation. *)
Fixpoint free_of_markers (pre tail : string) : bool :=
  match pre with
  | EmptyString => true
  | String _ pre' =>
      match Re.line_marker_here (pre ++ tail) with
      | Some _ => false
      | None => free_of_markers pre' tail
      end
  end.

(** [int] accepts the digits of the first line marker of [error], if it
    has one: they are at most [max_str_digits]. *)
Definition within_digit_limit (error : string) : bool :=
  match Re.search Re.line_marker_here error with
  | Some ds => (String.length ds <=? max_str_digits)%nat
  | None => true
  end.

(** A compiler message with a line marker. *)
Definition parser_message_location : string := "contracts/Token.sol".
Definition parser_message_rest : string :=
  "5: ParserError: Expected ';' but got '}'".
Definition parser_message : string :=
  parser_message_location ++ ":12:" ++ parser_message_rest.

(** The lines the inventory of [get_contract_metrics] lists as functions,
    and the name it reads on such a line. *)
Definition inventory_line (line : string) : bool :=
  startswith "function " (strip line)
  && negb (contains "private" (strip line))
  && negb (contains "internal" (strip line)).

Definition inventory_name (line : string) : list string :=
  match Re.search (Re.keyword_name_here "function") (strip line) with
  | Some n => [n]
  | None => []
  end.

(** The same for the documentation extractor, which looks for the two
    words in the line as written. *)
Definition documented_line (line : string) : bool :=
  startswith "function " (strip line)
  && negb (contains "internal" line)
  && negb (contains "private" line).

(** The lines on which the documentation extractor evaluates [re.search]:
    the function lines above, the event lines and the modifier lines. *)
Definition looks_up_re (line : string) : bool :=
  documented_line line
  || startswith "event " (strip line)
  || startswith "modifier " (strip line).

(** The message of the error envelope when the name [re] is looked up. *)
Definition re_is_not_defined : string :=
  "Documentation generation failed: name 're' is not defined".

(** A public function with the word internal in a parameter name. *)
Definition public_setter : string :=
  "function setOwner(address internalId) public {}".

(** A source on which three rules fire: the [TODO] marker, the missing
    checks and the missing NatSpec comment. *)
Definition todo_source : string := "// TODO" ++ newline ++ "function f".

(** A source on which no rule fires. *)
Definition quiet_source : string := "require(".

(** The weights of a list of findings. *)
Definition weights (all : list Suggest.finding) : list Z :=
  map (fun f => Suggest.priority_score (Suggest.label f)) all.

Definition total (l : list Z) : Z := fold_right Z.add 0%Z l.

(** The improvement score in the words of the specification: 100 minus
    the average of the weights, not below 0, the average being the exact
    quotient of the sum by the number of weights; 100 when there is no
    weight. *)
Definition stated_improvement_score (ws : list Z) : Q :=
  match ws with
  | [] => inject_Z 100
  | _ => Qmax (inject_Z 0)
              (inject_Z 100
               - inject_Z (total ws) / inject_Z (Z.of_nat (List.length ws)))%Q
  end.

(** The state of the loop of [Gas.collect_func_lines] once it has read
    the lines [ls]: [None] when the loop has left at one of them. *)
Fixpoint state_after (func_name : string) (ls : list string)
         (in_function : bool) (func_lines : list string) (brace_count : Z)
  : option (bool * list string * Z) :=
  match ls with
  | [] => Some (in_function, func_lines, brace_count)
  | line :: rest =>
      let in_function :=
        if contains ("function " ++ func_name) line then true
        else in_function in
      if in_function then
        let func_lines := (func_lines ++ [line])%list in
        let brace_count :=
          (brace_count + (Z.of_nat (count "{" line)
                          - Z.of_nat (count "}" line)))%Z in
        if (brace_count =? 0)%Z && contains "{" (join "" func_lines)
        then None
        else state_after func_name rest in_function func_lines brace_count
      else state_after func_name rest in_function func_lines brace_count
  end.

(** A line that holds one [require(] check and nothing else the scan of
    the function [f] or the estimator looks at. *)
Definition check_line (f line : string) : Prop :=
  count "require(" line = 1
  /\ contains "emit " line = false
  /\ contains ".call(" line = false
  /\ contains "mapping(" line = false
  /\ contains "{" line = false
  /\ contains "}" line = false
  /\ contains ("function " ++ f) line = false.

(** ** Vocabulary of the further properties *)

(** The number of entries of an inventory. *)
Definition inventory_size (e : Metrics.contract_elements) : nat :=
  List.length (Metrics.functions e) + List.length (Metrics.modifiers e)
  + List.length (Metrics.events e) + List.length (Metrics.state_variables e)
  + List.length (Metrics.imports e).

(** The label read for a finding is one of the four of the weight table. *)
Definition known_label (f : Suggest.finding) : bool :=
  existsb (String.eqb (Suggest.label f)) ["critical"; "high"; "medium"; "low"].

(** A key a finding may carry holds, when it is there, one of the four
    labels of the weight table. *)
Definition of_the_table (field : option string) : Prop :=
  forall l, field = Some l -> In l ["critical"; "high"; "medium"; "low"].

(** How the weight of the finding [f] comes about: what it carries under
    [severity], [priority] and [impact] is of the table; it carries none
    of the three exactly when it is an architecture finding, and is then
    read as [medium]; its weight is one of the four of the table. *)
Definition weighted_by_table (f : Suggest.finding) : Prop :=
  of_the_table (Suggest.f_severity f)
  /\ of_the_table (Suggest.f_priority f)
  /\ of_the_table (Suggest.f_impact f)
  /\ (Suggest.f_severity f = None /\ Suggest.f_priority f = None
      /\ Suggest.f_impact f = None
      <-> Suggest.f_type f = "architecture")
  /\ (Suggest.f_type f = "architecture" -> Suggest.label f = "medium")
  /\ In (Suggest.priority_score (Suggest.label f)) [100; 80; 60; 40]%Z.

(** The number of the four tallies of the priority breakdown that count
    the finding [f]. *)
Definition tallied (f : Suggest.finding) : nat :=
  List.length (filter (fun l => Suggest.has_level l f)
                      ["critical"; "high"; "medium"; "low"]).

(** [f] is the stripped text of a line of [ls] that contains [function ]
    and is followed by more than 50 lines without it, and then by a line
    that contains it again. *)
Definition long_function_in (ls : list string) (f : string) : Prop :=
  exists pre l1 mid l2 post,
    ls = (pre ++ l1 :: mid ++ l2 :: post)%list
    /\ f = strip l1
    /\ contains "function " l1 = true
    /\ contains "function " l2 = true
    /\ 50 < List.length mid
    /\ Forall (fun l => contains "function " l = false) mid.

(** A source whose first function runs over 60 lines and whose second
    function is the last line. *)
Definition long_source_lines : list string :=
  ("function first() public {" :: repeat "  x = x + 1;" 60
     ++ ["function last() public {"])%list.

(** A text that is empty or begins with a character that is not white
    space. *)
Definition clean_head (s : string) : bool :=
  match s with
  | EmptyString => true
  | String c _ => negb (is_space c)
  end.

(** The six kinds of a diagnostic. *)
Definition diagnostic_kinds : list string :=
  ["syntax_error"; "type_error"; "declaration_error"; "compiler_error";
   "warning"; "unknown"].

(** The number of parsed errors of the kind [k]. *)
Definition of_kind (k : string) (parsed : list Diagnostics.error_info) : nat :=
  List.length (filter (fun e => String.eqb (Diagnostics.error_type e) k) parsed).

(** A message of no known kind with two markers. *)
Definition located_message_prefix : string := "note at Vault.sol".
Definition located_message_rest : string := "9: see also :7: above".

(** [item] is a function entry with the name [n]. *)
Definition names_function (item : Gas.abi_item) (n : string) : bool :=
  match Gas.item_type item, Gas.item_name item with
  | Some t, Some k => String.eqb t "function" && String.eqb k n
  | _, _ => false
  end.

(** The mutability of the last function entry of [abi] with the name [n]. *)
Fixpoint last_mutability (abi : list Gas.abi_item) (n : string)
  : option string :=
  match abi with
  | [] => None
  | item :: rest =>
      match last_mutability rest n with
      | Some m => Some m
      | None =>
          if names_function item n
          then Some (Gas.get (Gas.item_stateMutability item) "nonpayable")
          else None
      end
  end.

(** An ABI with two entries of the name [transfer]. *)
Definition overloaded_abi : list Gas.abi_item :=
  [function_entry "transfer" "view";
   {| Gas.item_type := Some "event"; Gas.item_name := None;
      Gas.item_stateMutability := None |};
   function_entry "transfer" "nonpayable"].

(** An entry of [explanations] lies within the lines read so far: it
    starts on one of the first [i] lines, and its end, when it has one, is
    not before its start and not after the last of the [n] lines. *)
Definition entry_within (i n : nat) (e : Explain.section_entry) : Prop :=
  1 <= Explain.line_start e <= i
  /\ match Explain.line_end e with
     | Some x => Explain.line_start e <= x <= n
     | None => True
     end.

(** [current_section] is set. *)
Definition section_open (current_section : option string) : bool :=
  match current_section with
  | Some s => negb (is_empty s)
  | None => false
  end.

(** The state of the loop of [explain_generated_code] before line [i] of
    [n]: the entries lie within the first [i] lines, in the order of their
    first lines, at most one per line, and there is one when a section is
    open. *)
Definition scan_invariant (i n : nat) (explanations : list Explain.section_entry)
           (current_section : option string) : Prop :=
  Forall (entry_within i n) explanations
  /\ StronglySorted lt (map Explain.line_start explanations)
  /\ List.length explanations <= i
  /\ (section_open current_section = true -> explanations <> []).

(** A source with two public functions and a private one. *)
Definition three_functions_source : string :=
  "contract Vault {" ++ newline
  ++ "  function deposit(uint amount) external payable {}" ++ newline
  ++ "  function _sweep() private {}" ++ newline
  ++ "  function balance() public view returns (uint) {}" ++ newline
  ++ "}".

(** [func] is an entry [add_custom_functions] writes out: its type is
    [function], or it has none. *)
Definition is_custom_function (func : Agent.custom_function) : bool :=
  String.eqb (Agent.get (Agent.func_type func) "function") "function".

(** An entry [add_custom_functions] can read. *)
Definition readable (func : Agent.custom_function) : bool :=
  negb (is_custom_function func)
  || match Agent.func_name func with Some _ => true | None => false end.

(** The types [select_contract_template] has a template for. *)
Definition supported_types : list string := ["erc20"; "erc721"; "multisig"].

(** The six texts [generate_contract_code] looks for. *)
Definition placeholders : list string :=
  ["CustomERC20Token"; "CustomNFT"; "MultiSigWallet"; "1000000"; "10000";
   "0.01 ether"].

Definition no_parameters : Agent.parameters :=
  {| Agent.name := None; Agent.max_supply := None; Agent.mint_price := None |}.

(** [s] without its white space. *)
Fixpoint squeeze (s : string) : string :=
  match s with
  | EmptyString => EmptyString
  | String c s' => if is_space c then squeeze s' else String c (squeeze s')
  end.

(** The lines of [ls] that hold more than white space, each without its
    white space. *)
Definition code_text (ls : list string) : list string :=
  filter (fun t => negb (is_empty t)) (map squeeze ls).

(** [s] holds no line break. *)
Definition one_line (s : string) : bool :=
  all (fun c => negb (Ascii.eqb (ascii_of_nat 10) c)) s.

(** The replacement [match_here] gives differs from the text it matches in
    white space only; the match is not empty, and the replacement brings
    no line break of its own. *)
Definition spacing_only (match_here : string -> option (nat * string)) : Prop :=
  forall t n repl,
    match_here t = Some (n, repl) ->
    exists matched rest,
      t = matched ++ rest
      /\ n = String.length matched /\ 1 <= n
      /\ squeeze repl = squeeze matched
      /\ (one_line matched = true -> one_line repl = true).

(** * Properties *)

(** ** Decomposition and inventory of the scenario source *)

(** C1, as stated, fails: on the scenario source the decomposition does
    not produce three sections of kinds pragma, contract declaration and
    function, and the metrics do not report one function. *)
Lemma scenario_three_sections_refuted :
  ~ (exists d,
        Explain.explain_generated_code scenario_source = Success d
        /\ map kind_of (Explain.explanations d)
           = [Some pragma; Some contract_declaration; Some function])
  /\ ~ (exists m,
          Metrics.get_contract_metrics scenario_source = Success m
          /\ List.length (Metrics.functions (Metrics.elements m)) = 1).
Proof.
  split.
  - intros (d & Hd & Hk).
    vm_compute in Hd. injection Hd as <-.
    vm_compute in Hk. discriminate Hk.
  - intros (m & Hm & Hf).
    vm_compute in Hm. injection Hm as <-.
    vm_compute in Hf. discriminate Hf.
Qed.

(** C1, amended: on the scenario source the decomposition produces exactly
    two sections, the pragma on line 1 and the contract declaration on
    line 2 (the function sits on the contract's own line and opens no
    section), and the metrics report no function, no modifier and no
    event. *)
Theorem scenario_two_sections :
  exists d m,
    Explain.explain_generated_code scenario_source = Success d
    /\ map kind_of (Explain.explanations d)
       = [Some pragma; Some contract_declaration]
    /\ map (fun e => (Explain.line_start e, Explain.line_end e))
           (Explain.explanations d)
       = [(1, Some 1); (2, Some 2)]
    /\ Explain.functions (Explain.report d) = 0
    /\ Metrics.get_contract_metrics scenario_source = Success m
    /\ List.length (Metrics.functions (Metrics.elements m)) = 0
    /\ List.length (Metrics.modifiers (Metrics.elements m)) = 0
    /\ List.length (Metrics.events (Metrics.elements m)) = 0.
Proof.
  eexists. eexists.
  split; [vm_compute; reflexivity|].
  split; [reflexivity|].
  split; [reflexivity|].
  split; [reflexivity|].
  split; [vm_compute; reflexivity|].
  repeat split.
Qed.

(** ** Bounds of the three scores *)

Lemma fold_left_grows {A : Type} (f : Z -> A -> Z) :
  (forall acc a, acc <= f acc a)%Z ->
  forall l acc, (acc <= fold_left f l acc)%Z.
Proof.
  intros Hf l. induction l as [|a l IH]; intros acc.
  - simpl. lia.
  - change (fold_left f (a :: l) acc) with (fold_left f l (f acc a)).
    specialize (Hf acc a). specialize (IH (f acc a)). lia.
Qed.

Lemma cyclomatic_at_least_one (ls : list string) :
  (1 <= Metrics.cyclomatic_complexity_of ls)%Z.
Proof.
  unfold Metrics.cyclomatic_complexity_of.
  apply fold_left_grows. intros acc line.
  apply fold_left_grows. intros acc' keyword. lia.
Qed.

Lemma security_sum_bounds (f : Metrics.security_features) :
  (0 <= Metrics.sum_bools (Metrics.security_values f) <= 6)%Z.
Proof.
  destruct f as [[] [] [] [] [] []]; vm_compute; split; discriminate.
Qed.

(** C2, as stated, fails: a source of two comment lines has
    maintainability score 102, outside [0,100]. *)
Lemma maintainability_exceeds_100 :
  exists m,
    Metrics.get_contract_metrics two_comments = Success m
    /\ Metrics.maintainability_score m = 102%Z
    /\ ~ (0 <= Metrics.maintainability_score m <= 100)%Z.
Proof.
  eexists. split; [vm_compute; reflexivity|].
  split; [reflexivity|].
  simpl. lia.
Qed.

(** C2, amended: for every source text the metrics are computed, the
    complexity score lies in [2,100], the security score lies in [0,90],
    and the maintainability score is clamped below only: it is
    [max(0, 100 - complexity_score + 2 * comment_lines)], at least 0 and
    at most [98 + 2 * comment_lines]. *)
Theorem score_bounds (contract_code : string) :
  exists m,
    Metrics.get_contract_metrics contract_code = Success m
    /\ (2 <= Metrics.complexity_score m <= 100)%Z
    /\ (0 <= Metrics.security_score m <= 90)%Z
    /\ Metrics.maintainability_score m
       = Z.max 0 (100 - Metrics.complexity_score m
                  + 2 * Z.of_nat (Metrics.comment_lines m))
    /\ (0 <= Metrics.maintainability_score m
         <= 98 + 2 * Z.of_nat (Metrics.comment_lines m))%Z.
Proof.
  unfold Metrics.get_contract_metrics.
  eexists. split; [reflexivity|]. cbn [Metrics.complexity_score
    Metrics.security_score Metrics.maintainability_score Metrics.comment_lines].
  pose proof (cyclomatic_at_least_one (lines contract_code)) as Hc.
  pose proof (security_sum_bounds (Metrics.security_features_of contract_code))
    as Hs.
  repeat split; lia.
Qed.

(** ** Requests: clarity and feasibility *)

Lemma infeasible_iff (missing : nat) (clarity : Z) :
  negb ((3 <? missing)%nat || (clarity <? 20)%Z) = false
  <-> (3 < missing)%nat \/ (clarity < 20)%Z.
Proof.
  rewrite negb_false_iff, orb_true_iff, Nat.ltb_lt, Z.ltb_lt. reflexivity.
Qed.

(** C5: the request "simple token" is detected as erc20 (30 points), has 2
    words (20 points off), no requirement group, clarity 10, and is not
    feasible; for every request the clarity score is the sum of the type,
    requirement and length points, and the request is infeasible exactly
    when more than 3 pieces of information are missing or the clarity
    score is below 20. *)
Theorem simple_token_infeasible :
  (exists v,
      Validator.validate_user_input "simple token" = Success v
      /\ Validator.detected_contract_types v = ["erc20"]
      /\ Validator.recommended_contract_type v = Some "erc20"
      /\ Validator.found_requirements v = []
      /\ Validator.word_count v = 2
      /\ Validator.missing_info v = []
      /\ Validator.clarity_score v = (30 - 20)%Z
      /\ Validator.is_feasible v = false)
  /\ (forall text, exists v,
         Validator.validate_user_input text = Success v
         /\ Validator.clarity_score v
            = ((match Validator.detected_contract_types v with
                | [] => 0
                | _ => 30
                end)
               + 10 * Z.of_nat (List.length (Validator.found_requirements v))
               + (if (Validator.word_count v <? 5)%nat then -20
                  else if (100 <? Validator.word_count v)%nat then 20
                  else 10))%Z
         /\ (Validator.is_feasible v = false
             <-> (3 < List.length (Validator.missing_info v))%nat
                 \/ (Validator.clarity_score v < 20)%Z)).
Proof.
  split.
  - eexists. split; [vm_compute; reflexivity|]. repeat split.
  - intros text. unfold Validator.validate_user_input.
    eexists. split; [reflexivity|].
    cbn [Validator.clarity_score Validator.detected_contract_types
         Validator.found_requirements Validator.word_count
         Validator.is_feasible Validator.missing_info].
    split.
    + destruct (Validator.matching Validator.contract_indicators _);
        destruct (_ <? 5)%nat; try destruct (100 <? _)%nat; lia.
    + apply infeasible_iff.
Qed.

(** C9: the validator returns a success result for every request text, and
    the clarity score is not clamped below: the empty request has clarity
    score -20 and is not feasible. *)
Theorem validation_total_unclamped :
  (forall text, exists v, Validator.validate_user_input text = Success v)
  /\ (exists v,
         Validator.validate_user_input "" = Success v
         /\ Validator.clarity_score v = (-20)%Z
         /\ Validator.missing_info v = ["contract_type"]
         /\ Validator.is_feasible v = false).
Proof.
  split.
  - intros text. unfold Validator.validate_user_input. eexists. reflexivity.
  - eexists. split; [vm_compute; reflexivity|]. repeat split.
Qed.

(** ** Gas estimates *)

Lemma dict_get_set (d : list (string * Gas.estimate)) (k k' : string)
      (v : Gas.estimate) :
  Gas.dict_get (Gas.dict_set d k v) k'
  = if String.eqb k k' then Some v else Gas.dict_get d k'.
Proof.
  induction d as [|[k0 v0] d IH]; simpl.
  - reflexivity.
  - destruct (String.eqb k0 k) eqn:E0; simpl.
    + apply String.eqb_eq in E0. subst k0.
      destruct (String.eqb k k'); reflexivity.
    + rewrite IH.
      destruct (String.eqb k0 k') eqn:E1; [|reflexivity].
      destruct (String.eqb k k') eqn:E2; [|reflexivity].
      apply String.eqb_eq in E1, E2. subst k0 k'.
      rewrite String.eqb_refl in E0. discriminate E0.
Qed.

Lemma missing_type_raises (contract_code : string) (abi : list Gas.abi_item) :
  (exists item, In item abi /\ Gas.item_type item = None) ->
  forall acc,
    Gas.estimate_functions contract_code abi acc = inl (Gas.KeyError "type")
    \/ Gas.estimate_functions contract_code abi acc = inl (Gas.KeyError "name").
Proof.
  induction abi as [|item abi IH]; intros (bad & Hin & Hbad) acc.
  - destruct Hin.
  - simpl. destruct (Gas.item_type item) as [t|] eqn:Et; simpl.
    + assert (Hrest : exists i, In i abi /\ Gas.item_type i = None).
      { destruct Hin as [->|Hin]; [congruence|]. exists bad. auto. }
      destruct (String.eqb t "function").
      * destruct (Gas.item_name item); simpl; [apply IH; exact Hrest|].
        right. reflexivity.
      * apply IH. exact Hrest.
    + left. reflexivity.
Qed.

(** C3, as stated, fails: an ABI made of a well-formed function entry
    followed by an entry without its type is not estimated at all; the
    call returns the error envelope. *)
Lemma malformed_entry_not_skipped :
  In (function_entry "transfer" "nonpayable") mixed_abi
  /\ In entry_without_type mixed_abi
  /\ Gas.analyze_gas_usage "6080" mixed_abi ""
     = Error "Gas analysis failed: 'type'"
  /\ is_success (Gas.analyze_gas_usage "6080" mixed_abi "") = false.
Proof.
  repeat split; simpl; auto.
Qed.

(** C3, amended: a malformed ABI entry aborts the whole estimate.  For
    every ABI list with an entry that lacks its type, whatever else the
    list holds and whatever the source text, the call returns the error
    envelope, with the message of the missing key, and no estimate. *)
Theorem malformed_entry_aborts (bytecode : string) (abi : list Gas.abi_item)
        (contract_code : string) :
  (exists item, In item abi /\ Gas.item_type item = None) ->
  Gas.analyze_gas_usage bytecode abi contract_code
  = Error "Gas analysis failed: 'type'"
  \/ Gas.analyze_gas_usage bytecode abi contract_code
     = Error "Gas analysis failed: 'name'".
Proof.
  intros H. unfold Gas.analyze_gas_usage.
  destruct (missing_type_raises contract_code abi H []) as [-> | ->];
    [left | right]; reflexivity.
Qed.

Lemma malformed_entry_aborts_witness :
  (exists item, In item mixed_abi /\ Gas.item_type item = None)
  /\ (Gas.analyze_gas_usage "6080" mixed_abi ""
      = Error "Gas analysis failed: 'type'"
      \/ Gas.analyze_gas_usage "6080" mixed_abi ""
         = Error "Gas analysis failed: 'name'").
Proof.
  assert (H : exists item, In item mixed_abi /\ Gas.item_type item = None).
  { exists entry_without_type. split; [simpl; auto | reflexivity]. }
  split; [exact H | apply (malformed_entry_aborts "6080" mixed_abi "" H)].
Defined.

Lemma estimate_functions_inventory (contract_code : string)
      (abi : list Gas.abi_item) :
  forallb well_formed abi = true ->
  forall acc, exists d,
    Gas.estimate_functions contract_code abi acc = inr d
    /\ (forall n e,
          Gas.dict_get d n = Some e ->
          Gas.dict_get acc n = Some e
          \/ exists item m,
               In item abi /\ is_function item n m
               /\ e = Gas.estimate_of contract_code n m)
    /\ (forall n,
          Gas.dict_get acc n <> None
          \/ (exists item m, In item abi /\ is_function item n m) ->
          Gas.dict_get d n <> None).
Proof.
  induction abi as [|item abi IH]; intros Hwf acc.
  - exists acc. simpl. split; [reflexivity|]. split.
    + intros n e H. left. exact H.
    + intros n [H | (i & m & [] & _)]. exact H.
  - simpl in Hwf. apply andb_true_iff in Hwf as [Hitem Hrest].
    specialize (IH Hrest).
    unfold well_formed in Hitem. simpl.
    destruct (Gas.item_type item) as [t|] eqn:Et; [|discriminate Hitem].
    simpl. destruct (String.eqb t "function") eqn:Ef.
    + apply String.eqb_eq in Ef. subst t.
      destruct (Gas.item_name item) as [n0|] eqn:En; [|discriminate Hitem].
      simpl.
      set (m0 := Gas.get (Gas.item_stateMutability item) "nonpayable").
      destruct (IH (Gas.dict_set acc n0
                      (Gas.estimate_of contract_code n0 m0)))
        as (d & Hd & Hsound & Hcomplete).
      exists d. split; [exact Hd|]. split.
      * intros n e H. destruct (Hsound n e H) as [Hacc | (i & m & Hi & Hf & He)].
        -- rewrite dict_get_set in Hacc.
           destruct (String.eqb n0 n) eqn:E.
           ++ apply String.eqb_eq in E. subst n0. right.
              exists item, m0. split; [left; reflexivity|].
              split; [repeat split; assumption | congruence].
           ++ left. exact Hacc.
        -- right. exists i, m. split; [right; exact Hi | split; assumption].
      * intros n H. apply Hcomplete.
        rewrite dict_get_set.
        destruct (String.eqb n0 n) eqn:E; [left; discriminate|].
        destruct H as [H | (i & m & [-> | Hi] & Hf)].
        -- left. exact H.
        -- destruct Hf as (_ & Hn & _). rewrite En in Hn.
           injection Hn as ->. rewrite String.eqb_refl in E. discriminate E.
        -- right. exists i, m. split; assumption.
    + destruct (IH acc) as (d & Hd & Hsound & Hcomplete).
      exists d. split; [exact Hd|]. split.
      * intros n e H. destruct (Hsound n e H) as [Hacc | (i & m & Hi & Hf & He)].
        -- left. exact Hacc.
        -- right. exists i, m. split; [right; exact Hi | split; assumption].
      * intros n H. apply Hcomplete.
        destruct H as [H | (i & m & [-> | Hi] & Hf)].
        -- left. exact H.
        -- destruct Hf as (Ht & _). rewrite Et in Ht.
           injection Ht as ->. discriminate Ef.
        -- right. exists i, m. split; assumption.
Qed.

Lemma base_gas_folds_case (mutability name : string) :
  Gas.base_gas_of mutability name = stated_base_cost mutability (lower name).
Proof. reflexivity. Qed.

(** C6, as stated, fails: the keywords are looked for in the lower-cased
    name.  The state-changing function [safeMint] is estimated at 50000,
    where the rule list applied to the name as written gives 25000. *)
Lemma mixed_case_name_refutes_stated_rule :
  exists d e,
    Gas.analyze_gas_usage "" [function_entry "safeMint" "nonpayable"] ""
    = Success d
    /\ Gas.dict_get (Gas.function_gas_estimates d) "safeMint" = Some e
    /\ Gas.estimated_gas e = 50000%Z
    /\ stated_base_cost "nonpayable" "safeMint" = 25000%Z
    /\ Gas.estimated_gas e <> stated_base_cost "nonpayable" "safeMint".
Proof.
  eexists. eexists. split; [vm_compute; reflexivity|].
  split; [reflexivity|]. repeat split. discriminate.
Qed.

(** C6, amended: with no source text, an ABI of well-formed entries is
    always estimated; every function entry gets an estimate under its
    name, and every estimate is the base cost of a function entry of that
    name by the priority-ordered rules applied to the lower-cased name:
    view or pure gives 500, else a lower-cased name containing mint gives
    50000, else transfer 21000, else approve 45000, otherwise 25000.  An
    ABI with one view function and the function [mint] yields exactly 500
    and 50000. *)
Theorem base_costs_without_source :
  (forall (bytecode : string) (abi : list Gas.abi_item),
      forallb well_formed abi = true ->
      exists d,
        Gas.analyze_gas_usage bytecode abi "" = Success d
        /\ (forall item n m,
              In item abi -> is_function item n m ->
              exists e, Gas.dict_get (Gas.function_gas_estimates d) n = Some e)
        /\ (forall n e,
              Gas.dict_get (Gas.function_gas_estimates d) n = Some e ->
              exists item m,
                In item abi /\ is_function item n m
                /\ Gas.state_mutability e = m
                /\ Gas.estimated_gas e = stated_base_cost m (lower n)))
  /\ (exists d,
         Gas.analyze_gas_usage "" view_and_mint_abi "" = Success d
         /\ map (fun kv => (fst kv, Gas.estimated_gas (snd kv)))
                (Gas.function_gas_estimates d)
            = [("balanceOf", 500%Z); ("mint", 50000%Z)]).
Proof.
  split.
  - intros bytecode abi Hwf. unfold Gas.analyze_gas_usage.
    destruct (estimate_functions_inventory "" abi Hwf [])
      as (d & -> & Hsound & Hcomplete).
    eexists. split; [reflexivity|].
    cbn [Gas.function_gas_estimates]. split.
    + intros item n m Hi Hf.
      destruct (Gas.dict_get d n) as [e|] eqn:E; [exists e; reflexivity|].
      exfalso. apply (Hcomplete n); [|exact E].
      right. exists item, m. split; assumption.
    + intros n e H.
      destruct (Hsound n e H) as [Hacc | (i & m & Hi & Hf & ->)];
        [discriminate Hacc|].
      exists i, m. repeat split; try assumption; apply Hf.
  - eexists. split; [vm_compute; reflexivity|]. reflexivity.
Qed.

Lemma base_costs_without_source_witness :
  forallb well_formed view_and_mint_abi = true
  /\ exists d,
      Gas.analyze_gas_usage "6080" view_and_mint_abi "" = Success d
      /\ (forall n e,
            Gas.dict_get (Gas.function_gas_estimates d) n = Some e ->
            exists item m,
              In item view_and_mint_abi /\ is_function item n m
              /\ Gas.state_mutability e = m
              /\ Gas.estimated_gas e = stated_base_cost m (lower n)).
Proof.
  split; [reflexivity|].
  destruct (proj1 base_costs_without_source "6080" view_and_mint_abi
                  eq_refl) as (d & Hd & _ & Hsound).
  exists d. split; [exact Hd | exact Hsound].
Defined.

(** *** Body increments *)

Lemma count_from_absent (sub s : string) :
  contains sub s = false -> forall k, count_from sub s k = 0.
Proof.
  induction s as [|c s IH]; intros H k.
  - reflexivity.
  - cbn [contains] in H. apply orb_false_iff in H as [Hhere Hrest].
    cbn [count_from]. destruct k as [|k].
    + rewrite Hhere. apply IH. exact Hrest.
    + apply IH. exact Hrest.
Qed.

Lemma count_absent (sub s : string) :
  is_empty sub = false -> contains sub s = false -> count sub s = 0.
Proof.
  intros Hsub H. unfold count. rewrite Hsub. apply count_from_absent, H.
Qed.

Lemma guarded_increment (sub body : string) (base weight : Z) :
  is_empty sub = false ->
  (if contains sub body
   then (base + weight * Z.of_nat (count sub body))%Z else base)
  = (base + weight * Z.of_nat (count sub body))%Z.
Proof.
  intros Hsub. destruct (contains sub body) eqn:E; [reflexivity|].
  rewrite (count_absent _ _ Hsub E). lia.
Qed.

Lemma add_body_gas_sum (base : Z) (body : string) :
  Gas.add_body_gas base body
  = (base + 1000 * Z.of_nat (count "emit " body)
     + 10000 * Z.of_nat (count ".call(" body)
     + 500 * Z.of_nat (count "require(" body)
     + 5000 * Z.of_nat (count "mapping(" body))%Z.
Proof.
  unfold Gas.add_body_gas.
  rewrite !guarded_increment by reflexivity. reflexivity.
Qed.

Lemma estimate_of_one_more (contract_code contract_code' f m : string) :
  one_more_require contract_code contract_code' f ->
  Gas.estimated_gas (Gas.estimate_of contract_code' f m)
  = (Gas.estimated_gas (Gas.estimate_of contract_code f m) + 500)%Z.
Proof.
  intros (Hc & Hc' & Hreq & Hemit & Hcall & Hmap).
  unfold Gas.estimate_of. cbn [Gas.estimated_gas].
  rewrite Hc, Hc'. cbn [negb].
  rewrite !add_body_gas_sum, Hreq, Hemit, Hcall, Hmap. lia.
Qed.

Lemma estimate_functions_shift (contract_code contract_code' f : string)
      (abi : list Gas.abi_item) :
  one_more_require contract_code contract_code' f ->
  forall acc acc' d,
    shifted f acc acc' ->
    Gas.estimate_functions contract_code abi acc = inr d ->
    exists d',
      Gas.estimate_functions contract_code' abi acc' = inr d'
      /\ shifted f d d'.
Proof.
  intros Hmore. induction abi as [|item abi IH]; intros acc acc' d Hacc Hd.
  - simpl in *. injection Hd as <-. exists acc'. split; [reflexivity|exact Hacc].
  - simpl in *. destruct (Gas.item_type item) as [t|]; simpl in *;
      [|discriminate Hd].
    destruct (String.eqb t "function").
    + destruct (Gas.item_name item) as [n|]; simpl in *; [|discriminate Hd].
      eapply IH; [|exact Hd].
      intros e He. rewrite dict_get_set in He. rewrite dict_get_set.
      destruct (String.eqb n f) eqn:E.
      * apply String.eqb_eq in E. subst n. injection He as <-.
        eexists. split; [reflexivity|].
        apply estimate_of_one_more. exact Hmore.
      * apply Hacc. exact He.
    + eapply IH; [exact Hacc | exact Hd].
Qed.

(** C7: the estimate is monotone in require checks.  Take an ABI and a
    source for which the analysis succeeds with an estimate for [f], and
    a second source in which the body located for [f] holds one more
    occurrence of [require(] and the same numbers of the other weighed
    operations.  The analysis of the second source succeeds too, and its
    estimate for [f] is larger by exactly 500; this holds for every
    mutability, so for the functions that are neither view nor pure. *)
Theorem one_more_require_adds_500
        (bytecode : string) (abi : list Gas.abi_item)
        (contract_code contract_code' f : string)
        (d : Gas.gas_report) (e : Gas.estimate) :
  one_more_require contract_code contract_code' f ->
  Gas.analyze_gas_usage bytecode abi contract_code = Success d ->
  Gas.dict_get (Gas.function_gas_estimates d) f = Some e ->
  exists d' e',
    Gas.analyze_gas_usage bytecode abi contract_code' = Success d'
    /\ Gas.dict_get (Gas.function_gas_estimates d') f = Some e'
    /\ Gas.estimated_gas e' = (Gas.estimated_gas e + 500)%Z
    /\ (Gas.estimated_gas e < Gas.estimated_gas e')%Z.
Proof.
  intros Hmore Hd He. unfold Gas.analyze_gas_usage in *.
  destruct (Gas.estimate_functions contract_code abi []) as [x|est] eqn:Hest;
    [discriminate Hd|].
  injection Hd as <-. cbn [Gas.function_gas_estimates] in He.
  destruct (estimate_functions_shift contract_code contract_code' f abi
              Hmore [] [] est) as (est' & -> & Hshift).
  - intros e0 H0. discriminate H0.
  - exact Hest.
  - destruct (Hshift e He) as (e' & He' & Hgas).
    eexists. exists e'. split; [reflexivity|].
    cbn [Gas.function_gas_estimates]. repeat split; [exact He' | exact Hgas | lia].
Qed.

Lemma one_more_require_adds_500_witness :
  one_more_require one_check_source two_checks_source "foo"
  /\ exists d' e',
      Gas.analyze_gas_usage "6080" [function_entry "foo" "nonpayable"]
                            two_checks_source = Success d'
      /\ Gas.dict_get (Gas.function_gas_estimates d') "foo" = Some e'
      /\ Gas.estimated_gas e' = (26500 + 500)%Z.
Proof.
  assert (H : one_more_require one_check_source two_checks_source "foo").
  { unfold one_more_require.
    repeat (split; [vm_compute; reflexivity|]). vm_compute; reflexivity. }
  split; [exact H|].
  assert (H1 : exists d e,
             Gas.analyze_gas_usage "6080" [function_entry "foo" "nonpayable"]
                                   one_check_source = Success d
             /\ Gas.dict_get (Gas.function_gas_estimates d) "foo" = Some e
             /\ Gas.estimated_gas e = 26500%Z).
  { vm_compute. eexists. eexists.
    split; [reflexivity|]. split; reflexivity. }
  destruct H1 as (d & e & Hd & He & Hg).
  destruct (one_more_require_adds_500
              "6080" [function_entry "foo" "nonpayable"]
              one_check_source two_checks_source "foo" d e H Hd He)
    as (d' & e' & Hd' & He' & Hg' & _).
  exists d', e'. rewrite Hg in Hg'. repeat split; assumption.
Defined.

(** *** A check line inserted into a located body *)

Lemma startswith_length (p s : string) :
  startswith p s = true -> String.length p <= String.length s.
Proof.
  revert s. induction p as [|a p IH]; intros s H; cbn [String.length].
  - lia.
  - destruct s as [|b s]; cbn [startswith] in H; [discriminate|].
    apply andb_true_iff in H as [_ H]. apply IH in H.
    cbn [String.length]. lia.
Qed.

Lemma startswith_before (x : ascii) (p a b : string) :
  all (fun c => negb (Ascii.eqb c x)) p = true ->
  startswith p (a ++ String x b) = startswith p a.
Proof.
  revert a. induction p as [|c p IH]; intros a Hp.
  - reflexivity.
  - cbn [all] in Hp. apply andb_true_iff in Hp as [Hc Hp].
    destruct a as [|d a].
    + change ("" ++ String x b) with (String x b). cbn [startswith].
      apply negb_true_iff in Hc. rewrite Hc. reflexivity.
    + change (String d a ++ String x b) with (String d (a ++ String x b)).
      cbn [startswith]. rewrite (IH a Hp). reflexivity.
Qed.

Lemma count_from_before (x : ascii) (p a b : string) (k : nat) :
  is_empty p = false ->
  all (fun c => negb (Ascii.eqb c x)) p = true ->
  k <= String.length a ->
  count_from p (a ++ String x b) k = count_from p a k + count_from p b 0.
Proof.
  intros Hne Hp. revert k. induction a as [|d a IH]; intros k Hk.
  - cbn [String.length] in Hk. assert (k = 0) as -> by lia.
    change ("" ++ String x b) with (String x b). cbn [count_from].
    destruct p as [|c p]; [discriminate Hne|].
    cbn [all] in Hp. apply andb_true_iff in Hp as [Hc _].
    apply negb_true_iff in Hc. cbn [startswith]. rewrite Hc. reflexivity.
  - change (String d a ++ String x b) with (String d (a ++ String x b)).
    cbn [count_from String.length] in *. destruct k as [|k].
    + change (String d (a ++ String x b)) with (String d a ++ String x b).
      rewrite (startswith_before x p (String d a) b Hp).
      destruct (startswith p (String d a)) eqn:E.
      * apply startswith_length in E. cbn [String.length] in E.
        rewrite IH by lia. reflexivity.
      * apply IH. lia.
    + apply IH. lia.
Qed.

Lemma count_before (x : ascii) (p a b : string) :
  is_empty p = false ->
  all (fun c => negb (Ascii.eqb c x)) p = true ->
  count p (a ++ String x b) = count p a + count p b.
Proof.
  intros Hne Hp. unfold count. rewrite Hne.
  apply count_from_before; [exact Hne | exact Hp | lia].
Qed.

(** The number of occurrences in a text is the sum over its lines. *)
Lemma count_join (p : string) (ls : list string) :
  is_empty p = false ->
  all (fun c => negb (Ascii.eqb c (ascii_of_nat 10))) p = true ->
  count p (join newline ls) = list_sum (map (count p) ls).
Proof.
  intros Hne Hp. induction ls as [|l ls IH].
  - unfold count. rewrite Hne. reflexivity.
  - destruct ls as [|l' ls].
    + cbn [join map list_sum fold_right]. lia.
    + change (join newline (l :: l' :: ls))
        with (l ++ String (ascii_of_nat 10) (join newline (l' :: ls))).
      rewrite (count_before _ _ _ _ Hne Hp), IH. reflexivity.
Qed.

Lemma contains_char_app (c : ascii) (a b : string) :
  contains (String c "") (a ++ b)
  = contains (String c "") a || contains (String c "") b.
Proof.
  induction a as [|d a IH].
  - change ("" ++ b) with b. reflexivity.
  - change (String d a ++ b) with (String d (a ++ b)).
    cbn [contains startswith]. rewrite IH.
    destruct (Ascii.eqb c d); reflexivity.
Qed.

Lemma contains_char_lines (c : ascii) (ls : list string) :
  contains (String c "") (join "" ls) = existsb (contains (String c "")) ls.
Proof.
  induction ls as [|l ls IH].
  - reflexivity.
  - destruct ls as [|l' ls].
    + cbn [join existsb]. rewrite orb_false_r. reflexivity.
    + change (join "" (l :: l' :: ls)) with (l ++ join "" (l' :: ls)).
      rewrite contains_char_app, IH. reflexivity.
Qed.

Lemma brace_seen_insert (line : string) (fl mid : list string) :
  contains "{" line = false ->
  contains "{" (join "" (fl ++ line :: mid))
  = contains "{" (join "" (fl ++ mid)).
Proof.
  intros H. rewrite !contains_char_lines, !existsb_app.
  cbn [existsb]. rewrite H. reflexivity.
Qed.

Lemma collect_insert (f line : string) (rest : list string) :
  contains "{" line = false ->
  forall fl mid bc,
  exists tail,
    Gas.collect_func_lines f rest true (fl ++ mid) bc
    = (fl ++ mid ++ tail)%list
    /\ Gas.collect_func_lines f rest true (fl ++ line :: mid) bc
       = (fl ++ line :: mid ++ tail)%list.
Proof.
  intros Hline. induction rest as [|l rest IH]; intros fl mid bc.
  - exists []. cbn [Gas.collect_func_lines]. rewrite !app_nil_r.
    split; reflexivity.
  - cbn [Gas.collect_func_lines].
    assert (Hin : (if contains ("function " ++ f) l then true else true)
                  = true) by (destruct (contains _ l); reflexivity).
    rewrite Hin.
    replace ((fl ++ line :: mid) ++ [l])%list
      with (fl ++ line :: (mid ++ [l]))%list
      by (rewrite <- app_assoc; reflexivity).
    replace ((fl ++ mid) ++ [l])%list with (fl ++ (mid ++ [l]))%list
      by (rewrite <- app_assoc; reflexivity).
    rewrite (brace_seen_insert line fl (mid ++ [l]) Hline).
    destruct (_ && _).
    + exists [l]. split; reflexivity.
    + destruct (IH fl (mid ++ [l])%list
                   (bc + (Z.of_nat (count "{" l) - Z.of_nat (count "}" l)))%Z)
        as (tail & H1 & H2).
      exists (l :: tail). rewrite H1, H2, <- !app_assoc. split; reflexivity.
Qed.

Lemma collect_after (f : string) (pre rest : list string) :
  forall inf fl bc inf' fl' bc',
    state_after f pre inf fl bc = Some (inf', fl', bc') ->
    Gas.collect_func_lines f (pre ++ rest) inf fl bc
    = Gas.collect_func_lines f rest inf' fl' bc'.
Proof.
  induction pre as [|l pre IH]; intros inf fl bc inf' fl' bc' H.
  - cbn [state_after] in H. injection H as -> -> ->. reflexivity.
  - change ((l :: pre) ++ rest)%list with (l :: (pre ++ rest))%list.
    cbn [state_after] in H. cbn [Gas.collect_func_lines].
    destruct (if contains ("function " ++ f) l then true else inf).
    + destruct (_ && _); [discriminate H|]. apply IH. exact H.
    + apply IH. exact H.
Qed.

Lemma state_after_open (f : string) (pre : list string) :
  forall inf fl bc fl' bc',
    state_after f pre inf fl bc = Some (true, fl', bc') ->
    (inf = true -> (bc =? 0)%Z && contains "{" (join "" fl) = false) ->
    (bc' =? 0)%Z && contains "{" (join "" fl') = false.
Proof.
  induction pre as [|l pre IH]; intros inf fl bc fl' bc' H Hinv.
  - cbn [state_after] in H. injection H as -> -> ->. apply Hinv. reflexivity.
  - cbn [state_after] in H.
    destruct (if contains ("function " ++ f) l then true else inf) eqn:Ei.
    + destruct (_ && _) eqn:Eb; [discriminate H|].
      apply (IH _ _ _ _ _ H). intros _. exact Eb.
    + apply (IH _ _ _ _ _ H). discriminate.
Qed.

(** Inserting a check line between two lines of the body located for [f]
    gives a source with one more [require(] in that body and nothing else
    changed: the hypothesis of C7. *)
Lemma inserted_check_line (f line : string) (pre post fl : list string)
      (bc : Z) (contract_code contract_code' : string) :
  check_line f line ->
  lines contract_code = (pre ++ post)%list ->
  lines contract_code' = (pre ++ line :: post)%list ->
  state_after f pre false [] 0%Z = Some (true, fl, bc) ->
  one_more_require contract_code contract_code' f.
Proof.
  intros (Hreq & Hemit & Hcall & Hmap & Hopen & Hclose & Hfun) Hl Hl' Hst.
  assert (Hpre : pre <> []).
  { intros ->. discriminate Hst. }
  assert (Hbody : exists tail,
             Gas.func_body_of contract_code f = join newline (fl ++ tail)
             /\ Gas.func_body_of contract_code' f
                = join newline (fl ++ line :: tail)).
  { unfold Gas.func_body_of. rewrite Hl, Hl'.
    rewrite !(collect_after f pre _ _ _ _ _ _ _ Hst).
    cbn [Gas.collect_func_lines]. rewrite Hfun.
    rewrite (count_absent "{" line eq_refl Hopen),
      (count_absent "}" line eq_refl Hclose).
    replace (bc + (Z.of_nat 0 - Z.of_nat 0))%Z with bc by lia.
    replace (join "" (fl ++ [line])) with (join "" (fl ++ line :: []))
      by reflexivity.
    rewrite (brace_seen_insert line fl [] Hopen), app_nil_r.
    rewrite (state_after_open f pre _ _ _ _ _ Hst) by discriminate.
    destruct (collect_insert f line post Hopen fl [] bc) as (tail & H1 & H2).
    rewrite app_nil_r in H1. exists tail.
    rewrite H1. change (fl ++ [line])%list with (fl ++ line :: [])%list.
    rewrite H2. split; reflexivity. }
  unfold one_more_require.
  destruct Hbody as (tail & -> & ->).
  rewrite !count_join by reflexivity.
  rewrite !map_app, !list_sum_app. unfold list_sum. cbn [map fold_right].
  rewrite (count_absent "emit " line eq_refl Hemit),
    (count_absent ".call(" line eq_refl Hcall),
    (count_absent "mapping(" line eq_refl Hmap), Hreq.
  split; [|split; [|repeat split; lia]].
  - destruct contract_code; [|reflexivity].
    destruct pre as [|l0 pre]; [contradiction|].
    cbn in Hl. injection Hl as <- Hl.
    destruct pre; [|discriminate Hl]. cbn in Hst. discriminate Hst.
  - destruct contract_code'; [|reflexivity].
    destruct pre as [|l0 pre]; [contradiction|].
    cbn in Hl'. injection Hl' as _ Hl'.
    destruct pre; discriminate Hl'.
Qed.

(** The two sources of the example differ by such a line, inserted after
    the third line of the text. *)
Example second_check_is_inserted :
  check_line "foo" "    require(x < 9);"
  /\ state_after "foo" (firstn 3 (lines one_check_source)) false [] 0%Z
     = Some (true,
             ["  function foo(uint x) public {"; "    require(x > 0);"],
             1%Z)
  /\ lines two_checks_source
     = (firstn 3 (lines one_check_source)
          ++ "    require(x < 9);" :: skipn 3 (lines one_check_source))%list
  /\ one_more_require one_check_source two_checks_source "foo".
Proof.
  assert (Hline : check_line "foo" "    require(x < 9);").
  { unfold check_line. repeat (split; [vm_compute; reflexivity|]).
    vm_compute. reflexivity. }
  assert (Hst : state_after "foo" (firstn 3 (lines one_check_source))
                            false [] 0%Z
                = Some (true,
                        ["  function foo(uint x) public {";
                         "    require(x > 0);"], 1%Z)).
  { vm_compute. reflexivity. }
  assert (Hl' : lines two_checks_source
                = (firstn 3 (lines one_check_source)
                     ++ "    require(x < 9);"
                     :: skipn 3 (lines one_check_source))%list).
  { vm_compute. reflexivity. }
  repeat (split; [assumption|]).
  eapply inserted_check_line; [exact Hline | | exact Hl' | exact Hst].
  symmetry. apply firstn_skipn.
Qed.

(** ** Diagnostics: the line marker *)

Lemma span_split (p : ascii -> bool) (s : string) :
  s = fst (span p s) ++ snd (span p s) /\ all p (fst (span p s)) = true.
Proof.
  induction s as [|c s [IH1 IH2]]; simpl.
  - split; reflexivity.
  - destruct (p c) eqn:E.
    + destruct (span p s) as [a b]. simpl in *. rewrite E, IH2.
      split; [f_equal; exact IH1 | reflexivity].
    + split; reflexivity.
Qed.

Lemma span_run (p : ascii -> bool) (ds : string) (c : ascii) (rest : string) :
  all p ds = true -> p c = false ->
  span p (ds ++ String c rest) = (ds, String c rest).
Proof.
  intros Hds Hc. induction ds as [|x ds IH]; simpl in *.
  - rewrite Hc. reflexivity.
  - apply andb_true_iff in Hds as [Hx Hds]. rewrite Hx, (IH Hds). reflexivity.
Qed.

Lemma startswith_colon (s : string) :
  startswith ":" s = true -> exists rest, s = String ":" rest.
Proof.
  destruct s as [|c s]; cbn [startswith]; [discriminate|].
  rewrite andb_true_r. intros H. apply Ascii.eqb_eq in H. subst c.
  exists s. reflexivity.
Qed.

(** The matcher finds a marker exactly where one begins. *)
Lemma line_marker_here_sound (s : string) (n : string) :
  Re.line_marker_here s = Some n -> marker_at s.
Proof.
  unfold Re.line_marker_here.
  destruct s as [|c r]; [discriminate|].
  destruct (Ascii.eqb c ":") eqn:Ec; [|discriminate].
  apply Ascii.eqb_eq in Ec. subst c.
  destruct (span_split is_digit r) as [Hr Hds].
  destruct (span is_digit r) as [ds r1]. cbn [fst snd] in Hr, Hds.
  destruct ds as [|d ds]; cbn [is_empty]; [discriminate|].
  destruct (startswith ":" r1) eqn:E1; [|discriminate].
  intros _. apply startswith_colon in E1 as [rest ->].
  exists (String d ds), rest. split; [discriminate|].
  split; [exact Hds|]. rewrite Hr. reflexivity.
Qed.

Lemma line_marker_here_complete (s : string) :
  marker_at s -> Re.line_marker_here s <> None.
Proof.
  intros (ds & rest & Hne & Hds & ->).
  change (":" ++ ds ++ ":" ++ rest) with (String ":" (ds ++ String ":" rest)).
  unfold Re.line_marker_here.
  change (Ascii.eqb ":" ":") with true. cbv iota.
  rewrite (span_run is_digit ds ":" rest Hds eq_refl).
  destruct ds; [contradiction|]. cbn [is_empty startswith]. discriminate.
Qed.

Lemma free_of_markers_ok (pre tail : string) :
  free_of_markers pre tail = true -> no_marker_within pre tail.
Proof.
  induction pre as [|c pre IH]; intros H a b Hab Hb Hm.
  - destruct a, b; try discriminate Hab. contradiction.
  - cbn [free_of_markers] in H.
    destruct (Re.line_marker_here (String c pre ++ tail)) eqn:E;
      [discriminate H|].
    destruct a as [|x a]; simpl in Hab.
    + subst b. apply line_marker_here_complete in Hm. contradiction.
    + injection Hab as _ Hab. exact (IH H a b Hab Hb Hm).
Qed.

Lemma search_first_marker (pre tail : string) (n : string) :
  no_marker_within pre tail ->
  Re.line_marker_here tail = Some n ->
  Re.search Re.line_marker_here (pre ++ tail) = Some n.
Proof.
  intros Hfree Htail. induction pre as [|c pre IH].
  - simpl. destruct tail; simpl in *; rewrite Htail; reflexivity.
  - change (String c pre ++ tail) with (String c (pre ++ tail)).
    cbn [Re.search].
    destruct (Re.line_marker_here (String c (pre ++ tail))) eqn:E.
    + exfalso. apply (Hfree "" (String c pre) eq_refl); [discriminate|].
      apply (line_marker_here_sound _ _ E).
    + apply IH. intros a b Hab Hb.
      apply (Hfree (String c a) b); [simpl; f_equal; exact Hab | exact Hb].
Qed.

Lemma marker_digits (ds post : string) :
  ds <> "" -> all is_digit ds = true ->
  Re.line_marker_here (":" ++ ds ++ ":" ++ post) = Some ds.
Proof.
  intros Hne Hds.
  change (":" ++ ds ++ ":" ++ post) with (String ":" (ds ++ String ":" post)).
  unfold Re.line_marker_here.
  change (Ascii.eqb ":" ":") with true. cbv iota.
  rewrite (span_run is_digit ds ":" post Hds eq_refl).
  destruct ds; [contradiction|]. reflexivity.
Qed.

Lemma forall2_nth {A B : Type} (R : A -> B -> Prop) (l : list A)
      (l' : list B) :
  Forall2 R l l' ->
  forall i x, nth_error l i = Some x ->
              exists y, nth_error l' i = Some y /\ R x y.
Proof.
  induction 1 as [|a b l l' Hab _ IH]; intros i x Hi.
  - destruct i; discriminate Hi.
  - destruct i as [|i]; cbn [nth_error] in *.
    + injection Hi as <-. exists b. split; [reflexivity | exact Hab].
    + exact (IH i x Hi).
Qed.

Lemma int_within (ds : string) :
  String.length ds <= max_str_digits -> int ds = inr (int_from 0%N ds).
Proof.
  intros H. unfold int. apply Nat.ltb_ge in H. rewrite H. reflexivity.
Qed.

Lemma int_over (ds : string) :
  max_str_digits < String.length ds -> exists e, int ds = inl e.
Proof.
  intros H. unfold int. apply Nat.ltb_lt in H. rewrite H.
  eexists. reflexivity.
Qed.

Lemma parse_error_within (error : string) :
  within_digit_limit error = true ->
  exists info, Diagnostics.parse_error error = inr info.
Proof.
  unfold within_digit_limit, Diagnostics.parse_error.
  destruct (Re.search Re.line_marker_here error) as [ds|];
    [|eexists; reflexivity].
  intros H. apply Nat.leb_le in H. rewrite (int_within ds H).
  eexists. reflexivity.
Qed.

Lemma parse_errors_app (errors : list string) :
  forall acc,
    forallb within_digit_limit errors = true ->
    exists parsed,
      Diagnostics.parse_errors errors acc = inr (acc ++ parsed)%list
      /\ Forall2 (fun error info => Diagnostics.parse_error error = inr info)
                 errors parsed.
Proof.
  induction errors as [|error errors IH]; intros acc H.
  - exists []. cbn. rewrite app_nil_r. split; [reflexivity | constructor].
  - cbn [forallb] in H. apply andb_prop in H as [He H].
    cbn [Diagnostics.parse_errors].
    destruct (parse_error_within error He) as (info & Hi). rewrite Hi.
    destruct (IH (acc ++ [info])%list H) as (parsed & Hp & Hall).
    exists (info :: parsed). split.
    + rewrite Hp, <- app_assoc. reflexivity.
    + constructor; assumption.
Qed.

(** C8: a message that contains [ParserError] and whose first line marker
    is [:12:] is parsed, at its place in the list, as a syntax error on
    line 12, whatever the other messages of the list are, as long as none
    of them ends the call: a message whose first marker has more than
    4300 digits makes [int] raise, and the call then returns the error
    envelope instead of any parsed error. *)
Theorem parser_error_line_12 (errors : list string) (i : nat)
        (pre post : string) :
  nth_error errors i = Some (pre ++ ":12:" ++ post) ->
  contains "ParserError" (pre ++ ":12:" ++ post) = true ->
  no_marker_within pre (":12:" ++ post) ->
  (forall j other,
      j <> i -> nth_error errors j = Some other ->
      within_digit_limit other = true) ->
  exists d info,
    Diagnostics.handle_compilation_errors errors = Success d
    /\ nth_error (Diagnostics.parsed_errors d) i = Some info
    /\ Diagnostics.original_error info = pre ++ ":12:" ++ post
    /\ Diagnostics.error_type info = "syntax_error"
    /\ Diagnostics.line_number info = Some 12%N.
Proof.
  intros Hnth Hparser Hfirst Hothers.
  assert (Hsearch : Re.search Re.line_marker_here (pre ++ ":12:" ++ post)
                    = Some "12").
  { apply search_first_marker; [exact Hfirst|].
    apply (marker_digits "12" post); [discriminate | reflexivity]. }
  assert (Hall : forallb within_digit_limit errors = true).
  { apply forallb_forall. intros other Hin.
    apply In_nth_error in Hin as (j & Hj).
    destruct (Nat.eq_dec j i) as [-> | Hne].
    - assert (Ho : other = pre ++ ":12:" ++ post) by congruence.
      subst other. unfold within_digit_limit. rewrite Hsearch. reflexivity.
    - exact (Hothers j other Hne Hj). }
  unfold Diagnostics.handle_compilation_errors.
  destruct (parse_errors_app errors [] Hall) as (parsed & -> & Hparsed).
  cbn [app]. eexists. 
  destruct (forall2_nth _ _ _ Hparsed i _ Hnth) as (info & Hi & Hinfo).
  exists info. split; [reflexivity|].
  cbn [Diagnostics.report Diagnostics.parsed_errors].
  split; [exact Hi|].
  unfold Diagnostics.parse_error in Hinfo. rewrite Hsearch in Hinfo.
  change (int "12") with (@inr value_error N 12%N) in Hinfo.
  assert (Ei : info = Diagnostics.categorize (pre ++ ":12:" ++ post)
                                             (Some 12%N)) by congruence.
  subst info. unfold Diagnostics.categorize. rewrite Hparser.
  cbn [Diagnostics.original_error Diagnostics.error_type
       Diagnostics.line_number].
  repeat split.
Qed.

Lemma parser_error_line_12_witness :
  no_marker_within parser_message_location (":12:" ++ parser_message_rest)
  /\ exists d info,
      Diagnostics.handle_compilation_errors ["Warning: unused"; parser_message]
      = Success d
      /\ nth_error (Diagnostics.parsed_errors d) 1 = Some info
      /\ Diagnostics.error_type info = "syntax_error"
      /\ Diagnostics.line_number info = Some 12%N.
Proof.
  assert (H : no_marker_within parser_message_location
                               (":12:" ++ parser_message_rest)).
  { apply free_of_markers_ok. vm_compute. reflexivity. }
  split; [exact H|].
  assert (Hothers : forall j other,
             j <> 1 ->
             nth_error ["Warning: unused"; parser_message] j = Some other ->
             within_digit_limit other = true).
  { intros [|[|[|j]]] other Hj Hn; cbn in Hn; try discriminate Hn.
    - injection Hn as <-. vm_compute. reflexivity.
    - contradiction Hj. reflexivity. }
  destruct (parser_error_line_12
              ["Warning: unused"; parser_message] 1
              parser_message_location parser_message_rest
              eq_refl eq_refl H Hothers)
    as (d & info & Hd & Hi & _ & Ht & Hl).
  exists d, info. repeat split; assumption.
Defined.

(** ** The function inventory *)

Lemma import_is_not_function (s : string) :
  startswith "import" s = true -> startswith "function " s = false.
Proof.
  destruct s as [|c s]; [discriminate|].
  cbn [startswith]. intros H. apply andb_true_iff in H as [H _].
  apply Ascii.eqb_eq in H. subst c. reflexivity.
Qed.

Lemma classify_line_functions (acc : Metrics.contract_elements)
      (line : string) :
  Metrics.functions (Metrics.classify_line acc line)
  = (Metrics.functions acc
       ++ (if inventory_line line then inventory_name line else []))%list.
Proof.
  unfold Metrics.classify_line, inventory_line, inventory_name.
  set (stripped := strip line).
  destruct (startswith "import" stripped) eqn:Ei.
  - rewrite (import_is_not_function _ Ei). cbn. rewrite app_nil_r. reflexivity.
  - rewrite <- andb_assoc.
    destruct (startswith "function " stripped
              && (negb (contains "private" stripped)
                  && negb (contains "internal" stripped))).
    + destruct (Re.search (Re.keyword_name_here "function") stripped);
        cbn; [reflexivity | rewrite app_nil_r; reflexivity].
    + rewrite app_nil_r.
      repeat match goal with
             | |- context [if ?b then _ else _] => destruct b
             | |- context [match ?o with Some _ => _ | None => _ end] =>
                 destruct o
             end; reflexivity.
Qed.

Lemma contract_elements_functions (ls : list string)
      (acc : Metrics.contract_elements) :
  Metrics.functions (fold_left Metrics.classify_line ls acc)
  = (Metrics.functions acc
       ++ flat_map (fun line => if inventory_line line
                                then inventory_name line else []) ls)%list.
Proof.
  revert acc. induction ls as [|l ls IH]; intros acc; simpl.
  - rewrite app_nil_r. reflexivity.
  - rewrite IH, classify_line_functions, <- app_assoc. reflexivity.
Qed.

Lemma parse_line_lookup (info : Docs.contract_info) (i : nat)
      (line : string) :
  Docs.parse_line info i line
  = if looks_up_re line then inl (Docs.NameError "re") else inr info.
Proof.
  unfold Docs.parse_line, looks_up_re, documented_line, Docs.re_search.
  destruct (startswith "function " (strip line)
            && negb (contains "internal" line)
            && negb (contains "private" line)); [reflexivity|].
  destruct (startswith "event " (strip line)); [reflexivity|].
  destruct (startswith "modifier " (strip line)); reflexivity.
Qed.

Lemma parse_lines_lookup (ls : list string) (info : Docs.contract_info)
      (i : nat) :
  Docs.parse_lines info i ls
  = if existsb looks_up_re ls then inl (Docs.NameError "re") else inr info.
Proof.
  revert i. induction ls as [|l ls IH]; intros i; [reflexivity|].
  cbn [Docs.parse_lines existsb]. rewrite parse_line_lookup.
  destruct (looks_up_re l); [reflexivity|]. apply IH.
Qed.

Lemma documentation_outcome (contract_code contract_name : string) :
  (existsb looks_up_re (lines contract_code) = true
   /\ Docs.generate_contract_documentation contract_code contract_name
      = Error re_is_not_defined)
  \/ (existsb looks_up_re (lines contract_code) = false
      /\ exists d,
          Docs.generate_contract_documentation contract_code contract_name
          = Success d
          /\ Docs.contract_structure d
             = {| Docs.contract_name := contract_name;
                  Docs.functions := []; Docs.events := [];
                  Docs.modifiers := []; Docs.state_variables := [] |}).
Proof.
  unfold Docs.generate_contract_documentation.
  rewrite parse_lines_lookup.
  destruct (existsb looks_up_re (lines contract_code)).
  - left. split; reflexivity.
  - right. split; [reflexivity|]. eexists. split; reflexivity.
Qed.

(** Stripping a line does not change which words without white space it
    contains. *)
Lemma startswith_space (w s : string) (c : ascii) :
  is_empty w = false -> all (fun x => negb (is_space x)) w = true ->
  is_space c = true -> startswith w (String c s) = false.
Proof.
  intros Hne Hw Hc. destruct w as [|a w]; [discriminate Hne|].
  cbn [all] in Hw. apply andb_true_iff in Hw as [Ha _].
  cbn [startswith]. destruct (Ascii.eqb a c) eqn:E; [|reflexivity].
  apply Ascii.eqb_eq in E. subst a. rewrite Hc in Ha. discriminate Ha.
Qed.

Lemma contains_lstrip (w s : string) :
  is_empty w = false -> all (fun x => negb (is_space x)) w = true ->
  contains w (lstrip s) = contains w s.
Proof.
  intros Hne Hw. induction s as [|c s IH]; [reflexivity|].
  cbn [lstrip]. destruct (is_space c) eqn:Ec; [|reflexivity].
  rewrite IH. cbn [contains].
  rewrite (startswith_space w s c Hne Hw Ec). reflexivity.
Qed.

Lemma startswith_rstrip (w : string) :
  all (fun x => negb (is_space x)) w = true ->
  forall s, startswith w (rstrip s) = startswith w s.
Proof.
  induction w as [|a w IH]; intros Hw s; [reflexivity|].
  cbn [all] in Hw. apply andb_true_iff in Hw as [Ha Hw].
  destruct s as [|c s]; [reflexivity|].
  cbn [rstrip]. destruct (is_space c && is_empty (rstrip s)) eqn:E.
  - apply andb_true_iff in E as [Ec _]. cbn [startswith].
    destruct (Ascii.eqb a c) eqn:Eac; [|reflexivity].
    apply Ascii.eqb_eq in Eac. subst a. rewrite Ec in Ha. discriminate Ha.
  - cbn [startswith]. rewrite (IH Hw). reflexivity.
Qed.

Lemma contains_rstrip (w s : string) :
  is_empty w = false -> all (fun x => negb (is_space x)) w = true ->
  contains w (rstrip s) = contains w s.
Proof.
  intros Hne Hw. induction s as [|c s IH]; [reflexivity|].
  pose proof (startswith_rstrip w Hw (String c s)) as Hhere.
  cbn [rstrip] in *. destruct (is_space c && is_empty (rstrip s)) eqn:E.
  - apply andb_true_iff in E as [Ec Er].
    destruct (rstrip s); [|discriminate Er].
    cbn [contains]. rewrite <- IH, (startswith_space w s c Hne Hw Ec).
    destruct w; [discriminate Hne | reflexivity].
  - cbn [contains]. rewrite Hhere, IH. reflexivity.
Qed.

Lemma contains_strip (w s : string) :
  is_empty w = false -> all (fun x => negb (is_space x)) w = true ->
  contains w (strip s) = contains w s.
Proof.
  intros Hne Hw. unfold strip.
  rewrite contains_rstrip, contains_lstrip by assumption. reflexivity.
Qed.

(** C10: the function list of [get_contract_metrics] holds, line by line
    and in order, the names read on the lines that, stripped, start with
    [function ] and contain neither [private] nor [internal].  The
    documentation extractor selects its function lines by the same test,
    on the line as written, and lists no function from any other line:
    whenever it returns a structure, its function list is empty, for on
    the first line it selects it looks up [re], which its module never
    imports, and the call ends with the error envelope.  A line that
    contains one of the two words anywhere adds no function to either
    list: the public function [setOwner], whose parameter is named
    [internalId], is missing from both. *)
Theorem inventory_skips_private_internal :
  (forall contract_code, exists m,
      Metrics.get_contract_metrics contract_code = Success m
      /\ Metrics.functions (Metrics.elements m)
         = flat_map (fun line => if inventory_line line
                                 then inventory_name line else [])
                    (lines contract_code))
  /\ (forall contract_code contract_name,
         (existsb looks_up_re (lines contract_code) = true
          /\ Docs.generate_contract_documentation contract_code contract_name
             = Error re_is_not_defined)
         \/ (existsb looks_up_re (lines contract_code) = false
             /\ exists d,
                 Docs.generate_contract_documentation
                   contract_code contract_name = Success d
                 /\ Docs.functions (Docs.contract_structure d) = []))
  /\ (forall line,
         contains "private" line = true \/ contains "internal" line = true ->
         inventory_line line = false)
  /\ (forall line,
         contains "private" line = true \/ contains "internal" line = true ->
         documented_line line = false)
  /\ (exists m d,
         Metrics.get_contract_metrics public_setter = Success m
         /\ Metrics.functions (Metrics.elements m) = []
         /\ Docs.generate_contract_documentation public_setter "Registry"
            = Success d
         /\ Docs.functions (Docs.contract_structure d) = []
         /\ inventory_name public_setter = ["setOwner"]
         /\ contains "public" public_setter = true).
Proof.
  split; [|split; [|split; [|split]]].
  - intros contract_code. unfold Metrics.get_contract_metrics.
    eexists. split; [reflexivity|]. cbn [Metrics.elements].
    unfold Metrics.contract_elements_of.
    rewrite contract_elements_functions. reflexivity.
  - intros contract_code contract_name.
    destruct (documentation_outcome contract_code contract_name)
      as [[Hl He] | (Hl & d & Hd & Hs)]; [left | right].
    + split; assumption.
    + split; [exact Hl|]. exists d. split; [exact Hd|].
      rewrite Hs. reflexivity.
  - intros line [H | H]; unfold inventory_line;
      rewrite !contains_strip by reflexivity; rewrite H; cbn [negb];
      rewrite ?andb_false_r; reflexivity.
  - intros line [H | H]; unfold documented_line; rewrite H; cbn [negb];
      rewrite ?andb_false_r; reflexivity.
  - eexists. eexists. split; [vm_compute; reflexivity|].
    split; [reflexivity|]. split; [vm_compute; reflexivity|]. repeat split.
Qed.

Lemma inventory_skips_private_internal_witness :
  (contains "private" public_setter = true
   \/ contains "internal" public_setter = true)
  /\ inventory_line public_setter = false.
Proof.
  assert (H : contains "private" public_setter = true
              \/ contains "internal" public_setter = true).
  { right. vm_compute. reflexivity. }
  split; [exact H|].
  exact (proj1 (proj2 (proj2 inventory_skips_private_internal))
               public_setter H).
Defined.

(** ** The improvement score *)

Lemma total_score_from (all : list Suggest.finding) (acc : Z) :
  fold_left (fun acc f => (acc + Suggest.priority_score (Suggest.label f))%Z)
            all acc
  = (acc + total (weights all))%Z.
Proof.
  revert acc. induction all as [|f all IH]; intros acc; simpl.
  - lia.
  - rewrite IH. unfold total, weights. simpl. lia.
Qed.

Lemma total_score_sum (all : list Suggest.finding) :
  Suggest.total_score all = total (weights all).
Proof. unfold Suggest.total_score. rewrite total_score_from. lia. Qed.

Lemma priority_score_default (l : string) :
  l <> "critical" -> l <> "high" -> l <> "medium" -> l <> "low" ->
  Suggest.priority_score l = 50%Z.
Proof.
  intros Hc Hh Hm Hl. unfold Suggest.priority_score.
  apply String.eqb_neq in Hc, Hh, Hm, Hl.
  rewrite Hc, Hh, Hm, Hl. reflexivity.
Qed.

(** C4, as stated, fails: on a source with three findings of weights 80,
    80 and 60 the reported score is 27, and 100 minus the average of the
    weights is 80/3. *)
Lemma improvement_score_not_exact_average :
  exists d,
    Suggest.suggest_improvements todo_source = Success d
    /\ weights (Suggest.all_suggestions_of todo_source) = [80; 80; 60]%Z
    /\ Suggest.improvement_score (Suggest.report d) = 27%Z
    /\ ~ (inject_Z (Suggest.improvement_score (Suggest.report d))
          == stated_improvement_score
               (weights (Suggest.all_suggestions_of todo_source)))%Q.
Proof.
  eexists. split; [vm_compute; reflexivity|].
  split; [vm_compute; reflexivity|].
  split; [reflexivity|].
  vm_compute. discriminate.
Qed.

(** C4, amended: the label of a finding is its severity, else its
    priority, else its impact, else [medium] when it carries none of the
    three; the labels weigh critical 100, high 80, medium 60, low 40 and
    any other label 50; the improvement score is 100 when there is no
    finding, as on the source [require(], and otherwise [max(0, 100 - q)],
    where [q] is the average of the weights rounded down to an integer. *)
Theorem improvement_score_floor_average :
  (Suggest.priority_score "critical" = 100
   /\ Suggest.priority_score "high" = 80
   /\ Suggest.priority_score "medium" = 60
   /\ Suggest.priority_score "low" = 40)%Z
  /\ (forall l,
         l <> "critical" -> l <> "high" -> l <> "medium" -> l <> "low" ->
         Suggest.priority_score l = 50%Z)
  /\ (forall f,
         Suggest.label f
         = match Suggest.f_severity f, Suggest.f_priority f,
                 Suggest.f_impact f with
           | Some l, _, _ => l
           | None, Some l, _ => l
           | None, None, Some l => l
           | None, None, None => "medium"
           end)
  /\ (forall contract_code, exists d,
         Suggest.suggest_improvements contract_code = Success d
         /\ Suggest.all_suggestions_of contract_code
            = (Suggest.gas_optimizations d ++ Suggest.security_improvements d
                 ++ Suggest.code_quality d ++ Suggest.advanced_patterns d)%list
         /\ let ws := weights (Suggest.all_suggestions_of contract_code) in
            let n := Z.of_nat (List.length ws) in
            let score := Suggest.improvement_score (Suggest.report d) in
            (ws = [] -> score = 100%Z)
            /\ (ws <> [] ->
                exists q,
                  (n * q <= total ws < n * (q + 1))%Z
                  /\ score = Z.max 0 (100 - q)))
  /\ (exists d,
         Suggest.suggest_improvements quiet_source = Success d
         /\ Suggest.all_suggestions_of quiet_source = []
         /\ Suggest.improvement_score (Suggest.report d) = 100%Z).
Proof.
  split; [repeat split|]. split; [exact priority_score_default|].
  split; [|split; [|eexists; split; [vm_compute; reflexivity|];
                    split; reflexivity]].
  - intros f. unfold Suggest.label.
    destruct (Suggest.f_severity f), (Suggest.f_priority f),
      (Suggest.f_impact f); reflexivity.
  - intros contract_code. unfold Suggest.suggest_improvements.
    eexists. split; [reflexivity|].
    cbn [Suggest.gas_optimizations Suggest.security_improvements
         Suggest.code_quality Suggest.advanced_patterns Suggest.report
         Suggest.improvement_score].
    split; [reflexivity|].
    fold (Suggest.all_suggestions_of contract_code).
    set (all := Suggest.all_suggestions_of contract_code).
    unfold Suggest.improvement_score_of. rewrite total_score_sum.
    cbv zeta.
    assert (Hlen : List.length (weights all) = List.length all)
      by apply length_map.
    rewrite Hlen. clearbody all. split.
    + intros Hnil. destruct all; [reflexivity | discriminate Hnil].
    + intros Hne.
      assert (Hn : (1 <= Z.of_nat (List.length all))%Z).
      { destruct all as [|f all]; [contradiction|].
        cbn [List.length]. lia. }
      rewrite (Z.max_l (Z.of_nat (List.length all)) 1) by lia.
      exists (total (weights all) / Z.of_nat (List.length all))%Z.
      split; [|reflexivity].
      pose proof (Z.mul_div_le (total (weights all))
                               (Z.of_nat (List.length all))).
      pose proof (Z.mul_succ_div_gt (total (weights all))
                                    (Z.of_nat (List.length all))).
      lia.
Qed.

Lemma improvement_score_floor_average_witness :
  ("urgent" <> "critical" /\ "urgent" <> "high"
   /\ "urgent" <> "medium" /\ "urgent" <> "low")
  /\ Suggest.priority_score "urgent" = 50%Z.
Proof.
  assert (H : "urgent" <> "critical" /\ "urgent" <> "high"
              /\ "urgent" <> "medium" /\ "urgent" <> "low").
  { repeat split; discriminate. }
  split; [exact H|].
  destruct H as (Hc & Hh & Hm & Hl).
  exact (proj1 (proj2 improvement_score_floor_average) "urgent" Hc Hh Hm Hl).
Defined.

(** * Further properties of the analysis functions *)

(** ** Lines *)

Lemma split_from_not_empty (sep s : string) (k : nat) :
  split_from sep s k <> [].
Proof.
  revert k. induction s as [|c s IH]; intros k.
  - discriminate.
  - cbn [split_from]. destruct k as [|k]; [|apply IH].
    destruct (startswith sep (String c s)); [discriminate|].
    specialize (IH 0). destruct (split_from sep s 0);
      [contradiction | discriminate].
Qed.

Lemma lines_not_empty (s : string) : lines s <> [].
Proof. apply split_from_not_empty. Qed.

(** Joining the lines of a text gives the text back. *)
Lemma join_lines (s : string) : join newline (lines s) = s.
Proof.
  unfold lines, split. induction s as [|c s IH].
  - reflexivity.
  - cbn [split_from].
    change (String.length newline - 1) with 0.
    pose proof (split_from_not_empty newline s 0) as Hne.
    destruct (startswith newline (String c s)) eqn:E.
    + cbn [startswith newline] in E. rewrite andb_true_r in E.
      apply Ascii.eqb_eq in E. subst c.
      destruct (split_from newline s 0) as [|l ls]; [contradiction|].
      change (join newline ("" :: l :: ls))
        with (String (ascii_of_nat 10) (join newline (l :: ls))).
      rewrite IH. reflexivity.
    + destruct (split_from newline s 0) as [|l ls]; [contradiction|].
      cbn [cons_head]. destruct ls as [|l' ls].
      * cbn [join] in *. rewrite IH. reflexivity.
      * change (join newline (String c l :: l' :: ls))
          with (String c (join newline (l :: l' :: ls))).
        rewrite IH. reflexivity.
Qed.

(** ** Metrics: the line counts and the inventory *)

Lemma line_classes (ls : list string) :
  List.length ls
  = List.length
      (filter (fun line => negb (is_empty (strip line))
                           && negb (startswith "//" (strip line))) ls)
    + List.length (filter (fun line => startswith "//" (strip line)) ls)
    + List.length (filter (fun line => is_empty (strip line)) ls).
Proof.
  induction ls as [|l ls IH]; [reflexivity|].
  cbn [filter List.length].
  assert (H : is_empty (strip l) = true -> startswith "//" (strip l) = false).
  { destruct (strip l); [reflexivity | discriminate]. }
  destruct (is_empty (strip l)), (startswith "//" (strip l));
    cbn [negb andb List.length]; try lia.
  all: specialize (H eq_refl); discriminate H.
Qed.

(** X1: the three line counts of [get_contract_metrics] partition the
    lines: [empty_lines] is the number of lines that are blank once
    stripped, it is never negative, the three counts add up to
    [total_lines], and [total_lines] is at least 1 (an empty source is one
    blank line). *)
Theorem line_counts_partition (contract_code : string) :
  exists m,
    Metrics.get_contract_metrics contract_code = Success m
    /\ 1 <= Metrics.total_lines m
    /\ Metrics.empty_lines m
       = Z.of_nat (List.length (filter (fun line => is_empty (strip line))
                                       (lines contract_code)))
    /\ (0 <= Metrics.empty_lines m)%Z
    /\ (Z.of_nat (Metrics.total_lines m)
        = Z.of_nat (Metrics.code_lines m) + Z.of_nat (Metrics.comment_lines m)
          + Metrics.empty_lines m)%Z.
Proof.
  unfold Metrics.get_contract_metrics. eexists. split; [reflexivity|].
  cbn [Metrics.total_lines Metrics.empty_lines Metrics.code_lines
       Metrics.comment_lines].
  pose proof (line_classes (lines contract_code)) as H.
  pose proof (lines_not_empty contract_code) as Hne.
  destruct (lines contract_code) as [|l ls] eqn:E; [contradiction|].
  rewrite <- E in *. clear E.
  assert (1 <= List.length (lines contract_code)).
  { destruct (lines contract_code); [contradiction | cbn; lia]. }
  repeat split; lia.
Qed.

Lemma classify_line_size (acc : Metrics.contract_elements) (line : string) :
  inventory_size (Metrics.classify_line acc line) <= S (inventory_size acc).
Proof.
  unfold Metrics.classify_line, inventory_size.
  repeat match goal with
         | |- context [if ?b then _ else _] => destruct b
         | |- context [match ?o with Some _ => _ | None => _ end] =>
             destruct o
         end;
    cbn [Metrics.functions Metrics.modifiers Metrics.events
         Metrics.state_variables Metrics.imports];
    rewrite ?length_app; cbn [List.length]; lia.
Qed.

Lemma contract_elements_size (ls : list string)
      (acc : Metrics.contract_elements) :
  inventory_size (fold_left Metrics.classify_line ls acc)
  <= inventory_size acc + List.length ls.
Proof.
  revert acc. induction ls as [|l ls IH]; intros acc; cbn [fold_left].
  - cbn. lia.
  - specialize (IH (Metrics.classify_line acc l)).
    pose proof (classify_line_size acc l). cbn [List.length]. lia.
Qed.

(** X2: a line of the source is listed at most once in the inventory of
    [get_contract_metrics]: the functions, modifiers, events, state
    variables and imports together are never more than the lines. *)
Theorem inventory_within_lines (contract_code : string) :
  exists m,
    Metrics.get_contract_metrics contract_code = Success m
    /\ List.length (Metrics.functions (Metrics.elements m))
       + List.length (Metrics.modifiers (Metrics.elements m))
       + List.length (Metrics.events (Metrics.elements m))
       + List.length (Metrics.state_variables (Metrics.elements m))
       + List.length (Metrics.imports (Metrics.elements m))
       <= Metrics.total_lines m.
Proof.
  unfold Metrics.get_contract_metrics. eexists. split; [reflexivity|].
  cbn [Metrics.elements Metrics.total_lines].
  apply (contract_elements_size (lines contract_code) Metrics.no_elements).
Qed.

(** ** Suggestions: labels, tallies and long functions *)

Lemma when_all (P : Suggest.finding -> Prop) (b : bool) (f : Suggest.finding) :
  P f -> Forall P (Suggest.when b f).
Proof.
  intros H. destruct b; cbn [Suggest.when]; [constructor; [exact H|]|];
    constructor.
Qed.

Lemma loop_findings_all (P : Suggest.finding -> Prop) :
  (forall c s i sv line,
      i = "low" \/ i = "medium" \/ i = "high" ->
      P (Suggest.gas_finding c s i sv line)) ->
  forall ls i, Forall P (Suggest.loop_findings i ls).
Proof.
  intros HP ls. induction ls as [|l ls IH]; intros i;
    cbn [Suggest.loop_findings]; [constructor|].
  apply Forall_app. split; [|apply IH].
  destruct (contains "for (" l); [|constructor].
  apply Forall_app. split; apply when_all; apply HP; auto.
Qed.

Lemma gas_findings_all (P : Suggest.finding -> Prop) (contract_code : string) :
  (forall c s i sv line,
      i = "low" \/ i = "medium" \/ i = "high" ->
      P (Suggest.gas_finding c s i sv line)) ->
  Forall P (Suggest.gas_optimizations_of contract_code).
Proof.
  intros HP. unfold Suggest.gas_optimizations_of.
  apply Forall_app. split; [apply when_all; apply HP; auto|].
  apply Forall_app. split; [apply when_all; apply HP; auto|].
  apply Forall_app. split; [apply when_all; apply HP; auto|].
  apply loop_findings_all. exact HP.
Qed.

Lemma security_findings_all (P : Suggest.finding -> Prop)
      (contract_code : string) :
  (forall c s, P (Suggest.security_finding c s "high")) ->
  (forall c s, P (Suggest.security_finding c s "critical")) ->
  (forall c s, P (Suggest.security_finding c s "medium")) ->
  Forall P (Suggest.security_improvements_of contract_code).
Proof.
  intros Hh Hc Hm. unfold Suggest.security_improvements_of. cbv zeta.
  apply Forall_app. split; [apply when_all; apply Hh|].
  apply Forall_app. split.
  { destruct (_ && _); [|constructor]. apply when_all. apply Hc. }
  apply Forall_app. split; apply when_all; [apply Hh | apply Hm].
Qed.

Lemma quality_findings_all (P : Suggest.finding -> Prop)
      (contract_code : string) :
  (forall c s, P (Suggest.quality_finding c s "high")) ->
  (forall c s, P (Suggest.quality_finding c s "medium")) ->
  Forall P (Suggest.code_quality_of contract_code).
Proof.
  intros Hh Hm. unfold Suggest.code_quality_of. cbv zeta.
  apply Forall_app. split; [apply when_all; apply Hh|].
  apply Forall_app. split; apply when_all; apply Hm.
Qed.

Lemma architecture_findings_all (P : Suggest.finding -> Prop)
      (contract_code : string) :
  (forall c s b, P (Suggest.architecture_finding c s b)) ->
  Forall P (Suggest.advanced_patterns_of contract_code).
Proof.
  intros HP. unfold Suggest.advanced_patterns_of.
  apply Forall_app. split; apply when_all; apply HP.
Qed.

Lemma gas_label_known (c s i sv : string) (line : option nat) :
  (i = "low" \/ i = "medium" \/ i = "high") ->
  known_label (Suggest.gas_finding c s i sv line) = true.
Proof. intros [-> | [-> | ->]]; reflexivity. Qed.

Lemma all_labels_known (contract_code : string) :
  Forall (fun f => known_label f = true)
         (Suggest.all_suggestions_of contract_code).
Proof.
  unfold Suggest.all_suggestions_of.
  apply Forall_app. split; [|apply Forall_app; split;
                              [|apply Forall_app; split]].
  - apply gas_findings_all. intros c s i sv line. apply gas_label_known.
  - apply security_findings_all; reflexivity.
  - apply quality_findings_all; reflexivity.
  - apply architecture_findings_all; reflexivity.
Qed.

Lemma known_weight (f : Suggest.finding) :
  known_label f = true ->
  (40 <= Suggest.priority_score (Suggest.label f) <= 100)%Z.
Proof.
  unfold known_label. cbn [existsb]. rewrite !orb_true_iff.
  intros [H | [H | [H | [H | H]]]]; try discriminate H;
    apply String.eqb_eq in H; rewrite H; cbn; lia.
Qed.

Lemma known_weights_total (all : list Suggest.finding) :
  Forall (fun f => known_label f = true) all ->
  (40 * Z.of_nat (List.length all) <= total (weights all))%Z.
Proof.
  induction 1 as [|f all Hf _ IH]; [cbn; lia|].
  pose proof (known_weight f Hf).
  unfold weights, total in *. cbn [map fold_right List.length].
  lia.
Qed.

Lemma all_weighted_by_table (contract_code : string) :
  Forall weighted_by_table (Suggest.all_suggestions_of contract_code).
Proof.
  assert (Hnone : of_the_table None) by (intros l H; discriminate H).
  assert (Hsome : forall l, In l ["critical"; "high"; "medium"; "low"] ->
                            of_the_table (Some l)).
  { intros l Hl x Hx. injection Hx as <-. exact Hl. }
  unfold Suggest.all_suggestions_of.
  apply Forall_app. split; [|apply Forall_app; split;
                              [|apply Forall_app; split]].
  - apply gas_findings_all. intros c s i sv line Hi.
    unfold weighted_by_table.
    cbn [Suggest.gas_finding Suggest.f_severity Suggest.f_priority
         Suggest.f_impact Suggest.f_type Suggest.label].
    split; [exact Hnone|]. split; [exact Hnone|].
    split; [apply Hsome; destruct Hi as [-> | [-> | ->]]; cbn [In];
            auto 10|].
    split; [split; [intros (_ & _ & H); discriminate H
                   | intros H; discriminate H]|].
    split; [intros H; discriminate H|].
    destruct Hi as [-> | [-> | ->]]; cbn; auto 10.
  - apply security_findings_all; intros c s; unfold weighted_by_table;
      cbn [Suggest.security_finding Suggest.f_severity Suggest.f_priority
           Suggest.f_impact Suggest.f_type Suggest.label];
      (split; [apply Hsome; cbn [In]; auto 10|]);
      (split; [exact Hnone|]); (split; [exact Hnone|]);
      (split; [split; [intros (H & _); discriminate H
                      | intros H; discriminate H]|]);
      (split; [intros H; discriminate H|]); cbn; auto 10.
  - apply quality_findings_all; intros c s; unfold weighted_by_table;
      cbn [Suggest.quality_finding Suggest.f_severity Suggest.f_priority
           Suggest.f_impact Suggest.f_type Suggest.label];
      (split; [exact Hnone|]);
      (split; [apply Hsome; cbn [In]; auto 10|]); (split; [exact Hnone|]);
      (split; [split; [intros (_ & H & _); discriminate H
                      | intros H; discriminate H]|]);
      (split; [intros H; discriminate H|]); cbn; auto 10.
  - apply architecture_findings_all. intros c s b. unfold weighted_by_table.
    cbn [Suggest.architecture_finding Suggest.f_severity Suggest.f_priority
         Suggest.f_impact Suggest.f_type Suggest.label].
    split; [exact Hnone|]. split; [exact Hnone|]. split; [exact Hnone|].
    split; [split; [reflexivity | repeat split]|].
    split; [reflexivity|]. cbn. auto 10.
Qed.

(** X3: the weight [suggest_improvements] gives a finding is always one
    of the four of its table (100, 80, 60 or 40), never the default 50.
    What a finding carries under [severity], [priority] or [impact] is
    one of the four labels of the table; the findings that carry none of
    the three are exactly the architecture findings, and the innermost
    default reads them as [medium].  The improvement score is 100 when no
    rule fires and lies between 0 and 60 as soon as one does. *)
Theorem default_weight_never_applies (contract_code : string) :
  exists d,
    Suggest.suggest_improvements contract_code = Success d
    /\ Forall weighted_by_table (Suggest.all_suggestions_of contract_code)
    /\ ((Suggest.all_suggestions_of contract_code = []
         /\ Suggest.improvement_score (Suggest.report d) = 100%Z)
        \/ (Suggest.all_suggestions_of contract_code <> []
            /\ (0 <= Suggest.improvement_score (Suggest.report d) <= 60)%Z)).
Proof.
  unfold Suggest.suggest_improvements. eexists. split; [reflexivity|].
  split; [apply all_weighted_by_table|].
  cbn [Suggest.report Suggest.improvement_score].
  fold (Suggest.all_suggestions_of contract_code).
  pose proof (known_weights_total _ (all_labels_known contract_code)) as Hw.
  destruct (Suggest.all_suggestions_of contract_code) as [|f all] eqn:E.
  - left. split; reflexivity.
  - right. split; [discriminate|].
    unfold Suggest.improvement_score_of. rewrite total_score_sum.
    set (n := Z.of_nat (List.length (f :: all))) in *.
    assert (Hn : (1 <= n)%Z) by (subst n; cbn [List.length]; lia).
    rewrite (Z.max_l n 1) by lia.
    assert (40 <= total (weights (f :: all)) / n)%Z.
    { apply Z.div_le_lower_bound; lia. }
    lia.
Qed.

Lemma tallies_sum (all : list Suggest.finding) :
  List.length (filter (Suggest.has_level "critical") all)
  + List.length (filter (Suggest.has_level "high") all)
  + List.length (filter (Suggest.has_level "medium") all)
  + List.length (filter (Suggest.has_level "low") all)
  = list_sum (map tallied all).
Proof.
  induction all as [|f all IH]; [reflexivity|].
  cbn [filter map list_sum fold_right]. unfold list_sum in IH.
  rewrite <- IH. unfold tallied. cbn [filter].
  destruct (Suggest.has_level "critical" f), (Suggest.has_level "high" f),
    (Suggest.has_level "medium" f), (Suggest.has_level "low" f);
    cbn [List.length]; lia.
Qed.

Lemma tallied_constant (k : nat) (l : list Suggest.finding) :
  Forall (fun f => tallied f = k) l ->
  list_sum (map tallied l) = k * List.length l.
Proof.
  induction 1 as [|f l Hf _ IH]; [cbn; lia|].
  cbn [map list_sum fold_right List.length]. unfold list_sum in IH.
  rewrite IH, Hf. lia.
Qed.

(** X4: the priority breakdown of [suggest_improvements] tallies the
    security and code-quality findings, each under exactly one label, and
    none of the gas and architecture findings: its four counts add up to
    [security_issues + code_quality_issues]. *)
Theorem breakdown_counts_security_and_quality (contract_code : string) :
  exists d,
    Suggest.suggest_improvements contract_code = Success d
    /\ Forall (fun f => tallied f = 0) (Suggest.gas_optimizations d)
    /\ Forall (fun f => tallied f = 1) (Suggest.security_improvements d)
    /\ Forall (fun f => tallied f = 1) (Suggest.code_quality d)
    /\ Forall (fun f => tallied f = 0) (Suggest.advanced_patterns d)
    /\ Suggest.critical (Suggest.breakdown (Suggest.report d))
       + Suggest.high (Suggest.breakdown (Suggest.report d))
       + Suggest.medium (Suggest.breakdown (Suggest.report d))
       + Suggest.low (Suggest.breakdown (Suggest.report d))
       = Suggest.security_issues (Suggest.report d)
         + Suggest.code_quality_issues (Suggest.report d).
Proof.
  unfold Suggest.suggest_improvements. eexists. split; [reflexivity|].
  cbn [Suggest.gas_optimizations Suggest.security_improvements
       Suggest.code_quality Suggest.advanced_patterns Suggest.report
       Suggest.breakdown Suggest.critical Suggest.high Suggest.medium
       Suggest.low Suggest.security_issues Suggest.code_quality_issues].
  assert (Hg : Forall (fun f => tallied f = 0)
                      (Suggest.gas_optimizations_of contract_code))
    by (apply gas_findings_all; reflexivity).
  assert (Hs : Forall (fun f => tallied f = 1)
                      (Suggest.security_improvements_of contract_code))
    by (apply security_findings_all; reflexivity).
  assert (Hq : Forall (fun f => tallied f = 1)
                      (Suggest.code_quality_of contract_code))
    by (apply quality_findings_all; reflexivity).
  assert (Ha : Forall (fun f => tallied f = 0)
                      (Suggest.advanced_patterns_of contract_code))
    by (apply architecture_findings_all; reflexivity).
  repeat (split; [assumption|]).
  rewrite tallies_sum, !map_app, !list_sum_app.
  rewrite (tallied_constant 0 _ Hg), (tallied_constant 1 _ Hs),
    (tallied_constant 1 _ Hq), (tallied_constant 0 _ Ha).
  lia.
Qed.

(** The state of the loop over long functions, after the lines [done]. *)
Lemma long_step_invariant (done : list string) (l : string)
      (long : list string) (cur : option string) (len : nat) :
  (forall f, In f long -> long_function_in done f) ->
  (Suggest.truthy cur = true ->
   exists pre l1 mid,
     cur = Some (strip l1) /\ done = (pre ++ l1 :: mid)%list
     /\ contains "function " l1 = true /\ List.length mid = len
     /\ Forall (fun x => contains "function " x = false) mid) ->
  let '(long', cur', len') := Suggest.long_step (long, cur, len) l in
  (forall f, In f long' -> long_function_in (done ++ [l]) f)
  /\ (Suggest.truthy cur' = true ->
      exists pre l1 mid,
        cur' = Some (strip l1) /\ (done ++ [l])%list = (pre ++ l1 :: mid)%list
        /\ contains "function " l1 = true /\ List.length mid = len'
        /\ Forall (fun x => contains "function " x = false) mid).
Proof.
  intros Hlong Hcur.
  assert (Hold : forall f, In f long -> long_function_in (done ++ [l]) f).
  { intros f Hf.
    destruct (Hlong f Hf) as (pre & l1 & mid & l2 & post & -> & H).
    exists pre, l1, mid, l2, (post ++ [l])%list. split; [|exact H].
    rewrite <- !app_assoc. cbn [app]. rewrite <- !app_assoc. reflexivity. }
  cbn [Suggest.long_step]. destruct (contains "function " l) eqn:El.
  - split.
    + destruct (Suggest.truthy cur && (50 <? len)%nat) eqn:E; [|exact Hold].
      apply andb_true_iff in E as [Et Elen]. apply Nat.ltb_lt in Elen.
      destruct (Hcur Et) as (pre & l1 & mid & -> & -> & Hl1 & Hmid & Hno).
      intros f Hf. apply in_app_or in Hf as [Hf | [<- | []]];
        [apply Hold; exact Hf|].
      exists pre, l1, mid, l, []. repeat split; try assumption; [|lia].
      rewrite <- app_assoc. reflexivity.
    + intros _. exists done, l, []. repeat split; try assumption.
      constructor.
  - destruct (Suggest.truthy cur) eqn:Et.
    + split; [exact Hold|]. intros _.
      destruct (Hcur eq_refl) as (pre & l1 & mid & -> & -> & Hl1 & Hmid & Hno).
      exists pre, l1, (mid ++ [l])%list. repeat split; try assumption.
      * rewrite <- app_assoc. reflexivity.
      * rewrite length_app. cbn [List.length]. lia.
      * apply Forall_app. split; [exact Hno | constructor; [exact El|constructor]].
    + split; [exact Hold|]. intros H. rewrite Et in H. discriminate H.
Qed.

Lemma long_functions_sound_from (ls done : list string)
      (long : list string) (cur : option string) (len : nat) :
  (forall f, In f long -> long_function_in done f) ->
  (Suggest.truthy cur = true ->
   exists pre l1 mid,
     cur = Some (strip l1) /\ done = (pre ++ l1 :: mid)%list
     /\ contains "function " l1 = true /\ List.length mid = len
     /\ Forall (fun x => contains "function " x = false) mid) ->
  forall f,
    In f (fst (fst (fold_left Suggest.long_step ls (long, cur, len)))) ->
    long_function_in (done ++ ls) f.
Proof.
  revert done long cur len.
  induction ls as [|l ls IH]; intros done long cur len Hlong Hcur f Hf.
  - cbn in Hf. rewrite app_nil_r. apply Hlong. exact Hf.
  - cbn [fold_left] in Hf.
    pose proof (long_step_invariant done l long cur len Hlong Hcur) as Hstep.
    destruct (Suggest.long_step (long, cur, len) l) as [[long' cur'] len'].
    destruct Hstep as [Hlong' Hcur'].
    replace (done ++ l :: ls)%list with ((done ++ [l]) ++ ls)%list
      by (rewrite <- app_assoc; reflexivity).
    apply (IH _ long' cur' len' Hlong' Hcur' f Hf).
Qed.

(** X5: a function reported as long by [suggest_improvements] is the
    stripped text of a line containing [function ] that is followed by
    more than 50 lines without [function ] and then by another line that
    contains it.  The length of a function is only looked at when the next
    one starts: a source with at most one such line, or the last function
    of any source, is never reported. *)
Theorem long_functions_need_a_successor (ls : list string) (f : string) :
  In f (Suggest.long_functions_of ls) -> long_function_in ls f.
Proof.
  intros Hf. unfold Suggest.long_functions_of in Hf.
  apply (long_functions_sound_from ls [] [] None 0); [| |exact Hf].
  - intros g [].
  - intros H. discriminate H.
Qed.

Lemma long_functions_need_a_successor_witness :
  In "function first() public {" (Suggest.long_functions_of long_source_lines)
  /\ long_function_in long_source_lines "function first() public {".
Proof.
  assert (H : In "function first() public {"
                 (Suggest.long_functions_of long_source_lines)).
  { vm_compute. left. reflexivity. }
  split; [exact H|].
  exact (long_functions_need_a_successor long_source_lines _ H).
Defined.

(** ** Stripping and lower-casing *)

Lemma is_space_lower_char (c : ascii) :
  is_space (lower_char c) = is_space c.
Proof. destruct c as [[] [] [] [] [] [] [] []]; reflexivity. Qed.

Lemma lower_char_idempotent (c : ascii) :
  lower_char (lower_char c) = lower_char c.
Proof. destruct c as [[] [] [] [] [] [] [] []]; reflexivity. Qed.

Lemma lower_idempotent (s : string) : lower (lower s) = lower s.
Proof.
  induction s as [|c s IH]; [reflexivity|].
  cbn [lower]. rewrite lower_char_idempotent, IH. reflexivity.
Qed.

Lemma lstrip_lower (s : string) : lstrip (lower s) = lower (lstrip s).
Proof.
  induction s as [|c s IH]; [reflexivity|].
  cbn [lower lstrip]. rewrite is_space_lower_char.
  destruct (is_space c); [exact IH | reflexivity].
Qed.

Lemma is_empty_lower (s : string) : is_empty (lower s) = is_empty s.
Proof. destruct s; reflexivity. Qed.

Lemma rstrip_lower (s : string) : rstrip (lower s) = lower (rstrip s).
Proof.
  induction s as [|c s IH]; [reflexivity|].
  cbn [lower rstrip]. rewrite is_space_lower_char, IH, is_empty_lower.
  destruct (is_space c && is_empty (rstrip s)); reflexivity.
Qed.

Lemma strip_lower (s : string) : strip (lower s) = lower (strip s).
Proof. unfold strip. rewrite lstrip_lower, rstrip_lower. reflexivity. Qed.

Lemma rstrip_idempotent (s : string) : rstrip (rstrip s) = rstrip s.
Proof.
  induction s as [|c s IH]; [reflexivity|].
  cbn [rstrip]. destruct (is_space c && is_empty (rstrip s)) eqn:E;
    [reflexivity|].
  cbn [rstrip]. rewrite IH, E. reflexivity.
Qed.

Lemma lstrip_clean (s : string) : clean_head (lstrip s) = true.
Proof.
  induction s as [|c s IH]; [reflexivity|].
  cbn [lstrip]. destruct (is_space c) eqn:E; [exact IH|].
  cbn [clean_head]. rewrite E. reflexivity.
Qed.

Lemma rstrip_clean (s : string) :
  clean_head s = true -> clean_head (rstrip s) = true.
Proof.
  destruct s as [|c s]; [reflexivity|].
  cbn [clean_head rstrip]. intros H. apply negb_true_iff in H.
  rewrite H. cbn [andb clean_head]. rewrite H. reflexivity.
Qed.

Lemma lstrip_of_clean (s : string) : clean_head s = true -> lstrip s = s.
Proof.
  destruct s as [|c s]; [reflexivity|].
  cbn [clean_head lstrip]. intros H. apply negb_true_iff in H.
  rewrite H. reflexivity.
Qed.

Lemma strip_idempotent (s : string) : strip (strip s) = strip s.
Proof.
  unfold strip.
  rewrite (lstrip_of_clean (rstrip (lstrip s)))
    by (apply rstrip_clean, lstrip_clean).
  apply rstrip_idempotent.
Qed.

(** ** Requests: feasibility, bounds and letter case *)

Lemma matching_length (table : list (string * list string)) (d : string) :
  List.length (Validator.matching table d) <= List.length table.
Proof.
  unfold Validator.matching. rewrite length_map. apply filter_length_le.
Qed.

(** X6: [validate_user_input] never records more than one missing piece of
    information, so the test for more than 3 missing pieces never decides:
    a request is feasible exactly when its clarity score is at least 20. *)
Theorem feasibility_is_clarity (user_description : string) :
  exists v,
    Validator.validate_user_input user_description = Success v
    /\ List.length (Validator.missing_info v) <= 1
    /\ (Validator.is_feasible v = true
        <-> (20 <= Validator.clarity_score v)%Z).
Proof.
  unfold Validator.validate_user_input. eexists. split; [reflexivity|].
  cbn [Validator.missing_info Validator.is_feasible Validator.clarity_score].
  destruct (Validator.matching Validator.contract_indicators _);
    cbn [List.length Nat.ltb Nat.leb orb]; (split; [lia|]);
    rewrite negb_true_iff, Z.ltb_ge; reflexivity.
Qed.

(** X7: the clarity score of [validate_user_input] lies between -20 and
    110 for every request, and is a multiple of 10. *)
Theorem clarity_bounds (user_description : string) :
  exists v,
    Validator.validate_user_input user_description = Success v
    /\ (-20 <= Validator.clarity_score v <= 110)%Z
    /\ (Validator.clarity_score v mod 10 = 0)%Z.
Proof.
  unfold Validator.validate_user_input. eexists. split; [reflexivity|].
  cbn [Validator.clarity_score].
  pose proof (matching_length Validator.requirement_keywords
                (lower (strip user_description))) as Hfound.
  cbn [Validator.requirement_keywords List.length] in Hfound.
  set (n := List.length _) in *.
  assert (Hmod : forall k, ((k + 10 * Z.of_nat n) mod 10 = k mod 10)%Z).
  { intros k. rewrite Z.mul_comm. apply Z_mod_plus_full. }
  destruct (Validator.matching Validator.contract_indicators _);
    destruct (_ <? 5)%nat; try destruct (100 <? _)%nat;
    (split; [lia|]);
    repeat match goal with
           | |- ((?a + 10 * Z.of_nat n + ?b) mod 10 = 0)%Z =>
               replace (a + 10 * Z.of_nat n + b)%Z
                 with ((a + b) + 10 * Z.of_nat n)%Z by lia
           | |- ((?a + 10 * Z.of_nat n - ?b) mod 10 = 0)%Z =>
               replace (a + 10 * Z.of_nat n - b)%Z
                 with ((a - b) + 10 * Z.of_nat n)%Z by lia
           end;
    rewrite Hmod; reflexivity.
Qed.

(** X8: [validate_user_input] reads the request without regard to letter
    case or surrounding white space: the lower-cased request and the
    stripped request get the result of the request itself. *)
Theorem validation_ignores_case_and_margins (user_description : string) :
  Validator.validate_user_input (lower user_description)
  = Validator.validate_user_input user_description
  /\ Validator.validate_user_input (strip user_description)
     = Validator.validate_user_input user_description.
Proof.
  unfold Validator.validate_user_input.
  rewrite strip_lower, lower_idempotent, strip_idempotent.
  split; reflexivity.
Qed.

(** ** Diagnostics: kinds, counts and line numbers *)

Lemma categorize_kind (error : string) (line_match : option N) :
  In (Diagnostics.error_type (Diagnostics.categorize error line_match))
     diagnostic_kinds
  /\ Diagnostics.original_error (Diagnostics.categorize error line_match)
     = error
  /\ Diagnostics.line_number (Diagnostics.categorize error line_match)
     = line_match.
Proof.
  unfold Diagnostics.categorize, diagnostic_kinds.
  repeat match goal with
         | |- context [if contains ?k error then _ else _] =>
             destruct (contains k error)
         end;
    cbn [Diagnostics.error_type Diagnostics.original_error
         Diagnostics.line_number In]; auto 10.
Qed.

Lemma parse_error_info (error : string) (info : Diagnostics.error_info) :
  Diagnostics.parse_error error = inr info ->
  In (Diagnostics.error_type info) diagnostic_kinds
  /\ Diagnostics.original_error info = error
  /\ (Diagnostics.line_number info = None
      <-> Re.search Re.line_marker_here error = None).
Proof.
  unfold Diagnostics.parse_error.
  destruct (Re.search Re.line_marker_here error) as [ds|].
  - destruct (int ds) as [e|n]; [discriminate|].
    intros H. assert (E : info = Diagnostics.categorize error (Some n))
      by congruence.
    subst info. destruct (categorize_kind error (Some n)) as (Hk & Ho & ->).
    repeat split; try assumption; discriminate.
  - intros H. assert (E : info = Diagnostics.categorize error None)
      by congruence.
    subst info. destruct (categorize_kind error None) as (Hk & Ho & ->).
    repeat split; assumption.
Qed.

Lemma parse_errors_stop (errors : list string) :
  forall acc,
    forallb within_digit_limit errors = false ->
    exists error ds e,
      In error errors
      /\ Re.search Re.line_marker_here error = Some ds
      /\ max_str_digits < String.length ds
      /\ int ds = inl e
      /\ Diagnostics.parse_errors errors acc = inl e.
Proof.
  induction errors as [|error errors IH]; intros acc H; [discriminate H|].
  cbn [forallb] in H. cbn [Diagnostics.parse_errors].
  destruct (within_digit_limit error) eqn:He.
  - cbn [andb] in H.
    destruct (parse_error_within error He) as (info & ->).
    destruct (IH (acc ++ [info])%list H) as (x & ds & e & Hin & Hrest).
    exists x, ds, e. split; [right; exact Hin | exact Hrest].
  - unfold within_digit_limit in He. unfold Diagnostics.parse_error.
    destruct (Re.search Re.line_marker_here error) as [ds|] eqn:Es;
      [|discriminate He].
    apply Nat.leb_gt in He. destruct (int_over ds He) as (e & Hint).
    exists error, ds, e. rewrite Hint.
    split; [left; reflexivity|]. repeat split; assumption.
Qed.

Lemma kind_counts (parsed : list Diagnostics.error_info) :
  Forall (fun e => In (Diagnostics.error_type e) diagnostic_kinds) parsed ->
  Diagnostics.count_types ["syntax_error"; "compiler_error"] parsed
  + Diagnostics.count_types ["type_error"; "declaration_error"] parsed
  + Diagnostics.count_types ["warning"] parsed
  + of_kind "unknown" parsed
  = List.length parsed
  /\ List.length
       (filter (fun e => negb (String.eqb (Diagnostics.error_type e)
                                          "compiler_error")) parsed)
     + of_kind "compiler_error" parsed
     = List.length parsed.
Proof.
  unfold Diagnostics.count_types, of_kind.
  induction 1 as [|e parsed He _ [IH1 IH2]]; [split; reflexivity|].
  cbn [filter].
  unfold diagnostic_kinds in He. cbn [In] in He.
  destruct He as [H | [H | [H | [H | [H | [H | []]]]]]]; rewrite <- H;
    repeat match goal with
           | |- context [Diagnostics.mem ?x ?l] =>
               let b := eval vm_compute in (Diagnostics.mem x l) in
               change (Diagnostics.mem x l) with b
           | |- context [String.eqb ?x ?y] =>
               let b := eval vm_compute in (String.eqb x y) in
               change (String.eqb x y) with b
           end;
    cbn [negb List.length]; split; lia.
Qed.

(** X9: [handle_compilation_errors] succeeds exactly when no message has
    a first line marker of more than 4300 digits, the length at which
    [int] raises; otherwise it returns the error envelope with the
    message of [int].  When it succeeds it keeps every message: the
    parsed errors are the given messages, one each and in order, every
    one gets one of the six kinds, the three severity counts together
    with the messages of unknown kind account for all of them, and the
    fixable ones are all but the compiler errors. *)
Theorem diagnostics_account_for_every_message (errors : list string) :
  is_success (Diagnostics.handle_compilation_errors errors)
  = forallb within_digit_limit errors
  /\ (forall msg,
         Diagnostics.handle_compilation_errors errors = Error msg ->
         exists error ds e,
           In error errors
           /\ Re.search Re.line_marker_here error = Some ds
           /\ max_str_digits < String.length ds
           /\ int ds = inl e
           /\ msg = "Error parsing failed: " ++ Diagnostics.str e)
  /\ (forall d,
         Diagnostics.handle_compilation_errors errors = Success d ->
         map Diagnostics.original_error (Diagnostics.parsed_errors d) = errors
         /\ Diagnostics.total_errors d = List.length errors
         /\ Forall (fun e => In (Diagnostics.error_type e) diagnostic_kinds)
                   (Diagnostics.parsed_errors d)
         /\ Diagnostics.critical (Diagnostics.severities d)
            + Diagnostics.high (Diagnostics.severities d)
            + Diagnostics.medium (Diagnostics.severities d)
            + of_kind "unknown" (Diagnostics.parsed_errors d)
            = Diagnostics.total_errors d
         /\ Diagnostics.low (Diagnostics.severities d) = 0
         /\ Diagnostics.fixable_errors d
            + of_kind "compiler_error" (Diagnostics.parsed_errors d)
            = Diagnostics.total_errors d).
Proof.
  unfold Diagnostics.handle_compilation_errors.
  destruct (forallb within_digit_limit errors) eqn:Hall.
  - destruct (parse_errors_app errors [] Hall) as (parsed & -> & Hparsed).
    cbn [app]. split; [reflexivity|]. split; [discriminate|].
    intros d Hd. assert (E : d = Diagnostics.report parsed) by congruence.
    subst d. clear Hd.
    cbn [Diagnostics.report Diagnostics.parsed_errors Diagnostics.total_errors
         Diagnostics.severities Diagnostics.critical Diagnostics.high
         Diagnostics.medium Diagnostics.low Diagnostics.fixable_errors].
    assert (Hk : Forall (fun e => In (Diagnostics.error_type e)
                                     diagnostic_kinds) parsed).
    { clear Hall. induction Hparsed as [|error info errors parsed Hi _ IH];
        constructor; [|exact IH].
      apply (parse_error_info error info Hi). }
    assert (Ho : map Diagnostics.original_error parsed = errors).
    { clear Hall Hk.
      induction Hparsed as [|error info errors parsed Hi _ IH];
        [reflexivity|].
      cbn [map]. rewrite IH.
      destruct (parse_error_info error info Hi) as (_ & -> & _).
      reflexivity. }
    destruct (kind_counts _ Hk) as [H1 H2].
    split; [exact Ho|].
    split; [rewrite <- Ho; symmetry; apply length_map|].
    split; [exact Hk|].
    repeat split; assumption.
  - destruct (parse_errors_stop errors [] Hall)
      as (error & ds & e & Hin & Hs & Hlen & Hint & ->).
    split; [reflexivity|]. split; [|discriminate].
    intros msg Hm. exists error, ds, e.
    repeat split; try assumption. congruence.
Qed.

Lemma search_none {A : Type} (f : string -> option A) (s : string) :
  Re.search f s = None <-> (forall a b, s = a ++ b -> f b = None).
Proof.
  induction s as [|c s IH].
  - cbn [Re.search]. split.
    + intros H a b Hab. destruct a, b; try discriminate Hab.
      destruct (f ""); [discriminate H | reflexivity].
    + intros H. rewrite (H "" "" eq_refl). reflexivity.
  - cbn [Re.search]. split.
    + intros H a b Hab. destruct (f (String c s)) eqn:E; [discriminate H|].
      destruct a as [|x a].
      * cbn in Hab. subst b. exact E.
      * cbn in Hab. injection Hab as _ Hab.
        apply (proj1 IH H a b Hab).
    + intros H. rewrite (H "" (String c s) eq_refl).
      apply IH. intros a b Hab. apply (H (String c a) b).
      cbn. rewrite Hab. reflexivity.
Qed.

Lemma no_marker_iff (error : string) :
  Re.search Re.line_marker_here error = None
  <-> (forall a b, error = a ++ b -> ~ marker_at b).
Proof.
  rewrite search_none. split.
  - intros H a b Hab Hm. apply (line_marker_here_complete b Hm).
    apply (H a b Hab).
  - intros H a b Hab.
    destruct (Re.line_marker_here b) as [n|] eqn:E; [|reflexivity].
    exfalso. apply (H a b Hab). apply (line_marker_here_sound b n E).
Qed.

(** X10: in the result of a successful [handle_compilation_errors], the
    entry of a message has no line number exactly when no colon, digits,
    colon marker begins anywhere in the message, whatever its kind. *)
Theorem line_number_iff_marker (errors : list string)
        (d : Diagnostics.diagnostics) :
  Diagnostics.handle_compilation_errors errors = Success d ->
  Forall2 (fun error info =>
             Diagnostics.original_error info = error
             /\ (Diagnostics.line_number info = None
                 <-> forall a b, error = a ++ b -> ~ marker_at b))
          errors (Diagnostics.parsed_errors d).
Proof.
  unfold Diagnostics.handle_compilation_errors. intros H.
  destruct (forallb within_digit_limit errors) eqn:Hall.
  - destruct (parse_errors_app errors [] Hall) as (parsed & Hp & Hparsed).
    rewrite Hp in H. cbn [app] in H.
    assert (E : d = Diagnostics.report parsed) by congruence.
    subst d. cbn [Diagnostics.report Diagnostics.parsed_errors].
    clear H Hp Hall.
    induction Hparsed as [|error info errors parsed Hi _ IH];
      constructor; [|exact IH].
    destruct (parse_error_info error info Hi) as (_ & Ho & Hl).
    split; [exact Ho|]. rewrite Hl. apply no_marker_iff.
  - destruct (parse_errors_stop errors [] Hall)
      as (error & ds & e & _ & _ & _ & _ & Hp).
    rewrite Hp in H. discriminate H.
Qed.

Lemma line_number_iff_marker_witness :
  exists d,
    Diagnostics.handle_compilation_errors ["Warning: unused"; parser_message]
    = Success d
    /\ Forall2 (fun error info =>
                  Diagnostics.original_error info = error
                  /\ (Diagnostics.line_number info = None
                      <-> forall a b, error = a ++ b -> ~ marker_at b))
               ["Warning: unused"; parser_message]
               (Diagnostics.parsed_errors d).
Proof.
  assert (H : exists d,
             Diagnostics.handle_compilation_errors
               ["Warning: unused"; parser_message] = Success d).
  { vm_compute. eexists. reflexivity. }
  destruct H as (d & Hd). exists d. split; [exact Hd|].
  apply (line_number_iff_marker ["Warning: unused"; parser_message] d Hd).
Defined.

Lemma string_length_snoc (s : string) (c : ascii) :
  String.length (s ++ String c "") = S (String.length s).
Proof.
  induction s as [|x s IH]; [reflexivity|].
  cbn [append String.length]. rewrite IH. reflexivity.
Qed.

Lemma int_from_snoc (ds : string) (d : ascii) (acc : N) :
  int_from acc (ds ++ String d "")
  = (10 * int_from acc ds + digit_value d)%N.
Proof.
  revert acc. induction ds as [|c ds IH]; intros acc; [reflexivity|].
  cbn [append int_from]. apply IH.
Qed.

(** X11: the line number [handle_compilation_errors] reads in a message
    is the decimal value of the digits of its first marker, as long as
    they are at most 4300: the digits are read from the left, each new
    digit multiplying the value by ten.  With more digits [int] raises,
    the message gets no entry, and a call on that message alone returns
    the error envelope. *)
Theorem line_number_is_first_marker (pre ds post : string) :
  ds <> "" ->
  all is_digit ds = true ->
  no_marker_within pre (":" ++ ds ++ ":" ++ post) ->
  (String.length ds <= max_str_digits ->
   exists n info,
     int ds = inr n
     /\ Diagnostics.parse_error (pre ++ ":" ++ ds ++ ":" ++ post) = inr info
     /\ Diagnostics.line_number info = Some n
     /\ forall d, is_digit d = true ->
                  String.length ds < max_str_digits ->
                  int (ds ++ String d "") = inr (10 * n + digit_value d)%N)
  /\ (max_str_digits < String.length ds ->
      exists e,
        int ds = inl e
        /\ Diagnostics.parse_error (pre ++ ":" ++ ds ++ ":" ++ post) = inl e
        /\ Diagnostics.handle_compilation_errors
             [pre ++ ":" ++ ds ++ ":" ++ post]
           = Error ("Error parsing failed: " ++ Diagnostics.str e)).
Proof.
  intros Hne Hds Hfree.
  assert (Hsearch : Re.search Re.line_marker_here
                              (pre ++ ":" ++ ds ++ ":" ++ post)
                    = Some ds).
  { apply search_first_marker; [exact Hfree|].
    apply marker_digits; assumption. }
  split.
  - intros Hlen. exists (int_from 0%N ds). eexists.
    unfold Diagnostics.parse_error. rewrite Hsearch, (int_within ds Hlen).
    split; [reflexivity|]. split; [reflexivity|].
    split; [apply categorize_kind|].
    intros d _ Hd. rewrite int_within.
    + unfold int_from at 1. fold int_from. rewrite int_from_snoc. reflexivity.
    + rewrite string_length_snoc. lia.
  - intros Hlen. destruct (int_over ds Hlen) as (e & He). exists e.
    unfold Diagnostics.handle_compilation_errors.
    cbn [Diagnostics.parse_errors].
    unfold Diagnostics.parse_error. rewrite Hsearch, He.
    repeat split.
Qed.

Lemma line_number_is_first_marker_witness :
  no_marker_within located_message_prefix (":" ++ "4" ++ ":" ++ located_message_rest)
  /\ exists info,
      Diagnostics.parse_error
        (located_message_prefix ++ ":" ++ "4" ++ ":" ++ located_message_rest)
      = inr info
      /\ Diagnostics.line_number info = Some 4%N.
Proof.
  assert (H : no_marker_within located_message_prefix
                               (":" ++ "4" ++ ":" ++ located_message_rest)).
  { apply free_of_markers_ok. vm_compute. reflexivity. }
  split; [exact H|].
  assert (Hne : "4" <> "") by discriminate.
  assert (Hlen : String.length "4" <= max_str_digits).
  { apply Nat.leb_le. vm_compute. reflexivity. }
  destruct (proj1 (line_number_is_first_marker
                     located_message_prefix "4" located_message_rest
                     Hne eq_refl H) Hlen)
    as (n & info & Hn & Hi & Hl & _).
  exists info. split; [exact Hi|].
  rewrite Hl. f_equal.
  assert (E : @inr value_error N n = inr 4%N).
  { rewrite <- Hn. vm_compute. reflexivity. }
  congruence.
Defined.

(** ** Gas estimates: failures, overloads and bounds *)

Lemma ill_formed_raises (contract_code : string) (abi : list Gas.abi_item) :
  forallb well_formed abi = false ->
  forall acc,
    Gas.estimate_functions contract_code abi acc = inl (Gas.KeyError "type")
    \/ Gas.estimate_functions contract_code abi acc = inl (Gas.KeyError "name").
Proof.
  induction abi as [|item abi IH]; intros H acc; [discriminate H|].
  cbn [forallb] in H. cbn [Gas.estimate_functions].
  unfold well_formed in H.
  destruct (Gas.item_type item) as [t|]; cbn [Gas.getitem];
    [|left; reflexivity].
  destruct (String.eqb t "function").
  - destruct (Gas.item_name item); cbn [Gas.getitem];
      [|right; reflexivity].
    apply IH. exact H.
  - apply IH. exact H.
Qed.

(** X12: [analyze_gas_usage] succeeds exactly on the ABI lists in which
    every entry has a type and every function entry has a name, whatever
    the bytecode and the source; on any other list it returns the error
    envelope naming the missing key. *)
Theorem analysis_succeeds_iff_well_formed
        (bytecode : string) (abi : list Gas.abi_item) (contract_code : string) :
  is_success (Gas.analyze_gas_usage bytecode abi contract_code)
  = forallb well_formed abi
  /\ match Gas.analyze_gas_usage bytecode abi contract_code with
     | Success d => True
     | Error msg =>
         msg = "Gas analysis failed: 'type'"
         \/ msg = "Gas analysis failed: 'name'"
     end.
Proof.
  unfold Gas.analyze_gas_usage.
  destruct (forallb well_formed abi) eqn:E.
  - destruct (estimate_functions_inventory contract_code abi E [])
      as (d & -> & _). split; [reflexivity | exact I].
  - destruct (ill_formed_raises contract_code abi E []) as [-> | ->];
      (split; [reflexivity|]); [left | right]; reflexivity.
Qed.

Lemma estimates_follow_last (contract_code : string) (abi : list Gas.abi_item)
      (n : string) :
  forall acc d,
    Gas.estimate_functions contract_code abi acc = inr d ->
    Gas.dict_get d n
    = match last_mutability abi n with
      | Some m => Some (Gas.estimate_of contract_code n m)
      | None => Gas.dict_get acc n
      end.
Proof.
  induction abi as [|item abi IH]; intros acc d H.
  - cbn in H. injection H as <-. reflexivity.
  - cbn [Gas.estimate_functions] in H. cbn [last_mutability].
    unfold names_function.
    destruct (Gas.item_type item) as [t|]; cbn [Gas.getitem] in H;
      [|discriminate H].
    destruct (String.eqb t "function") eqn:Et.
    + destruct (Gas.item_name item) as [k|]; cbn [Gas.getitem] in H;
        [|discriminate H].
      rewrite (IH _ _ H), dict_get_set. cbn [andb].
      destruct (last_mutability abi n); [reflexivity|].
      destruct (String.eqb k n) eqn:Ek; [|reflexivity].
      apply String.eqb_eq in Ek. subst k. reflexivity.
    + rewrite (IH _ _ H).
      destruct (last_mutability abi n); [reflexivity|].
      destruct (Gas.item_name item); reflexivity.
Qed.

Lemma dict_set_keys (d : list (string * Gas.estimate)) (k : string)
      (v : Gas.estimate) :
  NoDup (map fst d) ->
  NoDup (map fst (Gas.dict_set d k v))
  /\ (forall x, In x (map fst (Gas.dict_set d k v)) -> x = k \/ In x (map fst d))
  /\ List.length (Gas.dict_set d k v) <= S (List.length d).
Proof.
  induction d as [|[k0 v0] d IH]; intros Hd; cbn [Gas.dict_set].
  - cbn. repeat split; [constructor; [intros []|constructor] | | lia].
    intros x [<- | []]. left. reflexivity.
  - cbn [map fst] in Hd. inversion Hd as [|? ? Hnot Hd']. subst.
    destruct (String.eqb k0 k) eqn:E.
    + apply String.eqb_eq in E. subst k0. cbn [map fst List.length].
      repeat split; [exact Hd | | lia].
      intros x [<- | Hx]; [left; reflexivity | right; right; exact Hx].
    + destruct (IH Hd') as (Hnd & Hin & Hlen). cbn [map fst List.length].
      repeat split; [| | lia].
      * constructor; [|exact Hnd]. intros Hk0.
        destruct (Hin _ Hk0) as [-> | Hk0'];
          [rewrite String.eqb_refl in E; discriminate E | contradiction].
      * intros x [<- | Hx]; [right; left; reflexivity|].
        destruct (Hin x Hx) as [-> | Hx']; [left; reflexivity|].
        right. right. exact Hx'.
Qed.

Lemma estimates_keys (contract_code : string) (abi : list Gas.abi_item) :
  forall acc d,
    Gas.estimate_functions contract_code abi acc = inr d ->
    NoDup (map fst acc) ->
    NoDup (map fst d)
    /\ List.length d <= List.length acc + List.length abi.
Proof.
  induction abi as [|item abi IH]; intros acc d H Hacc.
  - cbn in H. injection H as <-. split; [exact Hacc | lia].
  - cbn [Gas.estimate_functions] in H.
    destruct (Gas.item_type item) as [t|]; cbn [Gas.getitem] in H;
      [|discriminate H].
    destruct (String.eqb t "function").
    + destruct (Gas.item_name item) as [k|]; cbn [Gas.getitem] in H;
        [|discriminate H].
      match type of H with
      | Gas.estimate_functions _ _ (Gas.dict_set _ _ ?v) = _ =>
          destruct (dict_set_keys acc k v Hacc) as (Hnd & _ & Hlen)
      end.
      destruct (IH _ _ H Hnd) as [H1 H2]. cbn [List.length].
      split; [exact H1 | lia].
    + destruct (IH _ _ H Hacc) as [H1 H2]. cbn [List.length].
      split; [exact H1 | lia].
Qed.

(** X13: the estimates of [analyze_gas_usage] are kept by name: when the
    analysis succeeds no name occurs twice, there are no more estimates
    than ABI entries, and the estimate under a name is the one computed
    for the last function entry of that name, so that overloaded
    functions share the estimate of the last overload. *)
Theorem overloads_share_one_estimate
        (bytecode : string) (abi : list Gas.abi_item) (contract_code : string)
        (d : Gas.gas_report) :
  Gas.analyze_gas_usage bytecode abi contract_code = Success d ->
  NoDup (map fst (Gas.function_gas_estimates d))
  /\ Gas.total_functions d <= List.length abi
  /\ forall n,
      Gas.dict_get (Gas.function_gas_estimates d) n
      = option_map (Gas.estimate_of contract_code n) (last_mutability abi n).
Proof.
  unfold Gas.analyze_gas_usage.
  destruct (Gas.estimate_functions contract_code abi []) as [e|est] eqn:E;
    [discriminate|].
  intros H. injection H as <-.
  cbn [Gas.function_gas_estimates Gas.total_functions].
  destruct (estimates_keys contract_code abi [] est E) as [Hnd Hlen];
    [constructor|].
  split; [exact Hnd|]. split; [exact Hlen|].
  intros n. rewrite (estimates_follow_last contract_code abi n [] est E).
  destruct (last_mutability abi n); reflexivity.
Qed.

Lemma overloads_share_one_estimate_witness :
  exists d,
    Gas.analyze_gas_usage "6080" overloaded_abi "" = Success d
    /\ Gas.total_functions d = 1
    /\ Gas.dict_get (Gas.function_gas_estimates d) "transfer"
       = Some (Gas.estimate_of "" "transfer" "nonpayable").
Proof.
  assert (H : exists d, Gas.analyze_gas_usage "6080" overloaded_abi ""
                        = Success d /\ Gas.total_functions d = 1).
  { vm_compute. eexists. split; reflexivity. }
  destruct H as (d & Hd & Ht).
  exists d. split; [exact Hd|]. split; [exact Ht|].
  exact (proj2 (proj2 (overloads_share_one_estimate
                         "6080" overloaded_abi "" d Hd)) "transfer").
Defined.

Lemma base_gas_at_least_500 (m n : string) : (500 <= Gas.base_gas_of m n)%Z.
Proof.
  unfold Gas.base_gas_of.
  repeat match goal with
         | |- context [if ?b then _ else _] => destruct b
         end; lia.
Qed.

Lemma estimate_at_least_base (contract_code f m : string) :
  (Gas.base_gas_of m f
   <= Gas.estimated_gas (Gas.estimate_of contract_code f m))%Z.
Proof.
  unfold Gas.estimate_of. cbn [Gas.estimated_gas].
  destruct (negb (is_empty contract_code)); [|lia].
  rewrite add_body_gas_sum. lia.
Qed.

Lemma collect_nothing (f : string) (ls : list string) :
  Forall (fun line => contains ("function " ++ f) line = false) ls ->
  Gas.collect_func_lines f ls false [] 0%Z = [].
Proof.
  induction 1 as [|l ls Hl _ IH]; [reflexivity|].
  cbn [Gas.collect_func_lines]. rewrite Hl. exact IH.
Qed.

(** X14: the estimate [analyze_gas_usage] computes for a function is never
    below its base cost, and it is the base cost itself when no line of
    the source contains [function] followed by the name: a function the
    source does not declare is estimated from its name and mutability
    alone. *)
Theorem undeclared_function_costs_base (contract_code f m : string) :
  (Gas.base_gas_of m f
   <= Gas.estimated_gas (Gas.estimate_of contract_code f m))%Z
  /\ (Forall (fun line => contains ("function " ++ f) line = false)
             (lines contract_code) ->
      Gas.estimated_gas (Gas.estimate_of contract_code f m)
      = Gas.base_gas_of m f).
Proof.
  split; [apply estimate_at_least_base|].
  intros H. unfold Gas.estimate_of. cbn [Gas.estimated_gas].
  destruct (negb (is_empty contract_code)); [|reflexivity].
  unfold Gas.func_body_of. rewrite (collect_nothing f _ H).
  reflexivity.
Qed.

Lemma undeclared_function_costs_base_witness :
  Forall (fun line => contains ("function " ++ "burn") line = false)
         (lines one_check_source)
  /\ Gas.estimated_gas (Gas.estimate_of one_check_source "burn" "nonpayable")
     = Gas.base_gas_of "nonpayable" "burn".
Proof.
  assert (H : Forall (fun line => contains ("function " ++ "burn") line = false)
                     (lines one_check_source)).
  { vm_compute. repeat constructor. }
  split; [exact H|].
  exact (proj2 (undeclared_function_costs_base one_check_source "burn"
                                               "nonpayable") H).
Defined.

Lemma dict_set_values (P : Gas.estimate -> Prop)
      (d : list (string * Gas.estimate)) (k : string) (v : Gas.estimate) :
  Forall (fun kv => P (snd kv)) d -> P v ->
  Forall (fun kv => P (snd kv)) (Gas.dict_set d k v).
Proof.
  intros Hd Hv. induction Hd as [|[k0 v0] d H0 Hd IH]; cbn [Gas.dict_set].
  - constructor; [exact Hv | constructor].
  - destruct (String.eqb k0 k); constructor; try assumption.
Qed.

Lemma estimates_values (P : Gas.estimate -> Prop) (contract_code : string)
      (abi : list Gas.abi_item) :
  (forall n m, P (Gas.estimate_of contract_code n m)) ->
  forall acc d,
    Gas.estimate_functions contract_code abi acc = inr d ->
    Forall (fun kv => P (snd kv)) acc ->
    Forall (fun kv => P (snd kv)) d.
Proof.
  intros HP. induction abi as [|item abi IH]; intros acc d H Hacc.
  - cbn in H. injection H as <-. exact Hacc.
  - cbn [Gas.estimate_functions] in H.
    destruct (Gas.item_type item) as [t|]; cbn [Gas.getitem] in H;
      [|discriminate H].
    destruct (String.eqb t "function").
    + destruct (Gas.item_name item) as [k|]; cbn [Gas.getitem] in H;
        [|discriminate H].
      apply (IH _ _ H). apply dict_set_values; [exact Hacc | apply HP].
    + apply (IH _ _ H Hacc).
Qed.

Lemma sum_gas_from (d : list (string * Gas.estimate)) (acc : Z) :
  Forall (fun kv => (500 <= Gas.estimated_gas (snd kv))%Z) d ->
  (acc + 500 * Z.of_nat (List.length d)
   <= fold_left (fun a kv => (a + Gas.estimated_gas (snd kv))%Z) d acc)%Z.
Proof.
  intros H. revert acc. induction H as [|kv d Hkv _ IH]; intros acc.
  - cbn. lia.
  - cbn [fold_left List.length]. specialize (IH (acc + Gas.estimated_gas (snd kv))%Z).
    lia.
Qed.

Lemma optimizations_at_most_4 (deployment : Z)
      (d : list (string * Gas.estimate)) (contract_code : string) :
  List.length (Gas.optimizations_of deployment d contract_code) <= 4.
Proof.
  unfold Gas.optimizations_of. cbv zeta.
  rewrite !length_app.
  repeat match goal with
         | |- context [if ?b then _ else _] => destruct b
         | |- context [match ?l with [] => _ | _ :: _ => _ end] => destruct l
         end; rewrite ?length_app; cbn [List.length]; lia.
Qed.

(** X15: bounds of a successful [analyze_gas_usage]: every estimate is at
    least 500 and carries the band of its value (low below 30000, medium
    below 60000, high otherwise); the deployment estimate is 200 per byte
    of bytecode, two characters to the byte; the average is 0 without
    functions and at least 500 with them; the efficiency score lies
    between 40 and 100, since at most four notes are ever derived. *)
Theorem gas_report_bounds
        (bytecode : string) (abi : list Gas.abi_item) (contract_code : string)
        (d : Gas.gas_report) :
  Gas.analyze_gas_usage bytecode abi contract_code = Success d ->
  Forall (fun kv =>
            (500 <= Gas.estimated_gas (snd kv))%Z
            /\ Gas.gas_category (snd kv)
               = (if (Gas.estimated_gas (snd kv) <? 30000)%Z then "low"
                  else if (Gas.estimated_gas (snd kv) <? 60000)%Z then "medium"
                  else "high"))
         (Gas.function_gas_estimates d)
  /\ Gas.deployment_gas_estimate d
     = (200 * (Z.of_nat (String.length bytecode) / 2))%Z
  /\ (Gas.function_gas_estimates d = [] -> Gas.average_function_gas d = 0%Z)
  /\ (Gas.function_gas_estimates d <> [] ->
      (500 <= Gas.average_function_gas d)%Z)
  /\ List.length (Gas.optimizations d) <= 4
  /\ (40 <= Gas.gas_efficiency_score d <= 100)%Z.
Proof.
  unfold Gas.analyze_gas_usage.
  destruct (Gas.estimate_functions contract_code abi []) as [e|est] eqn:E;
    [discriminate|].
  match goal with |- Success ?r = _ -> _ => set (rec := r) end.
  intros H. assert (Hd : d = rec) by congruence. clear H. subst d. subst rec.
  cbn [Gas.function_gas_estimates Gas.deployment_gas_estimate
       Gas.average_function_gas Gas.optimizations Gas.gas_efficiency_score].
  assert (Hall : Forall (fun kv =>
            (500 <= Gas.estimated_gas (snd kv))%Z
            /\ Gas.gas_category (snd kv)
               = (if (Gas.estimated_gas (snd kv) <? 30000)%Z then "low"
                  else if (Gas.estimated_gas (snd kv) <? 60000)%Z then "medium"
                  else "high")) est).
  { refine (estimates_values
              (fun e =>
                 (500 <= Gas.estimated_gas e)%Z
                 /\ Gas.gas_category e
                    = (if (Gas.estimated_gas e <? 30000)%Z then "low"
                       else if (Gas.estimated_gas e <? 60000)%Z then "medium"
                       else "high"))
              contract_code abi _ [] est E _); [|constructor].
    intros n m. split; [|reflexivity].
    pose proof (estimate_at_least_base contract_code n m).
    pose proof (base_gas_at_least_500 m n). lia. }
  pose proof (optimizations_at_most_4
                (Z.of_nat (String.length bytecode) / 2 * 200) est
                contract_code) as Hopt.
  split; [exact Hall|]. split; [lia|].
  split; [intros ->; reflexivity|].
  split.
  - intros Hne. destruct est as [|kv est]; [contradiction|].
    set (l := kv :: est) in *.
    assert (Hsum : (500 * Z.of_nat (List.length l) <= Gas.sum_gas l)%Z).
    { unfold Gas.sum_gas.
      pose proof (sum_gas_from l 0) as Hs. cbn beta in Hs.
      assert (Forall (fun kv => (500 <= Gas.estimated_gas (snd kv))%Z) l).
      { eapply Forall_impl; [|exact Hall]. intros a [Ha _]. exact Ha. }
      specialize (Hs H). lia. }
    apply Z.div_le_lower_bound; [subst l; cbn [List.length]; lia | lia].
  - split; [exact Hopt | lia].
Qed.

Lemma gas_report_bounds_witness :
  exists d,
    Gas.analyze_gas_usage "6080" view_and_mint_abi one_check_source = Success d
    /\ (40 <= Gas.gas_efficiency_score d <= 100)%Z.
Proof.
  assert (H : exists d, Gas.analyze_gas_usage "6080" view_and_mint_abi
                                              one_check_source = Success d).
  { vm_compute. eexists. reflexivity. }
  destruct H as (d & Hd). exists d. split; [exact Hd|].
  apply (gas_report_bounds "6080" view_and_mint_abi one_check_source d Hd).
Defined.

(** ** Decomposition: the scan never fails and keeps the line order *)

Lemma entry_within_later (i n : nat) (e : Explain.section_entry) :
  entry_within i n e -> entry_within (S i) n e.
Proof. unfold entry_within. intros [H1 H2]. split; [lia | exact H2]. Qed.

Lemma sorted_snoc (l : list nat) (x : nat) :
  StronglySorted lt l -> Forall (fun y => y < x) l ->
  StronglySorted lt (l ++ [x]).
Proof.
  induction 1 as [|a l Hs IH Ha]; intros Hx; cbn [app].
  - constructor; constructor.
  - inversion Hx as [|? ? Hax Hlx]. subst. constructor; [apply IH, Hlx|].
    apply Forall_app. split; [exact Ha | constructor; [exact Hax|constructor]].
Qed.

Lemma scan_invariant_snoc (i n : nat) (l : list Explain.section_entry)
      (e : Explain.section_entry) (cur cur' : option string) :
  scan_invariant i n l cur ->
  Explain.line_start e = i + 1 ->
  match Explain.line_end e with
  | Some x => i + 1 <= x <= n
  | None => True
  end ->
  scan_invariant (S i) n (l ++ [e]) cur'.
Proof.
  intros (Hin & Hs & Hlen & _) Hstart Hend. repeat split.
  - apply Forall_app. split.
    + eapply Forall_impl; [|exact Hin]. intros a. apply entry_within_later.
    + constructor; [|constructor]. unfold entry_within. rewrite Hstart.
      split; [lia|]. destruct (Explain.line_end e); [lia | exact I].
  - rewrite map_app. cbn [map]. apply sorted_snoc; [exact Hs|].
    apply Forall_map. eapply Forall_impl; [|exact Hin].
    intros a [Ha _]. lia.
  - rewrite length_app. cbn [List.length]. lia.
  - intros _ H. destruct l; discriminate H.
Qed.

Lemma set_last_line_end_ok (i n : nat) (l : list Explain.section_entry) :
  l <> [] -> i <= n ->
  exists l',
    Explain.set_last_line_end l i = inr l'
    /\ map Explain.line_start l' = map Explain.line_start l
    /\ (Forall (entry_within i n) l -> Forall (entry_within i n) l').
Proof.
  intros Hne Hi. induction l as [|e l IH]; [contradiction|].
  destruct l as [|e' l].
  - cbn [Explain.set_last_line_end]. eexists. split; [reflexivity|].
    split; [reflexivity|]. intros H. inversion H as [|? ? [He _] _]. subst.
    constructor; [|constructor]. unfold entry_within.
    cbn [Explain.line_start Explain.line_end]. lia.
  - destruct IH as (l' & Hl' & Hmap & Hall); [discriminate|].
    change (Explain.set_last_line_end (e :: e' :: l) i)
      with (match Explain.set_last_line_end (e' :: l) i with
            | inl x => inl x
            | inr rest' => inr (e :: rest')
            end).
    rewrite Hl'. eexists. split; [reflexivity|]. split.
    + cbn [map]. rewrite Hmap. reflexivity.
    + intros H. inversion H. subst. constructor; [assumption|].
      apply Hall. assumption.
Qed.

Lemma append_last_code_ok (i n : nat) (text : string)
      (l : list Explain.section_entry) :
  l <> [] ->
  exists l',
    Explain.append_last_code l text = inr l'
    /\ map Explain.line_start l' = map Explain.line_start l
    /\ (Forall (entry_within i n) l -> Forall (entry_within i n) l').
Proof.
  intros Hne. induction l as [|e l IH]; [contradiction|].
  destruct l as [|e' l].
  - cbn [Explain.append_last_code]. eexists. split; [reflexivity|].
    split; [reflexivity|]. intros H. inversion H as [|? ? He _]. subst.
    constructor; [exact He | constructor].
  - destruct IH as (l' & Hl' & Hmap & Hall); [discriminate|].
    change (Explain.append_last_code (e :: e' :: l) text)
      with (match Explain.append_last_code (e' :: l) text with
            | inl x => inl x
            | inr rest' => inr (e :: rest')
            end).
    rewrite Hl'. eexists. split; [reflexivity|]. split.
    + cbn [map]. rewrite Hmap. reflexivity.
    + intros H. inversion H. subst. constructor; [assumption|].
      apply Hall. assumption.
Qed.

Lemma same_lengths {A B : Type} (f : A -> B) (l l' : list A) :
  map f l' = map f l -> List.length l' = List.length l.
Proof. intros H. rewrite <- (length_map f l'), H. apply length_map. Qed.

Lemma close_open_ok (i n : nat) (l : list Explain.section_entry)
      (cur : option string) :
  scan_invariant i n l cur -> i <= n ->
  exists l',
    Explain.close_open cur l i = inr l'
    /\ forall cur', section_open cur' = false \/ l <> [] ->
                    scan_invariant i n l' cur'.
Proof.
  intros (Hin & Hs & Hlen & Hopen) Hi. unfold Explain.close_open.
  assert (Hsame : forall cur', section_open cur' = false \/ l <> [] ->
                               scan_invariant i n l cur').
  { intros cur' Hc. repeat split; try assumption.
    intros Ho. destruct Hc as [Hc | Hc]; [congruence | exact Hc]. }
  destruct cur as [s|]; [|exists l; split; [reflexivity | exact Hsame]].
  destruct (is_empty s) eqn:Es;
    [exists l; split; [reflexivity | exact Hsame]|].
  assert (Hne : l <> []) by (apply Hopen; cbn; rewrite Es; reflexivity).
  destruct (set_last_line_end_ok i n l Hne Hi) as (l' & -> & Hmap & Hall).
  exists l'. split; [reflexivity|]. intros cur' _. repeat split.
  - apply Hall, Hin.
  - rewrite Hmap. exact Hs.
  - rewrite (same_lengths _ _ _ Hmap). exact Hlen.
  - intros _ H. subst l'. destruct l; [contradiction | discriminate Hmap].
Qed.

Lemma scan_invariant_next (i n : nat) (l : list Explain.section_entry)
      (cur : option string) :
  scan_invariant i n l cur -> scan_invariant (S i) n l cur.
Proof.
  intros (Hin & Hs & Hlen & Hopen). repeat split; try assumption; [|lia].
  eapply Forall_impl; [|exact Hin]. intros a. apply entry_within_later.
Qed.

Lemma grouped_ok (kind title explained important : string) (i n : nat)
      (l : list Explain.section_entry) (cur : option string)
      (line_stripped : string) :
  is_empty kind = false ->
  scan_invariant i n l cur -> i < n ->
  exists l' cur',
    Explain.grouped kind title explained important cur l i line_stripped
    = inr (l', cur')
    /\ scan_invariant (S i) n l' cur'.
Proof.
  intros Hkind Hinv Hi. unfold Explain.grouped.
  destruct (Explain.same cur kind) eqn:Esame; cbn [negb].
  - assert (Hcur : cur = Some kind).
    { destruct cur as [s|]; [|discriminate Esame].
      cbn in Esame. apply String.eqb_eq in Esame. subst. reflexivity. }
    subst cur. destruct Hinv as (Hin & Hs & Hlen & Hopen).
    assert (Hne : l <> []) by (apply Hopen; cbn; rewrite Hkind; reflexivity).
    destruct (append_last_code_ok i n (newline ++ line_stripped) l Hne)
      as (l' & -> & Hmap & Hall).
    exists l', (Some kind). split; [reflexivity|].
    apply scan_invariant_next. repeat split.
    + apply Hall, Hin.
    + rewrite Hmap. exact Hs.
    + rewrite (same_lengths _ _ _ Hmap). exact Hlen.
    + intros _ H. subst l'. destruct l; [contradiction | discriminate Hmap].
  - destruct (close_open_ok i n l cur Hinv) as (l' & -> & Hl'); [lia|].
    eexists. eexists. split; [reflexivity|].
    eapply scan_invariant_snoc;
      [apply (Hl' None); left; reflexivity | reflexivity | exact I].
Qed.

Lemma find_block_end_range (rest : list string) :
  forall j seen bc r,
    Explain.find_block_end rest j seen bc = Some r ->
    j <= r < j + List.length rest.
Proof.
  induction rest as [|l rest IH]; intros j seen bc r H; [discriminate H|].
  cbn [Explain.find_block_end] in H. cbn [List.length].
  destruct (_ && _).
  - injection H as <-. lia.
  - apply IH in H. lia.
Qed.

Lemma block_end_range (all_lines : list string) (i : nat) :
  i < List.length all_lines ->
  i <= Explain.block_end all_lines i < List.length all_lines.
Proof.
  intros Hi. unfold Explain.block_end.
  destruct (Explain.find_block_end (skipn i all_lines) i [] 0) eqn:E; [|lia].
  apply find_block_end_range in E. rewrite length_skipn in E. lia.
Qed.

Lemma step_ok (all_lines : list string) (i : nat)
      (l : list Explain.section_entry) (cur : option string) (line : string) :
  scan_invariant i (List.length all_lines) l cur ->
  i < List.length all_lines ->
  exists l' cur',
    Explain.step all_lines l cur i line = inr (l', cur')
    /\ scan_invariant (S i) (List.length all_lines) l' cur'.
Proof.
  intros Hinv Hi. unfold Explain.step.
  pose proof (block_end_range all_lines i Hi) as Hblock.
  destruct (close_open_ok i _ l cur Hinv (Nat.lt_le_incl _ _ Hi))
    as (closed & Hclosed & Hok).
  assert (Hnone : scan_invariant i (List.length all_lines) closed None)
    by (apply Hok; left; reflexivity).
  repeat match goal with
         | |- context [if ?b then _ else _] => destruct b
         end;
    try (apply grouped_ok; [reflexivity | exact Hinv | exact Hi]);
    try rewrite Hclosed;
    try (eexists; eexists; split; [reflexivity|];
         solve [ eapply scan_invariant_snoc;
                 [first [exact Hnone | exact Hinv] | reflexivity
                  | cbn [Explain.line_end Explain.entry]; first [lia | exact I]]
               | apply scan_invariant_next; exact Hinv ]).
Qed.

Lemma scan_ok (all_lines : list string) (rest : list string) :
  forall i l cur,
    scan_invariant i (List.length all_lines) l cur ->
    i + List.length rest = List.length all_lines ->
    exists l' cur',
      Explain.scan all_lines rest l cur i = inr (l', cur')
      /\ scan_invariant (List.length all_lines) (List.length all_lines) l' cur'.
Proof.
  induction rest as [|line rest IH]; intros i l cur Hinv Hlen;
    cbn [Explain.scan List.length] in *.
  - exists l, cur. split; [reflexivity|].
    replace i with (List.length all_lines) in Hinv by lia. exact Hinv.
  - destruct (step_ok all_lines i l cur line Hinv) as (l' & cur' & -> & Hinv');
      [lia|].
    apply IH; [exact Hinv' | lia].
Qed.

Lemma explain_ok (contract_code : string) :
  exists d,
    Explain.explain_generated_code contract_code = Success d
    /\ Explain.total_lines d = List.length (lines contract_code)
    /\ Forall (entry_within (Explain.total_lines d) (Explain.total_lines d))
              (Explain.explanations d)
    /\ StronglySorted lt (map Explain.line_start (Explain.explanations d))
    /\ List.length (Explain.explanations d) <= Explain.total_lines d.
Proof.
  unfold Explain.explain_generated_code.
  set (ls := lines contract_code).
  destruct (scan_ok ls ls 0 [] None) as (l & cur & -> & Hin & Hs & Hlen & Hopen).
  { repeat split; [constructor | constructor | cbn; lia | discriminate]. }
  { reflexivity. }
  assert (Hsame : forall l0,
             l0 = l ->
             exists d,
               Success
                 {| Explain.explanations := l0;
                    Explain.report :=
                      {| Explain.total_sections := List.length l0;
                         Explain.functions :=
                           Explain.count_if
                             (fun e => startswith "Function:" (Explain.section e)) l0;
                         Explain.modifiers :=
                           Explain.count_if
                             (fun e => startswith "Modifier:" (Explain.section e)) l0;
                         Explain.events :=
                           Explain.count_if
                             (fun e => String.eqb (Explain.section e) "Events") l0;
                         Explain.state_variables :=
                           if existsb (fun e => String.eqb (Explain.section e)
                                                           "State Variables") l0
                           then 1 else 0;
                         Explain.complexity :=
                           if (List.length l0 <? 5)%nat then "low"
                           else if (List.length l0 <? 10)%nat then "medium"
                           else "high" |};
                    Explain.total_lines := List.length ls;
                    Explain.complexity_score :=
                      Z.min 100 (Z.of_nat (List.length l0) * 8) |} = Success d
               /\ Explain.total_lines d = List.length ls
               /\ Forall (entry_within (Explain.total_lines d)
                                       (Explain.total_lines d))
                         (Explain.explanations d)
               /\ StronglySorted lt
                    (map Explain.line_start (Explain.explanations d))
               /\ List.length (Explain.explanations d) <= Explain.total_lines d).
  { intros l0 ->. eexists. split; [reflexivity|].
    cbn [Explain.total_lines Explain.explanations]. repeat split; assumption. }
  destruct cur as [s|]; [|apply Hsame; reflexivity].
  destruct l as [|e l]; [apply Hsame; reflexivity|].
  destruct (is_empty s); [apply Hsame; reflexivity|].
  destruct (set_last_line_end_ok (List.length ls) (List.length ls) (e :: l))
    as (l' & -> & Hmap & Hall); [discriminate | lia |].
  eexists. split; [reflexivity|].
  cbn [Explain.total_lines Explain.explanations]. repeat split.
  - apply Hall, Hin.
  - rewrite Hmap. exact Hs.
  - rewrite (same_lengths _ _ _ Hmap). exact Hlen.
Qed.

(** X16: [explain_generated_code] never returns the error envelope: the
    last entry of the list it updates exists whenever a section is open,
    so the decomposition succeeds on every source text. *)
Theorem explanation_never_fails (contract_code : string) :
  is_success (Explain.explain_generated_code contract_code) = true.
Proof.
  destruct (explain_ok contract_code) as (d & -> & _). reflexivity.
Qed.

(** X17: the sections of [explain_generated_code] keep the order of the
    lines: their first lines are strictly increasing line numbers between
    1 and the number of lines, so there is at most one section per line,
    and a section that has a last line has it at or after its first line
    and within the text. *)
Theorem sections_in_line_order (contract_code : string)
        (d : Explain.explained) :
  Explain.explain_generated_code contract_code = Success d ->
  Explain.total_lines d = List.length (lines contract_code)
  /\ StronglySorted lt (map Explain.line_start (Explain.explanations d))
  /\ List.length (Explain.explanations d) <= Explain.total_lines d
  /\ Forall (fun e =>
               1 <= Explain.line_start e <= Explain.total_lines d
               /\ forall x, Explain.line_end e = Some x ->
                            Explain.line_start e <= x <= Explain.total_lines d)
            (Explain.explanations d).
Proof.
  intros H. destruct (explain_ok contract_code) as (d' & Hd' & Ht & Hin & Hs & Hl).
  rewrite H in Hd'. assert (d' = d) by congruence. subst d'.
  repeat split; try assumption.
  eapply Forall_impl; [|exact Hin]. intros e [H1 H2]. split; [exact H1|].
  intros x Hx. rewrite Hx in H2. exact H2.
Qed.

Lemma sections_in_line_order_witness :
  exists d,
    Explain.explain_generated_code three_functions_source = Success d
    /\ StronglySorted lt (map Explain.line_start (Explain.explanations d)).
Proof.
  assert (H : exists d, Explain.explain_generated_code three_functions_source
                        = Success d).
  { vm_compute. eexists. reflexivity. }
  destruct H as (d & Hd). exists d. split; [exact Hd|].
  apply (sections_in_line_order three_functions_source d Hd).
Defined.

(** ** Documentation: the unbound name *)

(** X18: [generate_contract_documentation] returns the error envelope,
    with the message that the name [re] is not defined, exactly when some
    line of the source, stripped, starts with [event], [modifier] or
    [function] followed by a space, a function line counting only when
    it holds neither [internal] nor [private]; on every other source it
    succeeds with a structure that carries the given name and no
    function, event or modifier at all. *)
Theorem documentation_fails_on_declarations
        (contract_code contract_name : string) :
  is_success (Docs.generate_contract_documentation contract_code contract_name)
  = negb (existsb looks_up_re (lines contract_code))
  /\ (forall msg,
         Docs.generate_contract_documentation contract_code contract_name
         = Error msg ->
         msg = re_is_not_defined
         /\ exists line, In line (lines contract_code)
                         /\ looks_up_re line = true)
  /\ (forall d,
         Docs.generate_contract_documentation contract_code contract_name
         = Success d ->
         Docs.contract_name (Docs.contract_structure d) = contract_name
         /\ Docs.functions (Docs.contract_structure d) = []
         /\ Docs.events (Docs.contract_structure d) = []
         /\ Docs.modifiers (Docs.contract_structure d) = []
         /\ Forall (fun line => looks_up_re line = false)
                   (lines contract_code)).
Proof.
  destruct (documentation_outcome contract_code contract_name)
    as [[Hl ->] | (Hl & d & -> & Hs)]; rewrite Hl.
  - split; [reflexivity|]. split; [|discriminate].
    intros msg Hm. split; [congruence|].
    apply existsb_exists in Hl. exact Hl.
  - split; [reflexivity|]. split; [discriminate|].
    intros d' Hd. assert (d' = d) by congruence. subst d'.
    rewrite Hs. repeat split.
    apply Forall_forall. intros line Hin.
    destruct (looks_up_re line) eqn:E; [|reflexivity].
    assert (Ht : existsb looks_up_re (lines contract_code) = true).
    { apply existsb_exists. exists line. split; assumption. }
    rewrite Ht in Hl. discriminate Hl.
Qed.

Lemma documentation_fails_on_declarations_witness :
  Docs.generate_contract_documentation three_functions_source "Vault"
  = Error re_is_not_defined
  /\ exists line, In line (lines three_functions_source)
                  /\ looks_up_re line = true.
Proof.
  assert (H : Docs.generate_contract_documentation three_functions_source
                                                   "Vault"
              = Error re_is_not_defined).
  { vm_compute. reflexivity. }
  split; [exact H|].
  exact (proj2 (proj1 (proj2 (documentation_fails_on_declarations
                                three_functions_source "Vault"))
                      re_is_not_defined H)).
Defined.

(** ** The server: allowed origins *)

Lemma split_pieces_without (c : ascii) (s : string) :
  forall k, Forall (fun piece => contains (String c "") piece = false)
                   (split_from (String c "") s k).
Proof.
  induction s as [|x s IH]; intros k.
  - cbn [split_from]. constructor; [reflexivity | constructor].
  - destruct k as [|k]; cbn [split_from]; [|apply IH].
    destruct (startswith (String c "") (String x s)) eqn:E.
    + constructor; [reflexivity | apply IH].
    + cbn [startswith] in E. rewrite andb_true_r in E.
      specialize (IH 0). destruct (split_from (String c "") s 0) as [|h t].
      * cbn [cons_head]. constructor; [|constructor].
        cbn [contains startswith]. rewrite E. reflexivity.
      * cbn [cons_head]. inversion IH as [|? ? Hh Ht]. subst.
        constructor; [|exact Ht].
        cbn [contains startswith]. rewrite E, andb_true_r.
        cbn [orb]. exact Hh.
Qed.

(** X19: every origin [_parse_origins] returns is usable as it stands: it
    is not empty, has no white space around it and holds no comma; an
    unset or empty value gives the wildcard alone. *)
Theorem origins_are_clean (value : option string) :
  Forall (fun o => o <> "" /\ strip o = o /\ contains "," o = false)
         (Server._parse_origins value)
  /\ (value = None \/ value = Some "" -> Server._parse_origins value = ["*"]).
Proof.
  split.
  - assert (Hstar : Forall (fun o => o <> "" /\ strip o = o
                                     /\ contains "," o = false) ["*"]).
    { constructor; [|constructor]. repeat split. discriminate. }
    destruct value as [v|]; [|exact Hstar].
    unfold Server._parse_origins. destruct (is_empty v); [exact Hstar|].
    apply Forall_map, Forall_forall. intros o Ho.
    apply filter_In in Ho as [Ho Hne].
    pose proof (split_pieces_without "," v 0) as Hsplit.
    rewrite Forall_forall in Hsplit. specialize (Hsplit o Ho).
    repeat split.
    + intros H. rewrite H in Hne. discriminate Hne.
    + apply strip_idempotent.
    + rewrite contains_strip by reflexivity. exact Hsplit.
  - intros [-> | ->]; reflexivity.
Qed.

(** ** The agent: structure validation *)

Lemma find_issues_lines (contract_code : string) (ls : list string) :
  forall i n,
    In n (map Agent.issue_line (Agent.find_issues contract_code i ls))
    <-> contains "reentrancyguard" (lower contract_code) = false
        /\ exists k l,
            nth_error ls k = Some l /\ n = i + k + 1
            /\ contains ".call{" l = true.
Proof.
  induction ls as [|l ls IH]; intros i n.
  - cbn. split; [intros [] | intros (_ & k & l & H & _)].
    destruct k; discriminate H.
  - cbn [Agent.find_issues]. rewrite map_app, in_app_iff, IH. split.
    + intros [H | (Hg & k & l' & Hk & -> & Hc)].
      * destruct (contains ".call{" l) eqn:El; [|destruct H].
        destruct (contains "reentrancyguard" (lower contract_code)) eqn:Eg;
          [destruct H|].
        cbn in H. destruct H as [<- | []].
        split; [reflexivity|]. exists 0, l. repeat split; [lia | exact El].
      * split; [exact Hg|]. exists (S k), l'. repeat split; [exact Hk | lia | exact Hc].
    + intros (Hg & k & l' & Hk & -> & Hc). destruct k as [|k].
      * cbn in Hk. injection Hk as ->. left. rewrite Hc, Hg. cbn. left. lia.
      * right. split; [exact Hg|]. exists k, l'.
        repeat split; [exact Hk | lia | exact Hc].
Qed.

Lemma find_issues_guarded (contract_code : string) (ls : list string) :
  contains "reentrancyguard" (lower contract_code) = true ->
  forall i, Agent.find_issues contract_code i ls = [].
Proof.
  intros Hg. induction ls as [|l ls IH]; intros i; [reflexivity|].
  cbn [Agent.find_issues]. rewrite Hg, andb_false_r, IH. reflexivity.
Qed.

(** X20: [validate_contract_structure] reports exactly the lines that open
    a call with value, by their 1-based numbers, unless the source names a
    reentrancy guard in any letter case, in which case it reports nothing
    and scores 100; the score loses 25 per reported line and stops at 0,
    so it is one of 0, 25, 50, 75 and 100. *)
Theorem structure_validation (contract_code : string) :
  exists v,
    Agent.validate_contract_structure contract_code = Success v
    /\ (forall n,
           In n (map Agent.issue_line (Agent.vulnerabilities v))
           <-> contains "reentrancyguard" (lower contract_code) = false
               /\ 1 <= n
               /\ exists l, nth_error (lines contract_code) (n - 1) = Some l
                            /\ contains ".call{" l = true)
    /\ (contains "reentrancyguard" (lower contract_code) = true ->
        Agent.vulnerabilities v = [] /\ Agent.security_score v = 100%Z)
    /\ Agent.security_score v
       = Z.max 0 (100 - 25 * Z.of_nat (List.length (Agent.vulnerabilities v)))
    /\ In (Agent.security_score v) [0; 25; 50; 75; 100]%Z.
Proof.
  unfold Agent.validate_contract_structure. eexists. split; [reflexivity|].
  cbn [Agent.vulnerabilities Agent.security_score].
  split; [|split; [|split]].
  - intros n. rewrite find_issues_lines. split.
    + intros (Hg & k & l & Hk & -> & Hc). split; [exact Hg|]. split; [lia|].
      exists l. replace (0 + k + 1 - 1) with k by lia. split; assumption.
    + intros (Hg & Hn & l & Hl & Hc). split; [exact Hg|].
      exists (n - 1), l. repeat split; [exact Hl | lia | exact Hc].
  - intros Hg. rewrite (find_issues_guarded _ _ Hg). split; reflexivity.
  - f_equal. lia.
  - set (k := List.length _). clearbody k.
    destruct k as [|[|[|[|k]]]]; cbn [In];
      [right; right; right; right; left
      | right; right; right; left
      | right; right; left
      | right; left
      | left]; lia.
Qed.

Lemma structure_validation_witness :
  contains "reentrancyguard" (lower Agent.multisig_template) = true
  /\ exists v,
      Agent.validate_contract_structure Agent.multisig_template = Success v
      /\ Agent.vulnerabilities v = [] /\ Agent.security_score v = 100%Z.
Proof.
  assert (H : contains "reentrancyguard" (lower Agent.multisig_template) = true).
  { vm_compute. reflexivity. }
  split; [exact H|].
  destruct (structure_validation Agent.multisig_template)
    as (v & Hv & _ & Hg & _).
  exists v. split; [exact Hv | exact (Hg H)].
Defined.

(** ** The agent: custom functions *)

Lemma extend_functions_readable (functions : list Agent.custom_function) :
  forall acc,
    forallb readable functions = true ->
    exists new_functions,
      Agent.extend_functions functions acc = inr (acc ++ new_functions)%list
      /\ List.length new_functions
         = 4 * List.length (filter is_custom_function functions)
      /\ (existsb is_custom_function functions = false -> new_functions = []).
Proof.
  induction functions as [|func rest IH]; intros acc Hr.
  - exists []. cbn. rewrite app_nil_r. repeat split.
  - cbn [forallb] in Hr. apply andb_prop in Hr as [Hf Hrest].
    cbn [Agent.extend_functions filter existsb].
    unfold readable in Hf. unfold is_custom_function in *.
    destruct (String.eqb (Agent.get (Agent.func_type func) "function")
                         "function").
    + destruct (Agent.func_name func) as [name|]; [|discriminate Hf].
      destruct (IH (acc ++ [("    function " ++ name ++ "() "
                              ++ Agent.get (Agent.func_visibility func) "public"
                              ++ " {")%string;
                            "        // TODO: Implement function logic";
                            "    }"; ""])%list Hrest)
        as (new_functions & Hnew & Hlen & _).
      eexists. split; [|split].
      * rewrite Hnew, <- app_assoc. reflexivity.
      * rewrite length_app, Hlen. cbn [List.length]. lia.
      * cbn [orb]. discriminate.
    + destruct (IH acc Hrest) as (new_functions & Hnew & Hlen & Hnone).
      exists new_functions. repeat split; assumption.
Qed.

Lemma extend_functions_unreadable (functions : list Agent.custom_function) :
  forall acc,
    forallb readable functions = false ->
    Agent.extend_functions functions acc = inl (Agent.KeyError "name").
Proof.
  induction functions as [|func rest IH]; intros acc Hr; [discriminate Hr|].
  cbn [forallb] in Hr. cbn [Agent.extend_functions].
  unfold readable, is_custom_function in Hr.
  destruct (String.eqb (Agent.get (Agent.func_type func) "function")
                       "function").
  - destruct (Agent.func_name func) as [name|]; [|reflexivity].
    apply IH. exact Hr.
  - apply IH. exact Hr.
Qed.

Lemma around_last {A : Type} (init : list A) (x : A) :
  firstn (List.length (init ++ [x]) - 1) (init ++ [x]) = init
  /\ skipn (List.length (init ++ [x]) - 1) (init ++ [x]) = [x].
Proof.
  rewrite length_app. cbn [List.length].
  replace (List.length init + 1 - 1) with (List.length init) by lia.
  induction init as [|a init [IH1 IH2]]; [split; reflexivity|].
  cbn [List.length app firstn skipn]. rewrite IH1, IH2. split; reflexivity.
Qed.

(** X21: [add_custom_functions] fails exactly when an entry of type
    [function], stated or by default, has no name, and the error then
    names the missing key; entries of another type are never read. *)
Theorem custom_functions_fail_iff_unnamed
        (contract_code : string) (functions : list Agent.custom_function) :
  is_success (Agent.add_custom_functions contract_code functions)
  = forallb readable functions
  /\ (forallb readable functions = false ->
      Agent.add_custom_functions contract_code functions
      = Error "Function addition failed: 'name'").
Proof.
  unfold Agent.add_custom_functions.
  destruct (forallb readable functions) eqn:Hr.
  - destruct (extend_functions_readable functions [] Hr) as (new & -> & _).
    split; [reflexivity | discriminate].
  - rewrite (extend_functions_unreadable functions [] Hr).
    split; [reflexivity | intros _; reflexivity].
Qed.

Lemma custom_functions_fail_iff_unnamed_witness :
  forallb readable
          [{| Agent.func_type := None; Agent.func_name := None;
              Agent.func_visibility := Some "external" |}] = false
  /\ Agent.add_custom_functions "contract C {}"
       [{| Agent.func_type := None; Agent.func_name := None;
           Agent.func_visibility := Some "external" |}]
     = Error "Function addition failed: 'name'".
Proof.
  split; [reflexivity|].
  apply (custom_functions_fail_iff_unnamed "contract C {}"
           [{| Agent.func_type := None; Agent.func_name := None;
               Agent.func_visibility := Some "external" |}]).
  reflexivity.
Defined.

(** X22: when [add_custom_functions] succeeds, the source keeps all its
    lines in order and the new lines, four per entry of type [function],
    stand just before its last line; with no such entry the source comes
    back unchanged, while [added_functions] still counts every entry. *)
Theorem custom_functions_before_last_line
        (contract_code : string) (functions : list Agent.custom_function)
        (d : Agent.extended) :
  Agent.add_custom_functions contract_code functions = Success d ->
  Agent.added_functions d = List.length functions
  /\ (exists init last_line new_functions,
         lines contract_code = (init ++ [last_line])%list
         /\ Agent.updated_code d
            = join newline (init ++ new_functions ++ [last_line])
         /\ List.length new_functions
            = 4 * List.length (filter is_custom_function functions))
  /\ (existsb is_custom_function functions = false ->
      Agent.updated_code d = contract_code).
Proof.
  intros H. unfold Agent.add_custom_functions in H.
  destruct (forallb readable functions) eqn:Hr;
    [|rewrite (extend_functions_unreadable functions [] Hr) in H;
      discriminate H].
  destruct (extend_functions_readable functions [] Hr)
    as (new_functions & Hnew & Hlen & Hnone).
  rewrite Hnew in H. cbn [app] in H. injection H as <-.
  cbn [Agent.added_functions Agent.updated_code].
  destruct (exists_last (lines_not_empty contract_code))
    as (init & last_line & Hl).
  unfold splice. rewrite Hl.
  destruct (around_last init last_line) as [-> ->].
  split; [reflexivity|]. split.
  - exists init, last_line, new_functions. repeat split. exact Hlen.
  - intros Hn. rewrite (Hnone Hn). cbn [app]. rewrite <- Hl.
    apply join_lines.
Qed.

Lemma custom_functions_before_last_line_witness :
  exists d,
    Agent.add_custom_functions
      (join newline ["contract C {"; "}"])
      [{| Agent.func_type := None; Agent.func_name := Some "ping";
          Agent.func_visibility := None |};
       {| Agent.func_type := Some "event"; Agent.func_name := None;
          Agent.func_visibility := None |}]
    = Success d
    /\ Agent.added_functions d = 2
    /\ lines (Agent.updated_code d)
       = ["contract C {"; "    function ping() public {";
          "        // TODO: Implement function logic"; "    }"; ""; "}"].
Proof.
  eexists. split; [reflexivity|].
  split; [|vm_compute; reflexivity].
  apply (custom_functions_before_last_line
           (join newline ["contract C {"; "}"])
           [{| Agent.func_type := None; Agent.func_name := Some "ping";
               Agent.func_visibility := None |};
            {| Agent.func_type := Some "event"; Agent.func_name := None;
               Agent.func_visibility := None |}]).
  reflexivity.
Defined.

(** ** The agent: access control *)

Lemma startswith_app_left (w a b : string) :
  startswith w a = true -> startswith w (a ++ b) = true.
Proof.
  revert a. induction w as [|x w IH]; intros a H; [reflexivity|].
  destruct a as [|y a]; [discriminate H|].
  cbn [startswith append] in *. apply andb_prop in H as [-> H].
  cbn [andb]. apply IH. exact H.
Qed.

Lemma contains_app_left (w a b : string) :
  contains w a = true -> contains w (a ++ b) = true.
Proof.
  induction a as [|y a IH]; intros H.
  - cbn [contains] in H. rewrite orb_false_r in H.
    destruct w as [|x w]; [|discriminate H].
    destruct b; reflexivity.
  - cbn [contains append] in *. apply orb_prop in H as [H | H].
    + pose proof (startswith_app_left w (String y a) b H) as Hs.
      cbn [append] in Hs. rewrite Hs. reflexivity.
    + rewrite (IH H). apply orb_true_r.
Qed.

Lemma contains_app_right (w a b : string) :
  contains w b = true -> contains w (a ++ b) = true.
Proof.
  intros H. induction a as [|y a IH]; [exact H|].
  cbn [contains append]. rewrite IH. apply orb_true_r.
Qed.

Lemma contains_join (w sep x : string) (l : list string) :
  In x l -> contains w x = true -> contains w (join sep l) = true.
Proof.
  intros Hin Hx. induction l as [|y l IH]; [destruct Hin|].
  destruct l as [|z l].
  - destruct Hin as [-> | []]. exact Hx.
  - change (join sep (y :: z :: l)) with (y ++ sep ++ join sep (z :: l)).
    destruct Hin as [-> | Hin].
    + apply contains_app_left. exact Hx.
    + apply contains_app_right, contains_app_right, IH. exact Hin.
Qed.

(** ** The agent: filling a template *)

Lemma drop_0 (s : string) : drop 0 s = s.
Proof. reflexivity. Qed.

Lemma replace_from_absent (old new s : string) :
  contains old s = false ->
  forall k, replace_from old new s k = drop k s.
Proof.
  induction s as [|c s IH]; intros H k.
  - destruct k; reflexivity.
  - cbn [contains] in H. apply orb_false_elim in H as [Hs Hc].
    destruct k as [|k]; cbn [replace_from drop].
    + rewrite Hs, (IH Hc 0). reflexivity.
    + apply IH. exact Hc.
Qed.

Lemma replace_absent (old new s : string) :
  contains old s = false -> replace old new s = s.
Proof. intros H. apply (replace_from_absent old new s H 0). Qed.

Lemma startswith_drop (p s : string) :
  startswith p s = true -> (p ++ drop (String.length p) s)%string = s.
Proof.
  revert s. induction p as [|a p IH]; intros s H; [reflexivity|].
  destruct s as [|b s]; [discriminate H|].
  cbn [startswith] in H. apply andb_prop in H as [Hab H].
  apply Ascii.eqb_eq in Hab. subst b.
  cbn [String.length drop append]. rewrite (IH s H). reflexivity.
Qed.

Lemma replace_from_same (a : ascii) (old s : string) :
  forall k, replace_from (String a old) (String a old) s k = drop k s.
Proof.
  induction s as [|c s IH]; intros k.
  - destruct k; reflexivity.
  - destruct k as [|k]; cbn [replace_from drop]; [|apply IH].
    destruct (startswith (String a old) (String c s)) eqn:E.
    + rewrite IH.
      replace (String.length (String a old) - 1) with (String.length old)
        by (cbn [String.length]; lia).
      pose proof (startswith_drop _ _ E) as Hd.
      cbn [String.length drop] in Hd. exact Hd.
    + rewrite IH. reflexivity.
Qed.

Lemma replace_same (a : ascii) (old s : string) :
  replace (String a old) (String a old) s = s.
Proof. apply (replace_from_same a old s 0). Qed.

(** X24: [generate_contract_code] leaves a template that holds none of
    its placeholders as it is, whatever the parameters; and with no
    parameter given, the only text it changes is [CustomERC20Token],
    which becomes [CustomToken]. *)
Theorem generation_changes_placeholders_only (template : string) :
  (forall p,
      forallb (fun old => negb (contains old template)) placeholders = true ->
      Agent.generate_contract_code template p
      = Success {| Agent.generated_code := template;
                   Agent.applied_parameters := p |})
  /\ Agent.generate_contract_code template no_parameters
     = Success {| Agent.generated_code :=
                    replace "CustomERC20Token" "CustomToken" template;
                  Agent.applied_parameters := no_parameters |}.
Proof.
  split.
  - intros p H. unfold Agent.generate_contract_code. f_equal. f_equal.
    cbn [forallb placeholders] in H.
    repeat (apply andb_prop in H as [?H H]).
    repeat match goal with
           | Hc : negb (contains _ _) = true |- _ =>
               apply negb_true_iff in Hc
           end.
    cbn [Agent.replacements fold_left fst snd].
    rewrite (replace_absent "CustomERC20Token" _ template) by assumption.
    rewrite (replace_absent "CustomNFT" _ template) by assumption.
    rewrite (replace_absent "MultiSigWallet" _ template) by assumption.
    rewrite (replace_absent "1000000" _ template) by assumption.
    rewrite (replace_absent "10000" _ template) by assumption.
    apply replace_absent. assumption.
  - unfold Agent.generate_contract_code. f_equal. f_equal.
    cbn [Agent.replacements fold_left fst snd no_parameters
         Agent.name Agent.max_supply Agent.mint_price Agent.get].
    rewrite !replace_same. reflexivity.
Qed.

Lemma generation_changes_placeholders_only_witness :
  forallb (fun old => negb (contains old "contract Vault {}")) placeholders
  = true
  /\ Agent.generate_contract_code "contract Vault {}"
       {| Agent.name := Some "Bank"; Agent.max_supply := Some "5";
          Agent.mint_price := None |}
     = Success {| Agent.generated_code := "contract Vault {}";
                  Agent.applied_parameters :=
                    {| Agent.name := Some "Bank"; Agent.max_supply := Some "5";
                       Agent.mint_price := None |} |}.
Proof.
  assert (H : forallb (fun old => negb (contains old "contract Vault {}"))
                      placeholders = true).
  { vm_compute. reflexivity. }
  split; [exact H|].
  apply (generation_changes_placeholders_only "contract Vault {}"). exact H.
Defined.

(** ** The agent: choosing a template *)

Lemma template_scores_100 (code : string) :
  In code (map snd Agent.template_table) ->
  exists v,
    Agent.validate_contract_structure code = Success v
    /\ Agent.vulnerabilities v = [] /\ Agent.security_score v = 100%Z.
Proof.
  intros [<- | [<- | [<- | []]]]; vm_compute; eexists;
    (split; [reflexivity | split; reflexivity]).
Qed.

Lemma lookup_in (table : list (string * string)) (key code : string) :
  Agent.lookup table key = Some code -> In code (map snd table).
Proof.
  induction table as [|[k v] table IH]; [discriminate|].
  cbn [Agent.lookup map snd]. destruct (String.eqb k key).
  - intros H. injection H as ->. left. reflexivity.
  - intros H. right. apply IH. exact H.
Qed.

Lemma lookup_supported (key : string) :
  match Agent.lookup Agent.template_table key with
  | Some _ => true
  | None => false
  end = existsb (String.eqb key) supported_types.
Proof.
  unfold Agent.template_table, supported_types.
  cbn [Agent.lookup existsb].
  rewrite (String.eqb_sym "erc20"), (String.eqb_sym "erc721"),
    (String.eqb_sym "multisig").
  destruct (String.eqb key "erc20"); [reflexivity|].
  destruct (String.eqb key "erc721"); [reflexivity|].
  destruct (String.eqb key "multisig"); reflexivity.
Qed.

(** X25: [select_contract_template] succeeds exactly for the types
    [erc20], [erc721] and [multisig], in any letter case; it gives the
    type back as it was written, and the template it returns passes
    [validate_contract_structure] with no finding and the score 100;
    any other type is refused by name. *)
Theorem selection_iff_supported (contract_type : string) :
  is_success (Agent.select_contract_template contract_type)
  = existsb (String.eqb (lower contract_type)) supported_types
  /\ (forall d,
         Agent.select_contract_template contract_type = Success d ->
         Agent.contract_type d = contract_type
         /\ exists v,
             Agent.validate_contract_structure (Agent.template_code d)
             = Success v
             /\ Agent.vulnerabilities v = []
             /\ Agent.security_score v = 100%Z)
  /\ (existsb (String.eqb (lower contract_type)) supported_types = false ->
      Agent.select_contract_template contract_type
      = Error ("Unsupported type: " ++ contract_type)).
Proof.
  pose proof (lookup_supported (lower contract_type)) as Hs.
  pose proof (lookup_in Agent.template_table (lower contract_type)) as Hin.
  unfold Agent.select_contract_template.
  destruct (Agent.lookup Agent.template_table (lower contract_type))
    as [code|].
  - rewrite <- Hs. split; [reflexivity|]. split; [|discriminate].
    intros d Hd. assert (E : d = {| Agent.contract_type := contract_type;
                                    Agent.template_code := code;
                                    Agent.required_dependencies :=
                                      ["@openzeppelin/contracts"] |})
      by congruence.
    subst d. cbn [Agent.contract_type Agent.template_code].
    split; [reflexivity|]. apply template_scores_100, Hin. reflexivity.
  - rewrite <- Hs. split; [reflexivity|]. split; [discriminate|].
    intros _. reflexivity.
Qed.

Lemma selection_iff_supported_witness :
  exists d,
    Agent.select_contract_template "ERC721" = Success d
    /\ Agent.contract_type d = "ERC721"
    /\ exists v,
        Agent.validate_contract_structure (Agent.template_code d) = Success v
        /\ Agent.vulnerabilities v = []
        /\ Agent.security_score v = 100%Z.
Proof.
  assert (H : exists d, Agent.select_contract_template "ERC721" = Success d).
  { vm_compute. eexists. reflexivity. }
  destruct H as (d & Hd). exists d. split; [exact Hd|].
  destruct (selection_iff_supported "ERC721") as (_ & Hok & _).
  exact (Hok d Hd).
Defined.

(** X26: of the six templates [get_available_templates] lists,
    [select_contract_template] refuses three: [dao], [dex] and
    [staking]; every type it does accept is listed. *)
Theorem listed_templates_half_selectable :
  exists a,
    Agent.get_available_templates = Success a
    /\ Agent.total_count a = 6
    /\ filter (fun t => negb (is_success (Agent.select_contract_template t)))
              (map Agent.template_type (Agent.templates a))
       = ["dao"; "dex"; "staking"]
    /\ incl supported_types (map Agent.template_type (Agent.templates a)).
Proof.
  unfold Agent.get_available_templates. eexists. split; [reflexivity|].
  cbn [Agent.total_count Agent.templates map Agent.template_type List.length].
  split; [reflexivity|]. split.
  - assert (Hsel : forall t,
               is_success (Agent.select_contract_template t)
               = existsb (String.eqb (lower t)) supported_types).
    { intros t. unfold Agent.select_contract_template.
      rewrite <- lookup_supported.
      destruct (Agent.lookup Agent.template_table (lower t)); reflexivity. }
    cbn [filter]. rewrite !Hsel. vm_compute. reflexivity.
  - intros t [<- | [<- | [<- | []]]]; cbn [In]; tauto.
Qed.

(** ** The agent: security features *)

Lemma startswith_lower (w s : string) :
  startswith w s = true -> startswith (lower w) (lower s) = true.
Proof.
  revert s. induction w as [|a w IH]; intros s H; [reflexivity|].
  destruct s as [|b s]; [discriminate H|].
  cbn [startswith lower] in *. apply andb_prop in H as [Hab H].
  apply Ascii.eqb_eq in Hab. subst b.
  rewrite Ascii.eqb_refl. apply IH. exact H.
Qed.

Lemma contains_lower (w s : string) :
  contains w s = true -> contains (lower w) (lower s) = true.
Proof.
  induction s as [|b s IH]; intros H.
  - cbn [contains] in H. rewrite orb_false_r in H.
    apply (startswith_lower w "") in H. cbn [lower] in *.
    cbn [contains]. rewrite H. reflexivity.
  - cbn [contains] in H. apply orb_prop in H as [H | H].
    + pose proof (startswith_lower _ _ H) as Hs.
      cbn [contains lower] in *. rewrite Hs. reflexivity.
    + cbn [contains lower]. rewrite (IH H). apply orb_true_r.
Qed.

(** X27: [add_security_features] hands the source and the level back
    untouched and reports at most the one feature [reentrancy_guard]: it
    reports it exactly when the level is [medium] or [high] and the
    source does not name [ReentrancyGuard].  So when it reports none at
    one of these levels, the source names [ReentrancyGuard], and
    [validate_contract_structure] then finds nothing in it and scores it
    100. *)
Theorem security_features_leave_code
        (contract_code security_level : string) :
  exists d,
    Agent.add_security_features contract_code security_level = Success d
    /\ Agent.secured_code d = contract_code
    /\ Agent.security_level d = security_level
    /\ (Agent.added_features d = ["reentrancy_guard"]
        \/ Agent.added_features d = [])
    /\ (Agent.added_features d = ["reentrancy_guard"]
        <-> (security_level = "medium" \/ security_level = "high")
            /\ contains "ReentrancyGuard" contract_code = false)
    /\ (security_level = "medium" \/ security_level = "high" ->
        Agent.added_features d = [] ->
        contains "ReentrancyGuard" contract_code = true
        /\ exists v,
            Agent.validate_contract_structure (Agent.secured_code d)
            = Success v
            /\ Agent.vulnerabilities v = []
            /\ Agent.security_score v = 100%Z).
Proof.
  unfold Agent.add_security_features. eexists. split; [reflexivity|].
  cbn [Agent.secured_code Agent.security_level Agent.added_features].
  split; [reflexivity|]. split; [reflexivity|].
  assert (Hlevel : String.eqb security_level "medium"
                   || String.eqb security_level "high" = true
                   <-> security_level = "medium" \/ security_level = "high").
  { rewrite orb_true_iff, !String.eqb_eq. reflexivity. }
  split; [|split].
  - destruct ((String.eqb security_level "medium"
               || String.eqb security_level "high")
              && negb (contains "ReentrancyGuard" contract_code));
      [left | right]; reflexivity.
  - destruct (String.eqb security_level "medium"
              || String.eqb security_level "high") eqn:El;
      destruct (contains "ReentrancyGuard" contract_code) eqn:Hg;
      cbn [andb negb]; split.
    + intros H. discriminate H.
    + intros [_ H]. discriminate H.
    + intros _. split; [apply Hlevel; reflexivity | reflexivity].
    + intros _. reflexivity.
    + intros H. discriminate H.
    + intros [H _]. apply Hlevel in H. discriminate H.
    + intros H. discriminate H.
    + intros [H _]. apply Hlevel in H. discriminate H.
  - intros Hl Hnone. apply Hlevel in Hl. rewrite Hl in Hnone.
    cbn [andb] in Hnone.
    destruct (contains "ReentrancyGuard" contract_code) eqn:Hg;
      [|discriminate Hnone].
    split; [reflexivity|].
    apply (contains_lower "ReentrancyGuard") in Hg.
    change (lower "ReentrancyGuard") with "reentrancyguard" in Hg.
    unfold Agent.validate_contract_structure. eexists.
    split; [reflexivity|].
    cbn [Agent.vulnerabilities Agent.security_score].
    rewrite (find_issues_guarded _ _ Hg). split; reflexivity.
Qed.

Lemma security_features_leave_code_witness :
  exists d,
    Agent.add_security_features
      "contract C is ReentrancyGuard { function f() public { a.call{value: 1}(); } }"
      "high"
    = Success d
    /\ Agent.added_features d = []
    /\ contains "ReentrancyGuard" (Agent.secured_code d) = true
    /\ exists v,
        Agent.validate_contract_structure (Agent.secured_code d) = Success v
        /\ Agent.vulnerabilities v = []
        /\ Agent.security_score v = 100%Z.
Proof.
  destruct (security_features_leave_code
              "contract C is ReentrancyGuard { function f() public { a.call{value: 1}(); } }"
              "high")
    as (d & Hd & Hcode & _ & _ & _ & Hv).
  exists d. split; [exact Hd|].
  assert (Hn : Agent.added_features d = []).
  { vm_compute in Hd. injection Hd as <-. reflexivity. }
  split; [exact Hn|].
  destruct (Hv (or_intror eq_refl) Hn) as (Hg & Hval).
  split; [rewrite Hcode; exact Hg | exact Hval].
Defined.

(** ** Formatting: white space and line counts *)

Lemma string_app_assoc (a b c : string) : (a ++ b) ++ c = a ++ (b ++ c).
Proof.
  induction a as [|x a IH]; [reflexivity|].
  cbn [append]. rewrite IH. reflexivity.
Qed.

Lemma string_length_app (a b : string) :
  String.length (a ++ b) = String.length a + String.length b.
Proof.
  induction a as [|x a IH]; [reflexivity|].
  cbn [append String.length]. rewrite IH. reflexivity.
Qed.

Lemma all_app (p : ascii -> bool) (a b : string) :
  all p (a ++ b) = all p a && all p b.
Proof.
  induction a as [|c a IH]; [reflexivity|].
  cbn [append all]. rewrite IH. apply andb_assoc.
Qed.

Lemma squeeze_app (a b : string) :
  squeeze (a ++ b) = squeeze a ++ squeeze b.
Proof.
  induction a as [|c a IH]; [reflexivity|].
  cbn [append squeeze]. rewrite IH. destruct (is_space c); reflexivity.
Qed.

Lemma squeeze_spaces (s : string) :
  all is_space s = true -> squeeze s = "".
Proof.
  induction s as [|c s IH]; [reflexivity|].
  cbn [all squeeze]. intros H. apply andb_prop in H as [-> H]. exact (IH H).
Qed.

Lemma squeeze_lstrip (s : string) : squeeze (lstrip s) = squeeze s.
Proof.
  induction s as [|c s IH]; [reflexivity|].
  cbn [lstrip squeeze]. destruct (is_space c) eqn:E; [exact IH|].
  cbn [squeeze]. rewrite E. reflexivity.
Qed.

Lemma squeeze_rstrip (s : string) : squeeze (rstrip s) = squeeze s.
Proof.
  induction s as [|c s IH]; [reflexivity|].
  cbn [rstrip squeeze]. destruct (is_space c) eqn:E.
  - destruct (rstrip s) as [|d r] eqn:Er.
    + cbn [is_empty andb squeeze]. exact IH.
    + cbn [is_empty andb]. cbn [squeeze]. rewrite E. exact IH.
  - cbn [andb squeeze]. rewrite E, IH. reflexivity.
Qed.

Lemma squeeze_strip (s : string) : squeeze (strip s) = squeeze s.
Proof. unfold strip. rewrite squeeze_rstrip. apply squeeze_lstrip. Qed.

Lemma is_empty_strip (s : string) :
  is_empty (strip s) = is_empty (squeeze s).
Proof.
  rewrite <- (squeeze_lstrip s). unfold strip.
  pose proof (lstrip_clean s) as Hc.
  destruct (lstrip s) as [|c r]; [reflexivity|].
  cbn [clean_head] in Hc. apply negb_true_iff in Hc.
  cbn [rstrip squeeze]. rewrite Hc. reflexivity.
Qed.

Lemma all_lstrip (p : ascii -> bool) (s : string) :
  all p s = true -> all p (lstrip s) = true.
Proof.
  induction s as [|c s IH]; [reflexivity|].
  intros H. cbn [lstrip]. destruct (is_space c); [|exact H].
  cbn [all] in H. apply andb_prop in H as [_ H]. exact (IH H).
Qed.

Lemma all_rstrip (p : ascii -> bool) (s : string) :
  all p s = true -> all p (rstrip s) = true.
Proof.
  induction s as [|c s IH]; [reflexivity|].
  intros H. cbn [all] in H. apply andb_prop in H as [Hc H].
  cbn [rstrip]. destruct (is_space c && is_empty (rstrip s)); [reflexivity|].
  cbn [all]. rewrite Hc, (IH H). reflexivity.
Qed.

Lemma all_strip (p : ascii -> bool) (s : string) :
  all p s = true -> all p (strip s) = true.
Proof. intros H. apply all_rstrip, all_lstrip, H. Qed.

Lemma drop_length_app (a b : string) :
  drop (String.length a) (a ++ b) = b.
Proof. induction a as [|c a IH]; [reflexivity | exact IH]. Qed.

Lemma word_not_space (c : ascii) : is_word c = true -> is_space c = false.
Proof.
  destruct c as [[] [] [] [] [] [] [] []]; vm_compute;
    intros H; (reflexivity || discriminate H).
Qed.

(** *** The three matchers change white space only *)

Lemma operator_here_spacing (op : ascii) :
  is_space op = false -> spacing_only (Format.operator_here op).
Proof.
  intros Hop t n repl H. unfold Format.operator_here in H.
  destruct t as [|a r]; [discriminate H|].
  destruct (is_word a) eqn:Ha; [|discriminate H].
  destruct (span_split is_space r) as [Hr Hws1].
  destruct (span is_space r) as [ws1 r1]. cbn [fst snd] in Hr, Hws1.
  destruct r1 as [|o r2]; [discriminate H|].
  destruct (Ascii.eqb o op) eqn:Eo; [|discriminate H].
  apply Ascii.eqb_eq in Eo. subst o.
  destruct (span_split is_space r2) as [Hr2 Hws2].
  destruct (span is_space r2) as [ws2 r3]. cbn [fst snd] in Hr2, Hws2.
  destruct r3 as [|b rest]; [discriminate H|].
  destruct (is_word b) eqn:Hb; [|discriminate H].
  injection H as <- <-.
  pose proof (word_not_space a Ha) as Sa.
  pose proof (word_not_space b Hb) as Sb.
  exists (String a (ws1 ++ String op (ws2 ++ String b ""))), rest.
  split; [|split; [|split; [|split]]].
  - subst r r2. cbn [append]. f_equal.
    rewrite string_app_assoc. cbn [append]. rewrite string_app_assoc.
    reflexivity.
  - cbn [String.length]. rewrite string_length_app.
    cbn [String.length]. rewrite string_length_app.
    cbn [String.length]. lia.
  - lia.
  - cbn [squeeze]. rewrite Sa. rewrite !squeeze_app. cbn [squeeze].
    rewrite Hop. rewrite !squeeze_app. cbn [squeeze]. rewrite Sb.
    rewrite (squeeze_spaces _ Hws1), (squeeze_spaces _ Hws2).
    change (is_space " ") with true. cbn iota. reflexivity.
  - unfold one_line. cbn [all]. rewrite !all_app. cbn [all].
    rewrite !all_app. cbn [all]. intros Hm.
    repeat (apply andb_prop in Hm as [?Hm Hm]).
    repeat match goal with
           | Hx : _ = true |- _ => rewrite Hx
           end.
    reflexivity.
Qed.

Lemma comma_here_spacing : spacing_only Format.comma_here.
Proof.
  intros t n repl H. unfold Format.comma_here in H.
  destruct t as [|c [|b rest]]; try discriminate H.
  destruct (Ascii.eqb c ",") eqn:Ec; [|discriminate H].
  destruct (is_word b) eqn:Hb; [|discriminate H].
  apply Ascii.eqb_eq in Ec. subst c. injection H as <- <-.
  pose proof (word_not_space b Hb) as Sb.
  exists (String "," (String b "")), rest.
  split; [|split; [|split; [|split]]]; [reflexivity | reflexivity | lia | | ].
  - cbn [squeeze]. rewrite Sb. reflexivity.
  - unfold one_line. cbn [all]. intros Hm.
    apply andb_prop in Hm as [_ Hm]. rewrite Hm. reflexivity.
Qed.

Lemma function_here_spacing : spacing_only Format.function_here.
Proof.
  intros t n repl H. unfold Format.function_here in H.
  destruct (startswith "function" t) eqn:Ef; [|discriminate H].
  apply startswith_drop in Ef. change (String.length "function") with 8 in Ef.
  destruct (span_split is_space (drop 8 t)) as [Hr Hws].
  destruct (span is_space (drop 8 t)) as [ws r]. cbn [fst snd] in Hr, Hws.
  destruct (span_split is_word r) as [Hr1 Hw].
  destruct (span is_word r) as [w r1]. cbn [fst snd] in Hr1, Hw.
  destruct (span_split is_space r1) as [Hr2 Hws1].
  destruct (span is_space r1) as [ws1 r2]. cbn [fst snd] in Hr2, Hws1.
  destruct (is_empty ws || is_empty w); [discriminate H|].
  destruct (startswith "(" r2) eqn:Ep; [|discriminate H].
  apply startswith_drop in Ep. change (String.length "(") with 1 in Ep.
  injection H as <- <-.
  exists ("function" ++ ws ++ w ++ ws1 ++ "("), (drop 1 r2).
  split; [|split; [|split; [|split]]].
  - rewrite <- Ef at 1. rewrite Hr, Hr1, Hr2. rewrite <- Ep at 1.
    rewrite !string_app_assoc. reflexivity.
  - rewrite !string_length_app. cbn [String.length]. lia.
  - lia.
  - change (squeeze ("function " ++ (w ++ "("))
            = squeeze ("function" ++ ws ++ w ++ ws1 ++ "(")).
    rewrite !squeeze_app.
    rewrite (squeeze_spaces _ Hws), (squeeze_spaces _ Hws1). reflexivity.
  - change (one_line ("function" ++ ws ++ w ++ ws1 ++ "(") = true ->
            one_line ("function " ++ (w ++ "(")) = true).
    unfold one_line. rewrite !all_app. intros Hm.
    repeat (apply andb_prop in Hm as [?Hm Hm]).
    repeat match goal with
           | Hx : all _ w = true |- _ => rewrite Hx
           end.
    reflexivity.
Qed.

(** *** Substitution *)

Lemma sub_from_squeeze (match_here : string -> option (nat * string)) :
  spacing_only match_here ->
  forall s k, squeeze (Format.sub_from match_here s k) = squeeze (drop k s).
Proof.
  intros Hm. induction s as [|c s IH]; intros k.
  - destruct k; reflexivity.
  - destruct k as [|k]; cbn [Format.sub_from drop]; [|apply IH].
    destruct (match_here (String c s)) as [[n repl]|] eqn:E.
    + destruct (Hm _ _ _ E) as (matched & rest & Ht & -> & Hn & Hs & _).
      destruct matched as [|x matched]; [cbn in Hn; lia|].
      cbn [append] in Ht. injection Ht as <- ->.
      cbn [String.length]. rewrite Nat.sub_succ, Nat.sub_0_r.
      rewrite squeeze_app, IH, drop_length_app, Hs.
      change (String c (matched ++ rest))
        with (String c matched ++ rest).
      rewrite squeeze_app. reflexivity.
    + cbn [squeeze]. rewrite IH. reflexivity.
Qed.

Lemma sub_from_one_line (match_here : string -> option (nat * string)) :
  spacing_only match_here ->
  forall s k, one_line s = true ->
              one_line (Format.sub_from match_here s k) = true.
Proof.
  intros Hm. induction s as [|c s IH]; intros k Hs; [reflexivity|].
  assert (Hs' : one_line s = true).
  { unfold one_line in *. cbn [all] in Hs.
    apply andb_prop in Hs as [_ Hs]. exact Hs. }
  destruct k as [|k]; cbn [Format.sub_from]; [|apply IH, Hs'].
  destruct (match_here (String c s)) as [[n repl]|] eqn:E.
  - destruct (Hm _ _ _ E) as (matched & rest & Ht & _ & _ & _ & Hl).
    unfold one_line in *. rewrite all_app.
    rewrite Ht, all_app in Hs. apply andb_prop in Hs as [Hmatched _].
    rewrite (Hl Hmatched). apply (IH _ Hs').
  - unfold one_line in *. cbn [all] in *.
    apply andb_prop in Hs as [-> _]. apply (IH 0 Hs').
Qed.

Lemma sub_squeeze (match_here : string -> option (nat * string)) (s : string) :
  spacing_only match_here -> squeeze (Format.sub match_here s) = squeeze s.
Proof. intros Hm. apply (sub_from_squeeze match_here Hm s 0). Qed.

Lemma sub_one_line (match_here : string -> option (nat * string)) (s : string) :
  spacing_only match_here ->
  one_line s = true -> one_line (Format.sub match_here s) = true.
Proof. intros Hm. apply (sub_from_one_line match_here Hm s 0). Qed.

Lemma spaced_squeeze (s : string) : squeeze (Format.spaced s) = squeeze s.
Proof.
  unfold Format.spaced.
  rewrite (sub_squeeze _ _ function_here_spacing).
  rewrite (sub_squeeze _ _ comma_here_spacing).
  rewrite (sub_squeeze _ _ (operator_here_spacing "/" eq_refl)).
  rewrite (sub_squeeze _ _ (operator_here_spacing "*" eq_refl)).
  rewrite (sub_squeeze _ _ (operator_here_spacing "-" eq_refl)).
  rewrite (sub_squeeze _ _ (operator_here_spacing "+" eq_refl)).
  apply (sub_squeeze _ _ (operator_here_spacing "=" eq_refl)).
Qed.

Lemma spaced_one_line (s : string) :
  one_line s = true -> one_line (Format.spaced s) = true.
Proof.
  intros H. unfold Format.spaced.
  apply (sub_one_line _ _ function_here_spacing).
  apply (sub_one_line _ _ comma_here_spacing).
  apply (sub_one_line _ _ (operator_here_spacing "/" eq_refl)).
  apply (sub_one_line _ _ (operator_here_spacing "*" eq_refl)).
  apply (sub_one_line _ _ (operator_here_spacing "-" eq_refl)).
  apply (sub_one_line _ _ (operator_here_spacing "+" eq_refl)).
  apply (sub_one_line _ _ (operator_here_spacing "=" eq_refl)).
  exact H.
Qed.

(** *** The three loops *)

Lemma times_spaces (n : nat) : all is_space (Format.times "    " n) = true.
Proof. induction n as [|n IH]; [reflexivity | exact IH]. Qed.

Lemma times_one_line (n : nat) : one_line (Format.times "    " n) = true.
Proof. induction n as [|n IH]; [reflexivity | exact IH]. Qed.

Lemma indented_squeeze (n : nat) (line : string) :
  squeeze (Format.times "    " n ++ strip line) = squeeze line.
Proof.
  rewrite squeeze_app, (squeeze_spaces _ (times_spaces n)).
  apply squeeze_strip.
Qed.

Lemma indented_one_line (n : nat) (line : string) :
  one_line line = true ->
  one_line (Format.times "    " n ++ strip line) = true.
Proof.
  intros H. unfold one_line. rewrite all_app.
  fold (one_line (Format.times "    " n)). rewrite times_one_line.
  apply all_strip. exact H.
Qed.

Lemma step_line (st : Format.state) (line : string) :
  one_line line = true ->
  exists f,
    Format.formatted_lines (Format.step st line)
    = (Format.formatted_lines st ++ [f])%list
    /\ squeeze f = squeeze line /\ one_line f = true.
Proof.
  intros Hl. unfold Format.step. cbv zeta.
  destruct (is_empty (strip line)) eqn:Ee.
  - exists "". split; [reflexivity|]. split; [|reflexivity].
    rewrite is_empty_strip in Ee.
    destruct (squeeze line); [reflexivity | discriminate Ee].
  - repeat match goal with
           | |- context [if ?b then _ else _] => destruct b
           end;
      cbn [Format.formatted_lines]; eexists; (split; [reflexivity|]);
      first [ split; [apply indented_squeeze | apply indented_one_line, Hl]
            | split; [apply squeeze_strip | apply all_strip, Hl]
            | split; [rewrite spaced_squeeze; apply indented_squeeze
                     | apply spaced_one_line, indented_one_line, Hl] ].
Qed.

Lemma fold_step (ls : list string) :
  forall st,
    Forall (fun l => one_line l = true) ls ->
    exists fs,
      Format.formatted_lines (fold_left Format.step ls st)
      = (Format.formatted_lines st ++ fs)%list
      /\ map squeeze fs = map squeeze ls
      /\ Forall (fun l => one_line l = true) fs.
Proof.
  induction ls as [|l ls IH]; intros st Hls.
  - exists []. cbn. rewrite app_nil_r. repeat split. constructor.
  - inversion Hls as [|? ? Hl Hrest]. subst.
    destruct (step_line st l Hl) as (f & Hf & Hs & Ho).
    destruct (IH (Format.step st l) Hrest) as (fs & Hfs & Hss & Hos).
    exists (f :: fs). cbn [fold_left map]. split; [|split].
    + rewrite Hfs, Hf, <- app_assoc. reflexivity.
    + rewrite Hs, Hss. reflexivity.
    + constructor; assumption.
Qed.

Lemma code_text_cons (l : string) (ls : list string) :
  code_text (l :: ls)
  = if is_empty (strip l) then code_text ls
    else squeeze l :: code_text ls.
Proof.
  unfold code_text. cbn [map filter]. rewrite is_empty_strip.
  destruct (is_empty (squeeze l)); reflexivity.
Qed.

Lemma clean_text (ls : list string) :
  forall prev_empty, code_text (Format.clean prev_empty ls) = code_text ls.
Proof.
  induction ls as [|l ls IH]; intros prev_empty; [reflexivity|].
  cbn [Format.clean]. rewrite (code_text_cons l ls).
  destruct (is_empty (strip l)) eqn:E.
  - destruct prev_empty; cbn [app]; [apply IH|].
    rewrite code_text_cons, E. apply IH.
  - rewrite code_text_cons, E, IH. reflexivity.
Qed.

Lemma clean_forall (P : string -> Prop) (ls : list string) :
  forall prev_empty, Forall P ls -> Forall P (Format.clean prev_empty ls).
Proof.
  induction ls as [|l ls IH]; intros prev_empty H; [constructor|].
  inversion H as [|? ? Hl Hrest]. subst. cbn [Format.clean].
  destruct (is_empty (strip l)).
  - destruct prev_empty; cbn [app]; [apply IH, Hrest|].
    constructor; [exact Hl | apply IH, Hrest].
  - constructor; [exact Hl | apply IH, Hrest].
Qed.

Lemma clean_length (ls : list string) :
  forall prev_empty,
    List.length (Format.clean prev_empty ls) <= List.length ls.
Proof.
  induction ls as [|l ls IH]; intros prev_empty; [apply Nat.le_refl|].
  cbn [Format.clean]. destruct (is_empty (strip l)).
  - specialize (IH true). destruct prev_empty; cbn [app List.length]; lia.
  - specialize (IH false). cbn [List.length]. lia.
Qed.

Lemma clean_first (l : string) (ls : list string) :
  exists rest, Format.clean false (l :: ls) = l :: rest.
Proof.
  cbn [Format.clean]. destruct (is_empty (strip l)); eexists; reflexivity.
Qed.

Lemma separate_text (ls : list string) :
  code_text (Format.separate ls) = code_text ls.
Proof.
  induction ls as [|l ls IH]; [reflexivity|].
  cbn [Format.separate app]. rewrite !code_text_cons.
  assert (Hb : forall (b : bool) rest,
             code_text ((if b then [""] else []) ++ rest) = code_text rest).
  { intros [] rest; reflexivity. }
  assert (Hn : code_text
                 ((if startswith "import" (strip l)
                   then match ls with
                        | [] => []
                        | next :: _ =>
                            if negb (is_empty (strip next))
                               && negb (startswith "import" (strip next))
                            then [""] else []
                        end
                   else [])
                  ++ (if contains "contract " l && contains "{" l
                      then [""] else [])
                  ++ Format.separate ls)
               = code_text ls).
  { rewrite <- IH.
    destruct (startswith "import" (strip l)); [destruct ls as [|next ls']|];
      cbn [app]; try apply Hb.
    rewrite (Hb _ (_ ++ _)%list). apply Hb. }
  rewrite Hn. reflexivity.
Qed.

Lemma separate_forall (P : string -> Prop) (ls : list string) :
  P "" -> Forall P ls -> Forall P (Format.separate ls).
Proof.
  intros He. induction ls as [|l ls IH]; intros H; [constructor|].
  inversion H as [|? ? Hl Hrest]. subst. cbn [Format.separate app].
  constructor; [exact Hl|].
  apply Forall_app. split;
    [|apply Forall_app; split; [|apply IH, Hrest]].
  - destruct (startswith "import" (strip l)); [|constructor].
    destruct ls as [|next ls']; [constructor|].
    destruct (negb (is_empty (strip next))
              && negb (startswith "import" (strip next)));
      repeat constructor. exact He.
  - destruct (contains "contract " l && contains "{" l);
      repeat constructor. exact He.
Qed.

Lemma separate_length (ls : list string) :
  List.length ls <= List.length (Format.separate ls) <= 3 * List.length ls.
Proof.
  induction ls as [|l ls IH]; [cbn; lia|].
  cbn [Format.separate app List.length]. rewrite !length_app.
  assert (Ha : List.length
                 (if startswith "import" (strip l)
                  then match ls with
                       | [] => []
                       | next :: _ =>
                           if negb (is_empty (strip next))
                              && negb (startswith "import" (strip next))
                           then [""] else []
                       end
                  else []) <= 1).
  { destruct (startswith "import" (strip l)); [|cbn; lia].
    destruct ls as [|next ls']; [cbn; lia|].
    destruct (negb (is_empty (strip next))
              && negb (startswith "import" (strip next))); cbn; lia. }
  assert (Hb : List.length
                 (if contains "contract " l && contains "{" l
                  then [""] else []) <= 1).
  { destruct (contains "contract " l && contains "{" l); cbn; lia. }
  lia.
Qed.

(** *** Lines of a joined text *)

Lemma one_line_piece (s : string) :
  contains newline s = false -> one_line s = true.
Proof.
  induction s as [|c s IH]; [reflexivity|].
  unfold newline. cbn [contains startswith]. intros H.
  apply orb_false_elim in H as [Hc H]. rewrite andb_true_r in Hc.
  unfold one_line. cbn [all]. rewrite Hc. exact (IH H).
Qed.

Lemma lines_one_line (s : string) :
  Forall (fun l => one_line l = true) (lines s).
Proof.
  pose proof (split_pieces_without (ascii_of_nat 10) s 0) as H.
  unfold lines, split. rewrite Forall_forall in *. intros l Hl.
  apply one_line_piece. exact (H l Hl).
Qed.

Lemma split_one_line (x : string) :
  one_line x = true -> split_from newline x 0 = [x].
Proof.
  induction x as [|c x IH]; [reflexivity|].
  unfold one_line. cbn [all]. intros H. apply andb_prop in H as [Hc H].
  apply negb_true_iff in Hc.
  cbn [split_from]. unfold newline at 1. cbn [startswith].
  rewrite Hc. cbn [andb]. rewrite (IH H). reflexivity.
Qed.

Lemma split_line_app (x rest : string) :
  one_line x = true ->
  split_from newline (x ++ newline ++ rest) 0
  = x :: split_from newline rest 0.
Proof.
  induction x as [|c x IH].
  - intros _. reflexivity.
  - unfold one_line. cbn [all]. intros H. apply andb_prop in H as [Hc H].
    apply negb_true_iff in Hc.
    cbn [append split_from]. unfold newline at 1. cbn [startswith].
    rewrite Hc. cbn [andb]. rewrite (IH H). reflexivity.
Qed.

Lemma lines_join (l : string) (ls : list string) :
  Forall (fun x => one_line x = true) (l :: ls) ->
  lines (join newline (l :: ls)) = l :: ls.
Proof.
  revert l. induction ls as [|l' ls IH]; intros l H.
  - inversion H as [|? ? Hl _]. subst. apply split_one_line. exact Hl.
  - inversion H as [|? ? Hl Hrest]. subst.
    change (join newline (l :: l' :: ls))
      with (l ++ newline ++ join newline (l' :: ls)).
    unfold lines, split. rewrite (split_line_app _ _ Hl).
    f_equal. apply (IH l' Hrest).
Qed.

Lemma squeeze_join (ls : list string) :
  squeeze (join newline ls) = join "" (code_text ls).
Proof.
  assert (Hnil : forall s : string, s ++ "" = s).
  { induction s as [|c s IH]; [reflexivity|].
    cbn [append]. rewrite IH. reflexivity. }
  induction ls as [|l ls IH]; [reflexivity|].
  destruct ls as [|l' ls].
  - cbn [join]. rewrite code_text_cons, is_empty_strip.
    destruct (squeeze l); reflexivity.
  - change (join newline (l :: l' :: ls))
      with (l ++ newline ++ join newline (l' :: ls)).
    rewrite !squeeze_app, IH. change (squeeze newline) with "".
    cbn [append]. rewrite (code_text_cons l), is_empty_strip.
    destruct (squeeze l) as [|c r] eqn:E; [reflexivity|].
    cbn [is_empty]. destruct (code_text (l' :: ls)) as [|t ts].
    + cbn [join]. apply Hnil.
    + reflexivity.
Qed.

Lemma formatted_lines_facts (contract_code : string) :
  exists l ls,
    Format.final_lines contract_code = l :: ls
    /\ Forall (fun x => one_line x = true) (l :: ls)
    /\ code_text (l :: ls) = code_text (lines contract_code)
    /\ List.length (l :: ls) <= 3 * List.length (lines contract_code).
Proof.
  unfold Format.final_lines.
  destruct (fold_step (lines contract_code) Format.initial
                      (lines_one_line contract_code))
    as (fs & Hfs & Hs & Ho).
  cbn [Format.initial Format.formatted_lines app] in Hfs. rewrite Hfs.
  assert (Hlen : List.length fs = List.length (lines contract_code)).
  { rewrite <- (length_map squeeze fs), Hs. apply length_map. }
  assert (Htext : code_text fs = code_text (lines contract_code)).
  { unfold code_text. rewrite Hs. reflexivity. }
  destruct fs as [|f fs].
  { pose proof (lines_not_empty contract_code) as Hne.
    destruct (lines contract_code); [contradiction | discriminate Hlen]. }
  destruct (clean_first f fs) as (rest & Hc).
  pose proof (clean_length (f :: fs) false) as Hcl.
  pose proof (clean_forall _ (f :: fs) false Ho) as Hco.
  pose proof (clean_text (f :: fs) false) as Hct.
  rewrite Hc in *.
  pose proof (separate_length (f :: rest)) as [_ Hsl].
  pose proof (separate_forall _ (f :: rest) eq_refl Hco) as Hso.
  pose proof (separate_text (f :: rest)) as Hst.
  destruct (Format.separate (f :: rest)) as [|l ls] eqn:Es;
    [cbn [Format.separate app] in Es; discriminate Es|].
  exists l, ls. split; [reflexivity|]. split; [exact Hso|].
  split; [congruence | lia].
Qed.

(** X28: the two counts [format_solidity_code] returns are line counts:
    [original_lines] is the number of lines of the source and
    [formatted_lines] that of the formatted text; the formatted text has
    at least one line and at most three times the lines of the source. *)
Theorem formatted_line_counts (contract_code : string) :
  exists d,
    Format.format_solidity_code contract_code = Success d
    /\ Format.original_lines d = List.length (lines contract_code)
    /\ Format.formatted_lines_count d
       = List.length (lines (Format.formatted_code d))
    /\ 1 <= Format.formatted_lines_count d <= 3 * Format.original_lines d.
Proof.
  unfold Format.format_solidity_code. cbv zeta. eexists.
  split; [reflexivity|].
  cbn [Format.original_lines Format.formatted_lines_count
       Format.formatted_code].
  destruct (formatted_lines_facts contract_code)
    as (l & ls & -> & Ho & _ & Hlen).
  rewrite (lines_join l ls Ho). split; [reflexivity|].
  split; [reflexivity|]. cbn [List.length] in *. lia.
Qed.

(** X29: [format_solidity_code] changes white space only: the lines of
    the formatted text that hold more than white space are those of the
    source, one for one and in order, once the white space is taken out
    of both; so is the formatted text as a whole. *)
Theorem formatting_changes_white_space_only (contract_code : string) :
  exists d,
    Format.format_solidity_code contract_code = Success d
    /\ code_text (lines (Format.formatted_code d))
       = code_text (lines contract_code)
    /\ squeeze (Format.formatted_code d) = squeeze contract_code.
Proof.
  unfold Format.format_solidity_code. cbv zeta. eexists.
  split; [reflexivity|]. cbn [Format.formatted_code].
  destruct (formatted_lines_facts contract_code)
    as (l & ls & -> & Ho & Htext & _).
  rewrite (lines_join l ls Ho). split; [exact Htext|].
  rewrite squeeze_join, Htext, <- squeeze_join, join_lines. reflexivity.
Qed.

(** *** Formatting and the metrics *)

Lemma written_lines (ls : list string) :
  List.length
    (filter (fun line => negb (is_empty (strip line))
                         && negb (startswith "//" (strip line))) ls)
  + List.length (filter (fun line => startswith "//" (strip line)) ls)
  = List.length (code_text ls).
Proof.
  induction ls as [|l ls IH]; [reflexivity|].
  rewrite code_text_cons. cbn [filter].
  assert (H : is_empty (strip l) = true -> startswith "//" (strip l) = false).
  { destruct (strip l); [reflexivity | discriminate]. }
  destruct (is_empty (strip l)) eqn:E.
  - rewrite (H eq_refl). cbn [negb andb]. exact IH.
  - destruct (startswith "//" (strip l));
      cbn [negb andb List.length]; lia.
Qed.

(** X30: formatting keeps what [get_contract_metrics] counts as written:
    the code lines and comment lines of the formatted text are together as
    many as those of the source, and the formatted text has at most three
    times its lines. *)
Theorem formatting_keeps_written_lines (contract_code : string) :
  exists d m m',
    Format.format_solidity_code contract_code = Success d
    /\ Metrics.get_contract_metrics contract_code = Success m
    /\ Metrics.get_contract_metrics (Format.formatted_code d) = Success m'
    /\ Metrics.code_lines m' + Metrics.comment_lines m'
       = Metrics.code_lines m + Metrics.comment_lines m
    /\ Metrics.total_lines m' <= 3 * Metrics.total_lines m.
Proof.
  unfold Format.format_solidity_code, Metrics.get_contract_metrics.
  cbv zeta. do 3 eexists.
  split; [reflexivity|]. split; [reflexivity|]. split; [reflexivity|].
  cbn [Format.formatted_code Metrics.code_lines Metrics.comment_lines
       Metrics.total_lines].
  destruct (formatted_lines_facts contract_code)
    as (l & ls & -> & Ho & Htext & Hlen).
  rewrite (lines_join l ls Ho), !written_lines, Htext.
  split; [reflexivity | exact Hlen].
Qed.


(** ** The agent: access control, line by line *)

Lemma firstn_skipn_forall {A : Type} (P : A -> Prop) (n : nat) (l : list A) :
  Forall P l -> Forall P (firstn n l) /\ Forall P (skipn n l).
Proof.
  intros H. rewrite <- (firstn_skipn n l) in H.
  apply Forall_app in H. exact H.
Qed.

(** X23: [implement_access_control] leaves the source as it is unless the
    rules ask for [ownable] and the source does not mention [Ownable]
    anywhere; in that one case it puts the import of [Ownable.sol] in as
    the fourth line, after the first three lines of the source, or as the
    last line of a shorter source, and keeps every other line in its
    order.  Afterwards the source mentions [Ownable], so a second call
    with the same rules changes nothing more. *)
Theorem access_control_idempotent
        (contract_code : string) (rules : Agent.access_rules) :
  exists c,
    Agent.implement_access_control contract_code rules = Success c
    /\ Agent.implement_access_control (Agent.controlled_code c) rules
       = Success c
    /\ contains "Ownable" (Agent.controlled_code c)
       = contains "Ownable" contract_code
         || match Agent.rules_type rules with
            | Some t => String.eqb t "ownable"
            | None => false
            end
    /\ (Agent.rules_type rules <> Some "ownable"
        \/ contains "Ownable" contract_code = true ->
        Agent.controlled_code c = contract_code)
    /\ (Agent.rules_type rules = Some "ownable" ->
        contains "Ownable" contract_code = false ->
        lines (Agent.controlled_code c)
        = (firstn 3 (lines contract_code)
             ++ Agent.ownable_import :: skipn 3 (lines contract_code))%list).
Proof.
  unfold Agent.implement_access_control.
  assert (Hins : contains "Ownable"
                   (join newline
                      (insert 3 Agent.ownable_import (lines contract_code)))
                 = true).
  { apply (contains_join _ _ Agent.ownable_import).
    - unfold insert. apply in_or_app. right. left. reflexivity.
    - vm_compute. reflexivity. }
  assert (Hlines : lines (join newline
                            (insert 3 Agent.ownable_import
                                    (lines contract_code)))
                   = (firstn 3 (lines contract_code)
                        ++ Agent.ownable_import
                        :: skipn 3 (lines contract_code))%list).
  { unfold insert.
    destruct (firstn_skipn_forall _ 3 _ (lines_one_line contract_code))
      as [Hf Hs].
    assert (Hall : Forall (fun x => one_line x = true)
                          (firstn 3 (lines contract_code)
                             ++ Agent.ownable_import
                             :: skipn 3 (lines contract_code))).
    { apply Forall_app. split; [exact Hf|].
      constructor; [vm_compute; reflexivity | exact Hs]. }
    destruct (firstn 3 (lines contract_code)
                ++ Agent.ownable_import :: skipn 3 (lines contract_code))%list
      as [|l ls] eqn:E.
    - destruct (firstn 3 (lines contract_code)); discriminate E.
    - apply lines_join. exact Hall. }
  destruct (contains "Ownable" contract_code) eqn:Ho.
  - cbn [negb andb orb]. eexists. split; [reflexivity|].
    cbn [Agent.controlled_code]. rewrite Ho. cbn [negb andb].
    split; [reflexivity|]. split; [reflexivity|].
    split; [reflexivity | discriminate].
  - destruct (Agent.rules_type rules) as [t|] eqn:Et.
    + destruct (String.eqb t "ownable") eqn:E.
      * cbn [negb andb orb]. eexists. split; [reflexivity|].
        cbn [Agent.controlled_code]. rewrite Hins. cbn [negb andb].
        split; [reflexivity|]. split; [reflexivity|].
        apply String.eqb_eq in E. subst t. split.
        -- intros [Hne | Hc]; [contradiction Hne; reflexivity
                               | discriminate Hc].
        -- intros _ _. exact Hlines.
      * cbn [negb andb orb]. eexists. split; [reflexivity|].
        cbn [Agent.controlled_code]. rewrite Ho. cbn [negb andb].
        split; [reflexivity|]. split; [reflexivity|].
        split; [reflexivity|].
        intros Heq. injection Heq as ->. discriminate E.
    + cbn [negb andb orb]. eexists. split; [reflexivity|].
      cbn [Agent.controlled_code]. rewrite Ho. cbn [negb andb].
      split; [reflexivity|]. split; [reflexivity|].
      split; [reflexivity | discriminate].
Qed.

Lemma access_control_idempotent_witness :
  exists c,
    Agent.implement_access_control
      (join newline ["// SPDX-License-Identifier: MIT";
                     "pragma solidity ^0.8.19;"; ""; "contract C {"; "}"])
      {| Agent.rules_type := Some "ownable" |}
    = Success c
    /\ lines (Agent.controlled_code c)
       = ["// SPDX-License-Identifier: MIT"; "pragma solidity ^0.8.19;"; "";
          Agent.ownable_import; "contract C {"; "}"].
Proof.
  destruct (access_control_idempotent
              (join newline ["// SPDX-License-Identifier: MIT";
                             "pragma solidity ^0.8.19;"; ""; "contract C {";
                             "}"])
              {| Agent.rules_type := Some "ownable" |})
    as (c & Hc & _ & _ & _ & Hlines).
  exists c. split; [exact Hc|].
  rewrite (Hlines eq_refl); [vm_compute; reflexivity|].
  vm_compute. reflexivity.
Defined.
